(** * Ticket9ja backend: ticket lifecycle, event lock and door scan

    A shallow embedding of the request handlers of [main.py], the entities of
    [models.py] and the helpers of [ticket_utils.py], followed by the
    properties of the ticket lifecycle that the specification states and by
    properties of the handlers read off the code: invariants of the store,
    error answers, deletions, statistics, listings, identifiers and files.

    The database is a pair of tables kept as lists of rows in insertion
    order; the file system is a finite map from paths to images; the clock
    and the UUID generator are read through a counter into an arbitrary
    sequence of readings; which mails are delivered, which bytes PIL reads
    as an image and which addresses [email-validator] takes are arbitrary
    functions.  A handler is a function from the world to a
    result and a new world: what a handler has committed before raising
    stays in the world it returns. *)

From stdpp Require Import gmap strings list fin_maps sorting pretty.
From Stdlib Require Import ZArith Ascii String Lia.

Local Open Scope string_scope.
Local Open Scope Z_scope.

(** ** Dates and their string forms *)

(** A [datetime.datetime] value (naive, UTC). *)
Record datetime : Type := mk_datetime {
  year : nat; month : nat; day : nat;
  hour : nat; minute : nat; second : nat; microsecond : nat
}.

#[global] Instance datetime_eq_dec : EqDecision datetime.
Proof. solve_decision. Defined.

Definition digit (n : nat) : ascii := ascii_of_nat (48 + n mod 10).

(** [n] in decimal, zero padded to [width] digits. *)
Fixpoint zfill (width n : nat) : string :=
  match width with
  | O => ""
  | S w => zfill w (n / 10) +:+ String (digit n) ""
  end.

(** [d.strftime("%Y%m%d%H%M%S")] *)
Definition strftime_compact (d : datetime) : string :=
  zfill 4 (year d) +:+ zfill 2 (month d) +:+ zfill 2 (day d) +:+
  zfill 2 (hour d) +:+ zfill 2 (minute d) +:+ zfill 2 (second d).

(** [d.strftime('%Y-%m-%d %H:%M:%S')] *)
Definition strftime_human (d : datetime) : string :=
  zfill 4 (year d) +:+ "-" +:+ zfill 2 (month d) +:+ "-" +:+ zfill 2 (day d) +:+
  " " +:+ zfill 2 (hour d) +:+ ":" +:+ zfill 2 (minute d) +:+ ":" +:+ zfill 2 (second d).

(** [d.isoformat()]: the microseconds are printed only when they are not zero. *)
Definition isoformat (d : datetime) : string :=
  zfill 4 (year d) +:+ "-" +:+ zfill 2 (month d) +:+ "-" +:+ zfill 2 (day d) +:+
  "T" +:+ zfill 2 (hour d) +:+ ":" +:+ zfill 2 (minute d) +:+ ":" +:+ zfill 2 (second d) +:+
  (if Nat.eqb (microsecond d) 0 then "" else "." +:+ zfill 6 (microsecond d)).

(** Lexicographic order on the fields, the order of [ORDER BY created_at]. *)
Definition datetime_key (d : datetime) : list nat :=
  [year d; month d; day d; hour d; minute d; second d; microsecond d].

Fixpoint key_leb (a b : list nat) : bool :=
  match a, b with
  | x :: a', y :: b' => if Nat.ltb x y then true else if Nat.ltb y x then false else key_leb a' b'
  | _, _ => true
  end.

Definition datetime_leb (a b : datetime) : bool := key_leb (datetime_key a) (datetime_key b).

(** ** Strings *)

Definition upper_ascii (c : ascii) : ascii :=
  let n := nat_of_ascii c in
  if Nat.leb 97 n && Nat.leb n 122 then ascii_of_nat (n - 32) else c.

(** [s.upper()] on ASCII text. *)
Fixpoint upper (s : string) : string :=
  match s with
  | EmptyString => EmptyString
  | String c s' => String (upper_ascii c) (upper s')
  end.

(** [s[:n]] on ASCII text, where the characters are the bytes. *)
Definition prefix_of (n : nat) (s : string) : string := substring 0 n s.

(** A continuation byte of UTF-8, [10xxxxxx]. *)
Definition is_continuation (c : ascii) : bool :=
  Nat.leb 128 (nat_of_ascii c) && Nat.ltb (nat_of_ascii c) 192.

(** [s[:n]] on any text: Python counts characters, and in the UTF-8 bytes
    of a string a character is a byte that is not a continuation byte,
    followed by its continuation bytes. *)
Fixpoint chars_prefix (n : nat) (s : string) : string :=
  match s with
  | EmptyString => EmptyString
  | String c s' =>
    if is_continuation c then String c (chars_prefix n s')
    else match n with
         | O => EmptyString
         | S n' => String c (chars_prefix n' s')
         end
  end.

(** ["@" in s] *)
Fixpoint has_at_sign (s : string) : bool :=
  match s with
  | EmptyString => false
  | String c s' => Ascii.eqb c "@" || has_at_sign s'
  end.

(** Python truthiness of a [str]. *)
Definition truthy (s : string) : bool := negb (String.eqb s "").

(** Python truthiness of an [Optional[str]]. *)
Definition truthy_opt (o : option string) : bool :=
  match o with
  | Some s => truthy s
  | None => false
  end.

(** [o or ""] *)
Definition or_empty (o : option string) : string :=
  match o with
  | Some s => if truthy s then s else ""
  | None => ""
  end.

(** ** Entities ([models.py]) *)

Module Event.
Record t : Type := mk {
  id : Z;
  name : string;
  event_date : string;
  event_time : string;
  venue : string;
  city : string;
  description : option string;
  ticket_design_path : option string;
  is_active : bool;
  is_locked : bool;
  created_at : datetime;
  updated_at : datetime
}.

#[global] Instance eq_dec : EqDecision t.
Proof. solve_decision. Defined.

Definition set_is_active (b : bool) (e : t) : t :=
  mk (id e) (name e) (event_date e) (event_time e) (venue e) (city e)
     (description e) (ticket_design_path e) b (is_locked e)
     (created_at e) (updated_at e).

Definition set_is_locked (b : bool) (e : t) : t :=
  mk (id e) (name e) (event_date e) (event_time e) (venue e) (city e)
     (description e) (ticket_design_path e) (is_active e) b
     (created_at e) (updated_at e).

Definition set_ticket_design_path (p : option string) (e : t) : t :=
  mk (id e) (name e) (event_date e) (event_time e) (venue e) (city e)
     (description e) p (is_active e) (is_locked e)
     (created_at e) (updated_at e).

Definition set_updated_at (d : datetime) (e : t) : t :=
  mk (id e) (name e) (event_date e) (event_time e) (venue e) (city e)
     (description e) (ticket_design_path e) (is_active e) (is_locked e)
     (created_at e) d.
End Event.

Module Ticket.
Record t : Type := mk {
  id : Z;
  ticket_id : string;
  event_id : Z;
  attendee_name : string;
  attendee_email : string;
  ticket_type : string;
  qr_code_path : option string;
  ticket_image_path : option string;
  is_used : bool;
  used_at : option datetime;
  created_at : datetime;
  updated_at : datetime
}.

#[global] Instance eq_dec : EqDecision t.
Proof. solve_decision. Defined.

Definition set_attendee_name (s : string) (k : t) : t :=
  mk (id k) (ticket_id k) (event_id k) s (attendee_email k) (ticket_type k)
     (qr_code_path k) (ticket_image_path k) (is_used k) (used_at k)
     (created_at k) (updated_at k).

Definition set_attendee_email (s : string) (k : t) : t :=
  mk (id k) (ticket_id k) (event_id k) (attendee_name k) s (ticket_type k)
     (qr_code_path k) (ticket_image_path k) (is_used k) (used_at k)
     (created_at k) (updated_at k).

Definition set_ticket_type (s : string) (k : t) : t :=
  mk (id k) (ticket_id k) (event_id k) (attendee_name k) (attendee_email k) s
     (qr_code_path k) (ticket_image_path k) (is_used k) (used_at k)
     (created_at k) (updated_at k).

Definition set_ticket_image_path (p : option string) (k : t) : t :=
  mk (id k) (ticket_id k) (event_id k) (attendee_name k) (attendee_email k)
     (ticket_type k) (qr_code_path k) p (is_used k) (used_at k)
     (created_at k) (updated_at k).

Definition set_is_used (b : bool) (k : t) : t :=
  mk (id k) (ticket_id k) (event_id k) (attendee_name k) (attendee_email k)
     (ticket_type k) (qr_code_path k) (ticket_image_path k) b (used_at k)
     (created_at k) (updated_at k).

Definition set_used_at (d : option datetime) (k : t) : t :=
  mk (id k) (ticket_id k) (event_id k) (attendee_name k) (attendee_email k)
     (ticket_type k) (qr_code_path k) (ticket_image_path k) (is_used k) d
     (created_at k) (updated_at k).

Definition set_updated_at (d : datetime) (k : t) : t :=
  mk (id k) (ticket_id k) (event_id k) (attendee_name k) (attendee_email k)
     (ticket_type k) (qr_code_path k) (ticket_image_path k) (is_used k) (used_at k)
     (created_at k) d.
End Ticket.

(** ** Request bodies ([main.py], the pydantic models) *)

Module EventCreate.
Record t : Type := mk {
  name : string;
  event_date : string;
  event_time : string;
  venue : string;
  city : string;
  description : option string
}.
End EventCreate.

Module TicketCreate.
Record t : Type := mk {
  attendee_name : string;
  attendee_email : string;
  ticket_type : string;
  quantity : Z
}.
End TicketCreate.

Module TicketUpdate.
Record t : Type := mk {
  attendee_name : option string;
  attendee_email : option string;
  ticket_type : option string
}.
End TicketUpdate.

Module ScanRequest.
Record t : Type := mk { ticket_id : string }.
End ScanRequest.

(** ** Files ([ticket_utils.py])

    What the image pipeline writes, abstracted to what determines the
    pixels: the payload of a QR code, the layers and the text lines of a
    rendered ticket. *)

Inductive font : Type := font_title | font_large | font_medium | font_small.

#[warnings="-register-all"]
Inductive image : Type :=
| Uploaded (data : string)
| QRImage (payload : string)
| TicketImage (background : option image) (pasted_qr : option image)
              (texts : list (Z * Z * string * font)).

(** ** Failures *)

Inductive error : Type :=
| HTTPException (status_code : nat) (detail : string)
| RequestValidationError     (* FastAPI answers it with HTTP 422 *)
| AttributeError
| TypeError
| IntegrityError
| OverflowError
| UnidentifiedImageError.

Inductive result (A : Type) : Type :=
| Ok (a : A)
| Raise (e : error).
Arguments Ok {A} a.
Arguments Raise {A} e.

Definition HTTP_400_BAD_REQUEST : nat := 400.
Definition HTTP_404_NOT_FOUND : nat := 404.
Definition HTTP_500_INTERNAL_SERVER_ERROR : nat := 500.

(** ** The world a handler runs in *)

Record mail : Type := mk_mail {
  to_email : string;
  subject : string;
  about_ticket : string;
  attachment : option image;
  delivered : bool
}.

Record World : Type := mk_world {
  events : list Event.t;          (* table "events" *)
  tickets : list Ticket.t;        (* table "tickets" *)
  files : gmap string image;      (* the files under uploads/ and tickets/ *)
  ticks : nat;                    (* readings of the clock taken so far *)
  draws : nat;                    (* UUIDs drawn so far *)
  outbox : list mail              (* delivery attempts, oldest first *)
}.

Definition empty_world : World := mk_world [] [] ∅ 0 0 [].

Definition set_events (es : list Event.t) (w : World) : World :=
  mk_world es (tickets w) (files w) (ticks w) (draws w) (outbox w).
Definition set_tickets (ts : list Ticket.t) (w : World) : World :=
  mk_world (events w) ts (files w) (ticks w) (draws w) (outbox w).
Definition set_files (fs : gmap string image) (w : World) : World :=
  mk_world (events w) (tickets w) fs (ticks w) (draws w) (outbox w).
Definition set_ticks (n : nat) (w : World) : World :=
  mk_world (events w) (tickets w) (files w) n (draws w) (outbox w).
Definition set_draws (n : nat) (w : World) : World :=
  mk_world (events w) (tickets w) (files w) (ticks w) n (outbox w).
Definition set_outbox (ms : list mail) (w : World) : World :=
  mk_world (events w) (tickets w) (files w) (ticks w) (draws w) ms.

(** A handler: state passing, and an exception ends the run with the world
    as it is at that point. *)
Definition M (A : Type) : Type := World → result A * World.

#[global] Instance M_ret : MRet M := λ A a w, (Ok a, w).
#[global] Instance M_bind : MBind M := λ A B f m w,
  match m w with
  | (Ok a, w') => f a w'
  | (Raise e, w') => (Raise e, w')
  end.

Definition raise {A : Type} (e : error) : M A := λ w, (Raise e, w).
Definition gets {A : Type} (f : World → A) : M A := λ w, (Ok (f w), w).
Definition modify (f : World → World) : M unit := λ w, (Ok tt, f w).

(** ** Rows *)

(** The rowid SQLite gives to a new row: one more than the largest in use. *)
Definition next_id (ids : list Z) : Z := 1 + foldr Z.max 0 ids.

Definition replace_event (e : Event.t) (es : list Event.t) : list Event.t :=
  map (λ r, if Event.id r =? Event.id e then e else r) es.

Definition replace_ticket (k : Ticket.t) (ts : list Ticket.t) : list Ticket.t :=
  map (λ r, if Ticket.id r =? Ticket.id k then k else r) ts.

(** An [INTEGER] of SQLite has 64 bits, and so has every id it stores. The
    driver raises [OverflowError] on a Python [int] beyond them, before the
    query runs. Such a parameter is the id of no row: a lookup that finds a
    row has bound its parameter. *)
Definition sqlite_int (n : Z) : bool := (- 2 ^ 63 <=? n) && (n <? 2 ^ 63).

(** [db.query(Event).filter(Event.id == event_id).first()] *)
Definition event_by_id (event_id : Z) : M (option Event.t) :=
  λ w, match find (λ e, Event.id e =? event_id) (events w) with
       | Some event => (Ok (Some event), w)
       | None => if sqlite_int event_id then (Ok None, w) else (Raise OverflowError, w)
       end.

(** [db.query(Ticket).filter(Ticket.id == ticket_id).first()] *)
Definition ticket_by_id (ticket_id : Z) : M (option Ticket.t) :=
  λ w, match find (λ k, Ticket.id k =? ticket_id) (tickets w) with
       | Some ticket => (Ok (Some ticket), w)
       | None => if sqlite_int ticket_id then (Ok None, w) else (Raise OverflowError, w)
       end.

(** [db.query(Ticket).filter(Ticket.ticket_id == ticket_id).first()] *)
Definition ticket_by_ticket_id (ticket_id : string) : M (option Ticket.t) :=
  gets (λ w, find (λ k, String.eqb (Ticket.ticket_id k) ticket_id) (tickets w)).

(** [query.order_by(column.desc()).all()] on a table without an index on
    the column: SQLite reads the rows in the order of their ids, which is
    the order of the list, and sorts them with a stable sort, so that rows
    with the same [created_at] stay in the order of their ids. *)
Fixpoint insert_desc {A : Type} (key : A → datetime) (x : A) (sorted : list A) : list A :=
  match sorted with
  | [] => [x]
  | y :: sorted' =>
    if datetime_leb (key y) (key x) then x :: y :: sorted'
    else y :: insert_desc key x sorted'
  end.

Definition order_by_desc {A : Type} (key : A → datetime) (rows : list A) : list A :=
  foldr (insert_desc key) [] rows.

(** ** Paths and the image pipeline *)

Section Server.

(** The directories depend on where the program is installed; the clock,
    the UUID source, the mail server and [os.path.splitext] are the
    environment's. *)
Variable UPLOAD_DIR : string.
Variable TICKETS_DIR : string.
Variable clock : nat → datetime.      (* the n-th reading of [datetime.utcnow()] *)
Variable uuid4 : nat → string.        (* the n-th value of [str(uuid.uuid4())] *)
Variable smtp_ok : nat → bool.        (* does the n-th delivery attempt go through *)
Variable splitext_ext : string → string. (* [os.path.splitext(name)[1]] *)
Variable decodable : string → bool.   (* does PIL read these bytes as an image *)
Variable email_validator : string → option string.
                                      (* the normal form of an address, if it is one *)

(** [os.path.join(dir, name)] for a directory that does not end in a slash
    and a relative name, which is the case at every call. *)
Definition path_join (dir name : string) : string := dir +:+ "/" +:+ name.

Definition QR_DIR : string := path_join TICKETS_DIR "qr_codes".

Definition utcnow : M datetime :=
  λ w, (Ok (clock (ticks w)), set_ticks (S (ticks w)) w).

Definition new_uuid4 : M string :=
  λ w, (Ok (uuid4 (draws w)), set_draws (S (draws w)) w).

Definition exists_file (path : string) : M bool :=
  gets (λ w, bool_decide (is_Some (files w !! path))).

Definition save_file (path : string) (img : image) : M unit :=
  modify (λ w, set_files (<[path := img]> (files w)) w).

Definition remove_file (path : string) : M unit :=
  modify (λ w, set_files (delete path (files w)) w).

Definition generate_ticket_id : M string :=
  now ← utcnow;
  let timestamp := strftime_compact now in
  u ← new_uuid4;
  let unique_id := upper (prefix_of 8 u) in
  mret ("TKT-" +:+ timestamp +:+ "-" +:+ unique_id).

Definition qr_path (ticket_id : string) : string :=
  path_join QR_DIR ("qr_" +:+ ticket_id +:+ ".png").

Definition generate_qr_code (ticket_id : string) : M string :=
  let img := QRImage ticket_id in
  let output_path := qr_path ticket_id in
  save_file output_path img;;
  mret output_path.

Definition ticket_path (ticket_id : string) : string :=
  path_join TICKETS_DIR ("ticket_" +:+ ticket_id +:+ ".jpg").

(** [Image.open(path)] and the first use of the pixels, on a file that
    exists: what the pipeline has written is an image; an uploaded file is
    one when PIL can read its bytes, and [UnidentifiedImageError] is raised
    when it cannot. *)
Definition open_image (stored : image) : M image :=
  match stored with
  | Uploaded data =>
    if decodable data then mret stored else raise UnidentifiedImageError
  | _ => mret stored
  end.

(** [if path and os.path.exists(path): Image.open(path)] *)
Definition open_if_exists (stored : option image) : M (option image) :=
  match stored with
  | Some stored => img ← open_image stored; mret (Some img)
  | None => mret None
  end.

Definition render_ticket_image
    (ticket_design_path attendee_name ticket_type ticket_id qr_code_path
     event_name event_date event_time venue : string) : M string :=
  (* Load or create ticket background *)
  design ← gets (λ w, files w !! ticket_design_path);
  background ← open_if_exists (if truthy ticket_design_path then design else None);
  (* Add QR code *)
  qr ← gets (λ w, files w !! qr_code_path);
  qr_img ← open_if_exists qr;
  let texts :=
    [ (40, 40, chars_prefix 40 event_name, font_title);
      (40, 90, "Attendee: " +:+ attendee_name, font_large);
      (40, 130, "Type: " +:+ ticket_type, font_medium);
      (40, 170, "Date: " +:+ event_date, font_medium);
      (40, 200, "Time: " +:+ event_time, font_medium);
      (40, 230, "Venue: " +:+ venue, font_medium);
      (40, 350, "Ticket ID: " +:+ ticket_id, font_small) ] in
  let output_path := ticket_path ticket_id in
  save_file output_path (TicketImage background qr_img texts);;
  mret output_path.

Definition send_ticket_email
    (to attendee_name event_name event_date event_time venue city
     ticket_id ticket_type ticket_image_path : string) : M bool :=
  img ← gets (λ w, files w !! ticket_image_path);
  n ← gets (λ w, List.length (outbox w));
  let ok := smtp_ok n in
  modify (λ w, set_outbox
    (outbox w ++ [mk_mail to ("Your Ticket for " +:+ event_name) ticket_id img ok]) w);;
  mret ok.

(** ** The session: inserts and the UPDATE a commit sends *)

(** [db.add(row); db.commit(); db.refresh(row)] on table "events": the
    column defaults read the clock, the database gives the id. *)
Definition add_event (row : Z → datetime → datetime → Event.t) : M Event.t :=
  created ← utcnow;
  updated ← utcnow;
  ids ← gets (λ w, map Event.id (events w));
  let e := row (next_id ids) created updated in
  modify (λ w, set_events (events w ++ [e]) w);;
  mret e.

(** The same on table "tickets", whose column [ticket_id] is UNIQUE: the
    database rejects a second row with a stored identifier. *)
Definition add_ticket (ticket_id : string)
    (row : Z → datetime → datetime → Ticket.t) : M Ticket.t :=
  created ← utcnow;
  updated ← utcnow;
  taken ← gets (λ w, existsb (λ k, String.eqb (Ticket.ticket_id k) ticket_id) (tickets w));
  if taken : bool then raise IntegrityError
  else
    ids ← gets (λ w, map Ticket.id (tickets w));
    let k := row (next_id ids) created updated in
    modify (λ w, set_tickets (tickets w ++ [k]) w);;
    mret k.

(** [db.commit(); db.refresh(event)] after assignments to a loaded row:
    no UPDATE is sent when no attribute has changed; [onupdate] fills
    [updated_at] unless the handler assigned it. The row is addressed by
    its primary key. *)
Definition flush_event (loaded e : Event.t) : M Event.t :=
  if decide (e = loaded) then mret e
  else
    e' ← (if decide (Event.updated_at e = Event.updated_at loaded)
          then now ← utcnow; mret (Event.set_updated_at now e)
          else mret e);
    modify (λ w, set_events (replace_event e' (events w)) w);;
    mret e'.

Definition flush_ticket (loaded k : Ticket.t) : M Ticket.t :=
  if decide (k = loaded) then mret k
  else
    k' ← (if decide (Ticket.updated_at k = Ticket.updated_at loaded)
          then now ← utcnow; mret (Ticket.set_updated_at now k)
          else mret k);
    modify (λ w, set_tickets (replace_ticket k' (tickets w)) w);;
    mret k'.

(** ** Event routes ([main.py]) *)

Definition create_event (event_data : EventCreate.t) : M Event.t :=
  add_event (λ id created updated,
    Event.mk id
      (EventCreate.name event_data)
      (EventCreate.event_date event_data)
      (EventCreate.event_time event_data)
      (EventCreate.venue event_data)
      (EventCreate.city event_data)
      (EventCreate.description event_data)
      None true false created updated).

Definition update_event (event_id : Z) (event_data : EventCreate.t) : M Event.t :=
  event ← event_by_id event_id;
  match event with
  | None => raise (HTTPException HTTP_404_NOT_FOUND "Event not found")
  | Some event =>
    if Event.is_locked event then
      raise (HTTPException HTTP_400_BAD_REQUEST
               "Cannot edit event after tickets have been generated")
    else
      flush_event event
        (Event.mk (Event.id event)
           (EventCreate.name event_data)
           (EventCreate.event_date event_data)
           (EventCreate.event_time event_data)
           (EventCreate.venue event_data)
           (EventCreate.city event_data)
           (EventCreate.description event_data)
           (Event.ticket_design_path event)
           (Event.is_active event) (Event.is_locked event)
           (Event.created_at event) (Event.updated_at event))
  end.

Definition delete_event (event_id : Z) : M string :=
  event ← event_by_id event_id;
  match event with
  | None => raise (HTTPException HTTP_404_NOT_FOUND "Event not found")
  | Some event =>
    (* Delete associated tickets *)
    modify (λ w, set_tickets
      (List.filter (λ k, negb (Ticket.event_id k =? event_id)) (tickets w)) w);;
    (* Delete event *)
    modify (λ w, set_events
      (List.filter (λ e, negb (Event.id e =? Event.id event)) (events w)) w);;
    mret ("Event '" +:+ Event.name event +:+
          "' and all associated tickets deleted successfully")
  end.

Definition toggle_event_active (event_id : Z) : M (string * bool) :=
  event ← event_by_id event_id;
  match event with
  | None => raise (HTTPException HTTP_404_NOT_FOUND "Event not found")
  | Some event =>
    event ← flush_event event (Event.set_is_active (negb (Event.is_active event)) event);
    let status_text := if Event.is_active event then "activated" else "deactivated" in
    mret ("Event '" +:+ Event.name event +:+ "' " +:+ status_text, Event.is_active event)
  end.

(** The part of the multipart body: the header [Content-Type] may be
    missing, and then [content_type] is [None]. *)
Record UploadFile : Type := mk_upload {
  content_type : option string;
  filename : string;
  file : string
}.

Definition upload_ticket_design (event_id : Z) (upload : UploadFile) : M (string * string) :=
  event ← event_by_id event_id;
  match event with
  | None => raise (HTTPException HTTP_404_NOT_FOUND "Event not found")
  | Some event =>
    match content_type upload with
    | None => raise AttributeError   (* [None.startswith] *)
    | Some content_type =>
      if negb (String.prefix "image/" content_type) then
        raise (HTTPException HTTP_400_BAD_REQUEST "File must be an image")
      else
        let file_extension := splitext_ext (filename upload) in
        let filename := "design_" +:+ pretty event_id +:+ file_extension in
        let file_path := path_join UPLOAD_DIR filename in
        save_file file_path (Uploaded (file upload));;
        flush_event event (Event.set_ticket_design_path (Some file_path) event);;
        mret ("Ticket design uploaded successfully", file_path)
    end
  end.

(** ** Ticket routes ([main.py]) *)

(** One turn of the loop of [create_tickets]. *)
Definition create_one_ticket (event : Event.t) (ticket_data : TicketCreate.t) : M Ticket.t :=
  ticket_id ← generate_ticket_id;
  qr_code_path ← generate_qr_code ticket_id;
  ticket_image_path ← render_ticket_image
    (or_empty (Event.ticket_design_path event))
    (TicketCreate.attendee_name ticket_data)
    (TicketCreate.ticket_type ticket_data)
    ticket_id
    qr_code_path
    (Event.name event)
    (Event.event_date event)
    (Event.event_time event)
    (Event.venue event);
  new_ticket ← add_ticket ticket_id (λ id created updated,
    Ticket.mk id ticket_id (Event.id event)
      (TicketCreate.attendee_name ticket_data)
      (TicketCreate.attendee_email ticket_data)
      (TicketCreate.ticket_type ticket_data)
      (Some qr_code_path) (Some ticket_image_path)
      false None created updated);
  send_ticket_email
    (TicketCreate.attendee_email ticket_data)
    (TicketCreate.attendee_name ticket_data)
    (Event.name event)
    (Event.event_date event)
    (Event.event_time event)
    (Event.venue event)
    (Event.city event)
    ticket_id
    (TicketCreate.ticket_type ticket_data)
    ticket_image_path;;
  mret new_ticket.

(** [for i in range(n)], with [created_tickets] as accumulator. *)
Fixpoint create_loop (n : nat) (event : Event.t) (ticket_data : TicketCreate.t)
    (created_tickets : list Ticket.t) : M (list Ticket.t) :=
  match n with
  | O => mret created_tickets
  | S n' =>
    new_ticket ← create_one_ticket event ticket_data;
    create_loop n' event ticket_data (created_tickets ++ [new_ticket])
  end.

(** The lock taken at the head of [create_tickets]. *)
Definition lock_on_first_ticket (event : Event.t) : M Event.t :=
  if negb (Event.is_locked event)
  then flush_event event (Event.set_is_locked true event)
  else mret event.

Definition create_tickets (event_id : Z) (ticket_data : TicketCreate.t) : M (list Ticket.t) :=
  event ← event_by_id event_id;
  match event with
  | None => raise (HTTPException HTTP_404_NOT_FOUND "Event not found")
  | Some event =>
    event ← lock_on_first_ticket event;
    create_loop (Z.to_nat (TicketCreate.quantity ticket_data)) event ticket_data []
  end.

(** [db.query(Ticket).filter(Ticket.event_id == event_id)
      .order_by(Ticket.created_at.desc()).all()] *)
Definition get_event_tickets (event_id : Z) : M (list Ticket.t) :=
  if sqlite_int event_id then
    gets (λ w, order_by_desc Ticket.created_at
                 (List.filter (λ k, Ticket.event_id k =? event_id) (tickets w)))
  else raise OverflowError.

(** [if value: ticket.field = value] *)
Definition assign_if_truthy (value : option string)
    (set : string → Ticket.t → Ticket.t) (ticket : Ticket.t) : Ticket.t :=
  match value with
  | Some s => if truthy s then set s ticket else ticket
  | None => ticket
  end.

Definition update_ticket (ticket_id : Z) (ticket_data : TicketUpdate.t) : M Ticket.t :=
  loaded ← ticket_by_id ticket_id;
  match loaded with
  | None => raise (HTTPException HTTP_404_NOT_FOUND "Ticket not found")
  | Some loaded =>
    let ticket := loaded in
    let ticket :=
      assign_if_truthy (TicketUpdate.attendee_name ticket_data) Ticket.set_attendee_name ticket in
    let ticket :=
      assign_if_truthy (TicketUpdate.attendee_email ticket_data) Ticket.set_attendee_email ticket in
    let ticket :=
      assign_if_truthy (TicketUpdate.ticket_type ticket_data) Ticket.set_ticket_type ticket in
    now ← utcnow;
    let ticket := Ticket.set_updated_at now ticket in
    event ← event_by_id (Ticket.event_id ticket);
    match event with
    | None => raise AttributeError
    | Some event =>
      match Ticket.qr_code_path ticket with
      | None => raise TypeError
      | Some qr_code_path =>
        ticket_image_path ← render_ticket_image
          (or_empty (Event.ticket_design_path event))
          (Ticket.attendee_name ticket)
          (Ticket.ticket_type ticket)
          (Ticket.ticket_id ticket)
          qr_code_path
          (Event.name event)
          (Event.event_date event)
          (Event.event_time event)
          (Event.venue event);
        let ticket := Ticket.set_ticket_image_path (Some ticket_image_path) ticket in
        flush_ticket loaded ticket
      end
    end
  end.

(** [if path and os.path.exists(path): os.remove(path)] *)
Definition remove_if_exists (path : option string) : M unit :=
  if truthy_opt path then remove_file (or_empty path) else mret tt.

Definition delete_ticket (ticket_id : Z) : M string :=
  ticket ← ticket_by_id ticket_id;
  match ticket with
  | None => raise (HTTPException HTTP_404_NOT_FOUND "Ticket not found")
  | Some ticket =>
    let ticket_info := Ticket.attendee_name ticket +:+ " - " +:+ Ticket.ticket_id ticket in
    (* Delete ticket files if they exist *)
    remove_if_exists (Ticket.qr_code_path ticket);;
    remove_if_exists (Ticket.ticket_image_path ticket);;
    modify (λ w, set_tickets
      (List.filter (λ k, negb (Ticket.id k =? Ticket.id ticket)) (tickets w)) w);;
    mret ("Ticket deleted successfully: " +:+ ticket_info)
  end.

Definition resend_ticket (ticket_id : Z) : M string :=
  ticket ← ticket_by_id ticket_id;
  match ticket with
  | None => raise (HTTPException HTTP_404_NOT_FOUND "Ticket not found")
  | Some ticket =>
    event ← event_by_id (Ticket.event_id ticket);
    match event with
    | None => raise AttributeError
    | Some event =>
      success ←
        match Ticket.ticket_image_path ticket with
        | None => mret false   (* the TypeError is caught inside [send_ticket_email] *)
        | Some ticket_image_path =>
          send_ticket_email
            (Ticket.attendee_email ticket)
            (Ticket.attendee_name ticket)
            (Event.name event)
            (Event.event_date event)
            (Event.event_time event)
            (Event.venue event)
            (Event.city event)
            (Ticket.ticket_id ticket)
            (Ticket.ticket_type ticket)
            ticket_image_path
        end;
      if success : bool then mret "Ticket email resent successfully"
      else raise (HTTPException HTTP_500_INTERNAL_SERVER_ERROR "Failed to send email")
    end
  end.

(** ** What FastAPI does before a handler runs

    The body of a request is turned into the pydantic model of the
    handler's signature; when pydantic refuses a field the request is
    answered with HTTP 422 and the handler does not run. [EmailStr] hands
    the string to [email-validator], which wants an @-sign before anything
    else; its other checks, and the normal form it returns, are the
    library's. *)

Definition EmailStr (s : string) : option string :=
  if has_at_sign s then email_validator s else None.

(** [ticket_data: TicketCreate], with [attendee_email: EmailStr] *)
Definition parse_TicketCreate (body : TicketCreate.t) : option TicketCreate.t :=
  match EmailStr (TicketCreate.attendee_email body) with
  | Some address =>
    Some (TicketCreate.mk (TicketCreate.attendee_name body) address
            (TicketCreate.ticket_type body) (TicketCreate.quantity body))
  | None => None
  end.

(** [ticket_data: TicketUpdate], with [attendee_email: Optional[EmailStr]] *)
Definition parse_TicketUpdate (body : TicketUpdate.t) : option TicketUpdate.t :=
  match TicketUpdate.attendee_email body with
  | None => Some body
  | Some s =>
    match EmailStr s with
    | Some address =>
      Some (TicketUpdate.mk (TicketUpdate.attendee_name body) (Some address)
              (TicketUpdate.ticket_type body))
    | None => None
    end
  end.

(** [POST /api/events/{event_id}/tickets] *)
Definition create_tickets_route (event_id : Z) (body : TicketCreate.t) : M (list Ticket.t) :=
  match parse_TicketCreate body with
  | Some ticket_data => create_tickets event_id ticket_data
  | None => raise RequestValidationError
  end.

(** [PUT /api/tickets/{ticket_id}] *)
Definition update_ticket_route (ticket_id : Z) (body : TicketUpdate.t) : M Ticket.t :=
  match parse_TicketUpdate body with
  | Some ticket_data => update_ticket ticket_id ticket_data
  | None => raise RequestValidationError
  end.

(** ** Scan route ([main.py]) *)

(** The JSON object [validate_ticket] answers with. *)
Record ScanResult : Type := mk_scan {
  valid : bool;
  message : string;
  status : string;
  ticket : list (string * string)
}.

(** What [validate_ticket] does with the row it has loaded. *)
Definition validate_loaded (ticket : option Ticket.t) : M ScanResult :=
  match ticket with
  | None => mret (mk_scan false "Invalid ticket - not found" "invalid" [])
  | Some ticket =>
    if Ticket.is_used ticket then
      match Ticket.used_at ticket with
      | None => raise AttributeError
      | Some used_at =>
        mret (mk_scan false
                ("Ticket already used on " +:+ strftime_human used_at)
                "already_used"
                [("attendee_name", Ticket.attendee_name ticket);
                 ("ticket_type", Ticket.ticket_type ticket);
                 ("used_at", isoformat used_at)])
      end
    else
      now ← utcnow;
      ticket ← flush_ticket ticket
                 (Ticket.set_used_at (Some now) (Ticket.set_is_used true ticket));
      event ← event_by_id (Ticket.event_id ticket);
      match event with
      | None => raise AttributeError
      | Some event =>
        mret (mk_scan true "Entry granted" "valid"
                [("attendee_name", Ticket.attendee_name ticket);
                 ("ticket_type", Ticket.ticket_type ticket);
                 ("ticket_id", Ticket.ticket_id ticket);
                 ("event_name", Event.name event)])
      end
  end.

Definition validate_ticket (scan_data : ScanRequest.t) : M ScanResult :=
  ticket ← ticket_by_ticket_id (ScanRequest.ticket_id scan_data);
  validate_loaded ticket.

End Server.

(** ** Read routes and dashboard ([main.py]) *)



Definition get_event (event_id : Z) : M Event.t :=
  event ← event_by_id event_id;
  match event with
  | None => raise (HTTPException HTTP_404_NOT_FOUND "Event not found")
  | Some event => mret event
  end.


Definition get_ticket (ticket_id : Z) : M Ticket.t :=
  ticket ← ticket_by_id ticket_id;
  match ticket with
  | None => raise (HTTPException HTTP_404_NOT_FOUND "Ticket not found")
  | Some ticket => mret ticket
  end.

(** [query.filter(p).count()] *)
Definition count {A : Type} (p : A → bool) (rows : list A) : Z :=
  Z.of_nat (List.length (List.filter p rows)).

Module DashboardStats.
Record t : Type := mk {
  total_tickets : Z;
  used_tickets : Z;
  remaining_tickets : Z;
  total_events : Z;
  active_events : Z
}.
End DashboardStats.

Definition get_dashboard_stats : M DashboardStats.t :=
  total_events ← gets (λ w, count (λ _, true) (events w));
  active_events ← gets (λ w, count Event.is_active (events w));
  total_tickets ← gets (λ w, count (λ _, true) (tickets w));
  used_tickets ← gets (λ w, count Ticket.is_used (tickets w));
  mret (DashboardStats.mk total_tickets used_tickets (total_tickets - used_tickets)
          total_events active_events).

Module EventStats.
Record t : Type := mk {
  event_id : Z;
  event_name : string;
  total_tickets : Z;
  used_tickets : Z;
  remaining_tickets : Z;
  is_active : bool;
  is_locked : bool
}.
End EventStats.

Definition get_event_stats (event_id : Z) : M EventStats.t :=
  event ← event_by_id event_id;
  match event with
  | None => raise (HTTPException HTTP_404_NOT_FOUND "Event not found")
  | Some event =>
    total_tickets ← gets (λ w, count (λ k, Ticket.event_id k =? event_id) (tickets w));
    used_tickets ← gets (λ w,
      count (λ k, (Ticket.event_id k =? event_id) && Ticket.is_used k) (tickets w));
    mret (EventStats.mk event_id (Event.name event) total_tickets used_tickets
            (total_tickets - used_tickets) (Event.is_active event) (Event.is_locked event))
  end.

(** * Notions the statements are written with *)

(** ** Well-formed stores

    What the schema and the handlers keep true of the tables: primary keys
    and ticket identifiers are unique, every ticket belongs to a stored
    event, and a used ticket carries the time of its redemption. *)

Definition ticket_ok (es : list Event.t) (k : Ticket.t) : Prop :=
  In (Ticket.event_id k) (map Event.id es) ∧
  (Ticket.is_used k = true → Ticket.used_at k ≠ None).

Definition db_ok (w : World) : Prop :=
  NoDup (map Event.id (events w)) ∧
  NoDup (map Ticket.id (tickets w)) ∧
  NoDup (map Ticket.ticket_id (tickets w)) ∧
  Forall (ticket_ok (events w)) (tickets w).

(** The generated files of a ticket are where its identifier says. *)
Definition paths_ok (TICKETS_DIR : string) (w : World) : Prop :=
  Forall (λ k,
    Ticket.qr_code_path k = Some (qr_path TICKETS_DIR (Ticket.ticket_id k)) ∧
    Ticket.ticket_image_path k = Some (ticket_path TICKETS_DIR (Ticket.ticket_id k)))
    (tickets w).

Definition store_ok (TICKETS_DIR : string) (w : World) : Prop :=
  db_ok w ∧ paths_ok TICKETS_DIR w.

(** ** The requests of the API and the stores they lead to *)

Inductive request : Type :=
| CreateEvent (event_data : EventCreate.t)
| UpdateEvent (event_id : Z) (event_data : EventCreate.t)
| DeleteEvent (event_id : Z)
| ToggleEventActive (event_id : Z)
| UploadTicketDesign (event_id : Z) (upload : UploadFile)
| CreateTickets (event_id : Z) (body : TicketCreate.t)
| UpdateTicket (ticket_id : Z) (body : TicketUpdate.t)
| DeleteTicket (ticket_id : Z)
| ResendTicket (ticket_id : Z)
| ValidateTicket (scan_data : ScanRequest.t).

Section Requests.
Variable UPLOAD_DIR : string.
Variable TICKETS_DIR : string.
Variable clock : nat → datetime.
Variable uuid4 : nat → string.
Variable smtp_ok : nat → bool.
Variable splitext_ext : string → string.
Variable decodable : string → bool.
Variable email_validator : string → option string.

(** The world after a request has been served, whatever the answer. *)
Definition serve (r : request) (w : World) : World :=
  match r with
  | CreateEvent d => snd (create_event clock d w)
  | UpdateEvent i d => snd (update_event clock i d w)
  | DeleteEvent i => snd (delete_event i w)
  | ToggleEventActive i => snd (toggle_event_active clock i w)
  | UploadTicketDesign i f => snd (upload_ticket_design UPLOAD_DIR clock splitext_ext i f w)
  | CreateTickets i d =>
    snd (create_tickets_route TICKETS_DIR clock uuid4 smtp_ok decodable email_validator i d w)
  | UpdateTicket i d =>
    snd (update_ticket_route TICKETS_DIR clock decodable email_validator i d w)
  | DeleteTicket i => snd (delete_ticket i w)
  | ResendTicket i => snd (resend_ticket smtp_ok i w)
  | ValidateTicket s => snd (validate_ticket clock s w)
  end.

Inductive reachable : World → Prop :=
| reachable_empty : reachable empty_world
| reachable_serve (r : request) (w : World) : reachable w → reachable (serve r w).
End Requests.

(** ** The door scan *)

Definition invalid_answer : ScanResult :=
  mk_scan false "Invalid ticket - not found" "invalid" [].

Definition already_used_answer (k : Ticket.t) (used_at : datetime) : ScanResult :=
  mk_scan false ("Ticket already used on " +:+ strftime_human used_at) "already_used"
    [("attendee_name", Ticket.attendee_name k);
     ("ticket_type", Ticket.ticket_type k);
     ("used_at", isoformat used_at)].

Definition valid_answer (k : Ticket.t) (e : Event.t) : ScanResult :=
  mk_scan true "Entry granted" "valid"
    [("attendee_name", Ticket.attendee_name k);
     ("ticket_type", Ticket.ticket_type k);
     ("ticket_id", Ticket.ticket_id k);
     ("event_name", Event.name e)].

(** The row of a ticket redeemed at [now], as the commit stores it. *)
Definition redeemed (now flushed : datetime) (k : Ticket.t) : Ticket.t :=
  Ticket.set_updated_at flushed
    (Ticket.set_used_at (Some now) (Ticket.set_is_used true k)).

(** The query of [validate_ticket]. *)
Definition scanned (scan_data : ScanRequest.t) (w : World) : option Ticket.t :=
  find (λ k, String.eqb (Ticket.ticket_id k) (ScanRequest.ticket_id scan_data)) (tickets w).

(** [n] scans of the same code, one after the other. *)
Fixpoint scans (clock : nat → datetime) (n : nat) (scan_data : ScanRequest.t)
    : M (list ScanResult) :=
  match n with
  | O => mret []
  | S n' =>
    r ← validate_ticket clock scan_data;
    rs ← scans clock n' scan_data;
    mret (r :: rs)
  end.

(** Two requests served by two workers, each with a session of its own:
    both run the query of [validate_ticket] before either goes on. *)
Definition interleaved_scans (clock : nat → datetime) (a b : ScanRequest.t)
    : M (ScanResult * ScanResult) :=
  ticket_a ← ticket_by_ticket_id (ScanRequest.ticket_id a);
  ticket_b ← ticket_by_ticket_id (ScanRequest.ticket_id b);
  answer_a ← validate_loaded clock ticket_a;
  answer_b ← validate_loaded clock ticket_b;
  mret (answer_a, answer_b).

(** ** Events and batches *)

Definition event_locked_error : error :=
  HTTPException HTTP_400_BAD_REQUEST "Cannot edit event after tickets have been generated".

Definition event_found (event_id : Z) (w : World) : option Event.t :=
  find (λ e, Event.id e =? event_id) (events w).

Definition ticket_found (ticket_id : Z) (w : World) : option Ticket.t :=
  find (λ k, Ticket.id k =? ticket_id) (tickets w).

(** The row of an event whose flag [is_active] was flipped at [now]. *)
Definition toggled (now : datetime) (e : Event.t) : Event.t :=
  Event.set_updated_at now (Event.set_is_active (negb (Event.is_active e)) e).

(** The row of an event locked at [now]. *)
Definition locked_row (now : datetime) (e : Event.t) : Event.t :=
  Event.set_updated_at now (Event.set_is_locked true e).

(** The world once the head of [create_tickets] has run on event [e]. *)
Definition after_lock (clock : nat → datetime) (e : Event.t) (w : World) : World :=
  if Event.is_locked e then w
  else set_events (replace_event (locked_row (clock (ticks w)) e) (events w))
         (set_ticks (S (ticks w)) w).

(** The identifier [generate_ticket_id] builds from the reading [tick] of
    the clock and the draw [draw] of the UUID source. *)
Definition ticket_id_at (clock : nat → datetime) (uuid4 : nat → string)
    (tick draw : nat) : string :=
  "TKT-" +:+ strftime_compact (clock tick) +:+ "-" +:+ upper (prefix_of 8 (uuid4 draw)).

(** The identifiers of a batch of [n] that starts at reading [tick] and draw
    [draw]: a turn of the loop reads the clock three times and draws once. *)
Definition batch_ids (clock : nat → datetime) (uuid4 : nat → string)
    (tick draw n : nat) : list string :=
  map (λ i, ticket_id_at clock uuid4 (tick + 3 * i) (draw + i)) (seq 0 n).

(** The row a turn of the loop of [create_tickets] stores for event [e],
    run from world [w]. *)
Definition new_ticket_row (TICKETS_DIR : string) (clock : nat → datetime)
    (uuid4 : nat → string) (e : Event.t) (ticket_data : TicketCreate.t)
    (w : World) : Ticket.t :=
  let ticket_id := ticket_id_at clock uuid4 (ticks w) (draws w) in
  Ticket.mk (next_id (map Ticket.id (tickets w))) ticket_id (Event.id e)
    (TicketCreate.attendee_name ticket_data)
    (TicketCreate.attendee_email ticket_data)
    (TicketCreate.ticket_type ticket_data)
    (Some (qr_path TICKETS_DIR ticket_id))
    (Some (ticket_path TICKETS_DIR ticket_id))
    false None (clock (S (ticks w))) (clock (S (S (ticks w)))).

(** ** Ticket edits *)

(** The value of a field after [if value: ticket.field = value]. *)
Definition supplied_or_kept (value : option string) (old : string) : string :=
  match value with
  | Some s => if truthy s then s else old
  | None => old
  end.

(** The file [render_ticket_image] takes as background for an event: the
    stored design, if the event has one and the file exists. *)
Definition design_of (fs : gmap string image) (e : Event.t) : option image :=
  if truthy (or_empty (Event.ticket_design_path e))
  then fs !! or_empty (Event.ticket_design_path e) else None.

(** A file that is absent, or that [Image.open] reads. *)
Definition readable (decodable : string → bool) (stored : option image) : bool :=
  match stored with
  | Some (Uploaded data) => decodable data
  | _ => true
  end.

(** The layers a render for ticket [k] of event [e] reads can be read. *)
Definition layers_readable_for (TICKETS_DIR : string) (decodable : string → bool)
    (w : World) (e : Event.t) (k : Ticket.t) : bool :=
  readable decodable (design_of (files w) e) &&
  readable decodable (files w !! qr_path TICKETS_DIR (Ticket.ticket_id k)).

(** The image [render_ticket_image] saves for ticket [k] of event [e], given
    the files [fs] it reads the layers from. *)
Definition rendering (fs : gmap string image) (e : Event.t) (k : Ticket.t)
    (qr_code_path : string) : image :=
  TicketImage
    (design_of fs e)
    (fs !! qr_code_path)
    [ (40, 40, chars_prefix 40 (Event.name e), font_title);
      (40, 90, "Attendee: " +:+ Ticket.attendee_name k, font_large);
      (40, 130, "Type: " +:+ Ticket.ticket_type k, font_medium);
      (40, 170, "Date: " +:+ Event.event_date e, font_medium);
      (40, 200, "Time: " +:+ Event.event_time e, font_medium);
      (40, 230, "Venue: " +:+ Event.venue e, font_medium);
      (40, 350, "Ticket ID: " +:+ Ticket.ticket_id k, font_small) ].

(** The assignments of [update_ticket] on the loaded row, before the image
    is rendered. *)
Definition edits (now : datetime) (ticket_data : TicketUpdate.t) (loaded : Ticket.t)
    : Ticket.t :=
  Ticket.set_updated_at now
    (assign_if_truthy (TicketUpdate.ticket_type ticket_data) Ticket.set_ticket_type
       (assign_if_truthy (TicketUpdate.attendee_email ticket_data) Ticket.set_attendee_email
          (assign_if_truthy (TicketUpdate.attendee_name ticket_data) Ticket.set_attendee_name
             loaded))).

(** The row [update_ticket] hands to the commit. *)
Definition edited (TICKETS_DIR : string) (now : datetime) (ticket_data : TicketUpdate.t)
    (loaded : Ticket.t) : Ticket.t :=
  Ticket.set_ticket_image_path (Some (ticket_path TICKETS_DIR (Ticket.ticket_id loaded)))
    (edits now ticket_data loaded).

(** The row the commit of [update_ticket] stores is the edited row, with
    a later reading of the clock as [updated_at] in the one case where the
    handler's own reading equals the stored one. *)
Definition stored_edit (TICKETS_DIR : string) (clock : nat → datetime) (w : World)
    (ticket_data : TicketUpdate.t) (loaded r : Ticket.t) : Prop :=
  r = edited TICKETS_DIR (clock (ticks w)) ticket_data loaded ∨
  r = Ticket.set_updated_at (clock (S (ticks w)))
        (edited TICKETS_DIR (clock (ticks w)) ticket_data loaded).

Definition ticket_not_found_error : error :=
  HTTPException HTTP_404_NOT_FOUND "Ticket not found".

(** ** A small run, for the examples

    One event, a batch of three tickets, at a clock that advances by one
    second per reading. *)

Module Sample.
Definition clock (n : nat) : datetime :=
  mk_datetime 2025 6 1 18 (30 + n / 60) (n mod 60) 0.

Definition uuid4 (n : nat) : string :=
  nth n [ "3f2b8c1e-7a4d-4e2f-9b1a-0c5d6e7f8a9b";
          "a41c09de-1b2c-4d3e-8f4a-5b6c7d8e9f0a";
          "0be7d512-9c8b-4a7f-b6e5-d4c3b2a19081" ]
        "ffffffff-ffff-4fff-bfff-ffffffffffff".

Definition smtp_ok (n : nat) : bool := true.

(** The one image the sample reader knows is a binary pixmap of one pixel:
    the header [P6 1 1 255] and three bytes of colour. Every address with
    an @-sign is taken as it is. *)
Definition decodable (data : string) : bool :=
  String.prefix "P6 1 1 255 " data && Nat.eqb (String.length data) 14.
Definition email_validator (s : string) : option string := Some s.

(** A clock read several times within one second, and a UUID source whose
    draws share their first eight characters. *)
Definition busy_clock (n : nat) : datetime := mk_datetime 2025 6 1 18 30 0 n.

Definition close_uuid4 (n : nat) : string :=
  "3f2b8c1e-7a4d-4e2f-9b1a-" +:+ zfill 12 n.

Definition TICKETS_DIR : string := "/srv/app/../tickets".
Definition UPLOAD_DIR : string := "/srv/app/../uploads".
Definition splitext_ext (name : string) : string := ".png".

Definition party : EventCreate.t :=
  EventCreate.mk "Lagos Jazz Night" "2025-07-12" "19:00" "Freedom Park" "Lagos" (Some "").

Definition ada (quantity : Z) : TicketCreate.t :=
  TicketCreate.mk "Ada Obi" "ada@example.org" "VIP" quantity.

(** The store with the event alone, unlocked. *)
Definition with_event : World :=
  Eval vm_compute in snd (create_event clock party empty_world).

(** The store after a batch of three tickets for the event. *)
Definition with_tickets : World :=
  Eval vm_compute in
    snd (create_tickets TICKETS_DIR clock uuid4 smtp_ok decodable 1 (ada 3) with_event).

Definition first_code : ScanRequest.t := ScanRequest.mk "TKT-20250601183003-3F2B8C1E".

(** The first ticket of the batch, as stored. *)
Definition first_ticket : Ticket.t :=
  Ticket.mk 1 "TKT-20250601183003-3F2B8C1E" 1 "Ada Obi" "ada@example.org" "VIP"
    (Some "/srv/app/../tickets/qr_codes/qr_TKT-20250601183003-3F2B8C1E.png")
    (Some "/srv/app/../tickets/ticket_TKT-20250601183003-3F2B8C1E.jpg")
    false None (clock 4) (clock 5).

(** The store after the first ticket has been scanned once. *)
Definition after_scan : World :=
  Eval vm_compute in snd (validate_ticket clock first_code with_tickets).

(** An edit that sends a new name, no e-mail and an empty type. *)
Definition rename : TicketUpdate.t := TicketUpdate.mk (Some "Ada O. Obi") None (Some "").
End Sample.

(** ** What no request changes *)

(** The columns of an event that describe it. *)
Definition same_details (e e' : Event.t) : Prop :=
  Event.id e' = Event.id e ∧
  Event.name e' = Event.name e ∧
  Event.event_date e' = Event.event_date e ∧
  Event.event_time e' = Event.event_time e ∧
  Event.venue e' = Event.venue e ∧
  Event.city e' = Event.city e ∧
  Event.description e' = Event.description e ∧
  Event.created_at e' = Event.created_at e.

(** What one request can do to table "events". A replaced row keeps its
    id, and keeps its lock and its details when the row was locked. *)
Definition events_step (w : World) (es' : list Event.t) : Prop :=
  es' = events w ∨
  (∃ e, es' = (events w ++ [e])%list) ∨
  (∃ i, es' = List.filter (λ e, negb (Event.id e =? i)) (events w)) ∨
  (∃ loaded r,
     event_found (Event.id loaded) w = Some loaded ∧
     es' = replace_event r (events w) ∧
     Event.id r = Event.id loaded ∧
     (Event.is_locked loaded = true → Event.is_locked r = true ∧ same_details loaded r)).

(** The columns of a ticket that identify it, and its redemption. *)
Definition same_ticket (k k' : Ticket.t) : Prop :=
  Ticket.id k' = Ticket.id k ∧
  Ticket.ticket_id k' = Ticket.ticket_id k ∧
  Ticket.event_id k' = Ticket.event_id k ∧
  Ticket.qr_code_path k' = Ticket.qr_code_path k ∧
  Ticket.created_at k' = Ticket.created_at k ∧
  (Ticket.is_used k = true →
   Ticket.is_used k' = true ∧ Ticket.used_at k' = Ticket.used_at k).

(** What one request can do to table "tickets". *)
Definition tickets_step (w : World) (ts' : list Ticket.t) : Prop :=
  ts' = tickets w ∨
  (∃ created, ts' = (tickets w ++ created)%list) ∨
  (∃ q, ts' = List.filter q (tickets w)) ∨
  (∃ loaded r,
     In loaded (tickets w) ∧
     ts' = replace_ticket r (tickets w) ∧
     same_ticket loaded r).

Definition event_not_found_error : error :=
  HTTPException HTTP_404_NOT_FOUND "Event not found".

(** ** Counting *)

(** The statistics of every stored event, as [get_event_stats] gives them. *)
Definition all_event_stats (w : World) : list EventStats.t :=
  flat_map (λ e, match fst (get_event_stats (Event.id e) w) with
                 | Ok s => [s]
                 | Raise _ => []
                 end) (events w).

Definition zsum (l : list Z) : Z := foldr Z.add 0 l.

(** ** Batches and the mail *)

(** A delivery attempt without its outcome. *)
Definition attempt (m : mail) : mail :=
  mk_mail (to_email m) (subject m) (about_ticket m) (attachment m) false.

(** Two worlds that differ at most in which mails went through. *)
Definition same_but_delivery (w1 w2 : World) : Prop :=
  events w1 = events w2 ∧ tickets w1 = tickets w2 ∧ files w1 = files w2 ∧
  ticks w1 = ticks w2 ∧ draws w1 = draws w2 ∧
  map attempt (outbox w1) = map attempt (outbox w2).

(** The files after a turn of the loop of [create_tickets] for event [e]:
    the QR code, then the image rendered over it. *)
Definition files_after_turn (TICKETS_DIR : string) (e : Event.t)
    (ticket_data : TicketCreate.t) (ticket_id : string) (fs : gmap string image)
    : gmap string image :=
  let fs1 := <[qr_path TICKETS_DIR ticket_id := QRImage ticket_id]> fs in
  <[ticket_path TICKETS_DIR ticket_id :=
      TicketImage
        (design_of fs1 e)
        (fs1 !! qr_path TICKETS_DIR ticket_id)
        [ (40, 40, chars_prefix 40 (Event.name e), font_title);
          (40, 90, "Attendee: " +:+ TicketCreate.attendee_name ticket_data, font_large);
          (40, 130, "Type: " +:+ TicketCreate.ticket_type ticket_data, font_medium);
          (40, 170, "Date: " +:+ Event.event_date e, font_medium);
          (40, 200, "Time: " +:+ Event.event_time e, font_medium);
          (40, 230, "Venue: " +:+ Event.venue e, font_medium);
          (40, 350, "Ticket ID: " +:+ ticket_id, font_small) ]]> fs1.

(** ** Identifiers *)

(** A reading of the clock whose year has four digits: the fields are in
    the ranges of Python's [datetime], and [%Y] prints the year as it is
    modelled. *)
Definition valid_datetime (d : datetime) : Prop :=
  (1000 ≤ year d < 10 ^ 4)%nat ∧ (1 ≤ month d ≤ 12)%nat ∧ (1 ≤ day d ≤ 31)%nat ∧
  (hour d < 24)%nat ∧ (minute d < 60)%nat ∧ (second d < 60)%nat ∧
  (microsecond d < 10 ^ 6)%nat.

(** Two readings of the clock within the same second. *)
Definition same_second (a b : datetime) : Prop :=
  year a = year b ∧ month a = month b ∧ day a = day b ∧
  hour a = hour b ∧ minute a = minute b ∧ second a = second b.

(** ** Mail and designs *)

Definition mail_failed_error : error :=
  HTTPException HTTP_500_INTERNAL_SERVER_ERROR "Failed to send email".

Definition not_an_image_error : error :=
  HTTPException HTTP_400_BAD_REQUEST "File must be an image".

(** Where [upload_ticket_design] saves the design of an event. *)
Definition design_path (UPLOAD_DIR : string) (splitext_ext : string → string)
    (event_id : Z) (upload : UploadFile) : string :=
  path_join UPLOAD_DIR ("design_" +:+ pretty event_id +:+ splitext_ext (filename upload)).

(** ** The files of an issued ticket *)

(** What is on disk for a ticket: its QR code, whose payload is the
    identifier, and its image, with that QR code pasted and the identifier
    and the attendee written on it. *)
Definition has_its_files (TICKETS_DIR : string) (fs : gmap string image) (k : Ticket.t)
    : Prop :=
  Ticket.qr_code_path k = Some (qr_path TICKETS_DIR (Ticket.ticket_id k)) ∧
  Ticket.ticket_image_path k = Some (ticket_path TICKETS_DIR (Ticket.ticket_id k)) ∧
  fs !! qr_path TICKETS_DIR (Ticket.ticket_id k) = Some (QRImage (Ticket.ticket_id k)) ∧
  ∃ background texts,
    fs !! ticket_path TICKETS_DIR (Ticket.ticket_id k) =
      Some (TicketImage background (Some (QRImage (Ticket.ticket_id k))) texts) ∧
    In (40, 90, "Attendee: " +:+ Ticket.attendee_name k, font_large) texts ∧
    In (40, 350, "Ticket ID: " +:+ Ticket.ticket_id k, font_small) texts.

(** More of the sample run. *)
Module SampleMore.
Definition poster : UploadFile :=
  mk_upload (Some "image/x-portable-pixmap") "poster.ppm" "P6 1 1 255 abc".



(** An edit that sends an empty e-mail and nothing else. *)
Definition blank_email : TicketUpdate.t := TicketUpdate.mk None (Some "") None.

Definition party_moved : EventCreate.t :=
  EventCreate.mk "Lagos Jazz Night" "2025-07-12" "19:00" "Muri Okunola Park" "Lagos" (Some "").

Definition serve (r : request) (w : World) : World :=
  serve Sample.UPLOAD_DIR Sample.TICKETS_DIR Sample.clock Sample.uuid4 Sample.smtp_ok
    Sample.splitext_ext Sample.decodable Sample.email_validator r w.
End SampleMore.

(** * Lemmas *)

(** ** Unfolding a handler *)

Ltac mstep :=
  unfold mbind, M_bind, mret, M_ret, gets, modify, raise; cbn beta iota zeta.

Lemma bind_ok {A B : Type} (m : M A) (f : A → M B) (w w' : World) (a : A) :
  m w = (Ok a, w') → (m ≫= f) w = f a w'.
Proof. intros H. unfold mbind, M_bind. now rewrite H. Qed.

Lemma bind_raise {A B : Type} (m : M A) (f : A → M B) (w w' : World) (e : error) :
  m w = (Raise e, w') → (m ≫= f) w = (Raise e, w').
Proof. intros H. unfold mbind, M_bind. now rewrite H. Qed.

(** ** Rows found and rows replaced *)

Lemma find_event_id (i : Z) (es : list Event.t) (e : Event.t) :
  find (λ e, Event.id e =? i) es = Some e → Event.id e = i ∧ In e es.
Proof.
  intros H. apply find_some in H as [Hin Heq].
  split; [now apply Z.eqb_eq | assumption].
Qed.

Lemma find_ticket_id (i : Z) (ts : list Ticket.t) (k : Ticket.t) :
  find (λ k, Ticket.id k =? i) ts = Some k → Ticket.id k = i ∧ In k ts.
Proof.
  intros H. apply find_some in H as [Hin Heq].
  split; [now apply Z.eqb_eq | assumption].
Qed.

Lemma event_of_ticket (w : World) (k : Ticket.t) :
  db_ok w → In k (tickets w) →
  ∃ e, event_found (Ticket.event_id k) w = Some e.
Proof.
  intros (_ & _ & _ & Hall) Hin. unfold event_found.
  rewrite Forall_forall in Hall.
  destruct (Hall k) as [Hev _]; [now apply list_elem_of_In |].
  apply in_map_iff in Hev as (e & He & Hine).
  destruct (find (λ e, Event.id e =? Ticket.event_id k) (events w)) as [e'|] eqn:Hf.
  - now exists e'.
  - exfalso. pose proof (find_none _ _ Hf e Hine) as Hn. cbn in Hn.
    rewrite He, Z.eqb_refl in Hn. discriminate.
Qed.

Lemma used_at_of_used (w : World) (k : Ticket.t) :
  db_ok w → In k (tickets w) → Ticket.is_used k = true →
  ∃ d, Ticket.used_at k = Some d.
Proof.
  intros (_ & _ & _ & Hall) Hin Hused.
  rewrite Forall_forall in Hall.
  destruct (Hall k) as [_ Hat]; [now apply list_elem_of_In |].
  destruct (Ticket.used_at k) as [d|]; [now exists d | now destruct (Hat Hused)].
Qed.

(** A row replaced by primary key is the row a later query finds, under
    any filter the new row passes. *)
Lemma find_replace_ticket (p : Ticket.t → bool) (k k' : Ticket.t) (ts : list Ticket.t) :
  find p ts = Some k → Ticket.id k' = Ticket.id k → p k' = true →
  find p (replace_ticket k' ts) = Some k'.
Proof.
  intros Hf Hid Hp. induction ts as [|r ts IH]; [discriminate|].
  cbn in *. destruct (Ticket.id r =? Ticket.id k') eqn:Hr.
  - now rewrite Hp.
  - destruct (p r) eqn:Hpr.
    + injection Hf as ->. rewrite Hid, Z.eqb_refl in Hr. discriminate.
    + now apply IH.
Qed.

Lemma find_replace_event (p : Event.t → bool) (e e' : Event.t) (es : list Event.t) :
  find p es = Some e → Event.id e' = Event.id e → p e' = true →
  find p (replace_event e' es) = Some e'.
Proof.
  intros Hf Hid Hp. induction es as [|r es IH]; [discriminate|].
  cbn in *. destruct (Event.id r =? Event.id e') eqn:Hr.
  - now rewrite Hp.
  - destruct (p r) eqn:Hpr.
    + injection Hf as ->. rewrite Hid, Z.eqb_refl in Hr. discriminate.
    + now apply IH.
Qed.

(** ** The door scan *)

Section Scan.
Variable clock : nat → datetime.

Lemma validate_ticket_load (scan_data : ScanRequest.t) (w : World) :
  validate_ticket clock scan_data w =
  validate_loaded clock (scanned scan_data w) w.
Proof. reflexivity. Qed.

Lemma validate_loaded_unused (w : World) (k : Ticket.t) (e : Event.t) :
  Ticket.is_used k = false →
  event_found (Ticket.event_id k) w = Some e →
  validate_loaded clock (Some k) w =
    (Ok (valid_answer k e),
     set_tickets
       (replace_ticket (redeemed (clock (ticks w)) (clock (S (ticks w))) k) (tickets w))
       (set_ticks (S (S (ticks w))) w)).
Proof.
  intros Hused Hev. unfold validate_loaded. rewrite Hused.
  unfold utcnow at 1. mstep. unfold flush_ticket.
  destruct (decide _) as [Heq|_].
  { apply (f_equal Ticket.is_used) in Heq. cbn in Heq. congruence. }
  destruct (decide _) as [_|Hne]; [|now destruct Hne].
  unfold utcnow, event_by_id. mstep. cbn. unfold event_found in Hev. now rewrite Hev.
Qed.

Lemma validate_loaded_used (w : World) (k : Ticket.t) (d : datetime) :
  Ticket.is_used k = true → Ticket.used_at k = Some d →
  validate_loaded clock (Some k) w = (Ok (already_used_answer k d), w).
Proof. intros Hused Hat. unfold validate_loaded. now rewrite Hused, Hat. Qed.

Lemma scans_used (n : nat) (scan_data : ScanRequest.t) (w : World)
    (k : Ticket.t) (d : datetime) :
  scanned scan_data w = Some k →
  Ticket.is_used k = true → Ticket.used_at k = Some d →
  scans clock n scan_data w = (Ok (replicate n (already_used_answer k d)), w).
Proof.
  intros Hf Hused Hat. induction n as [|n IH]; [reflexivity|].
  cbn [scans replicate].
  erewrite bind_ok
    by (rewrite validate_ticket_load, Hf; eapply validate_loaded_used; eassumption).
  erewrite bind_ok by exact IH. reflexivity.
Qed.

Lemma validate_unused_spec (scan_data : ScanRequest.t) (w : World)
    (k : Ticket.t) (e : Event.t) :
  scanned scan_data w = Some k →
  Ticket.is_used k = false →
  event_found (Ticket.event_id k) w = Some e →
  let k' := redeemed (clock (ticks w)) (clock (S (ticks w))) k in
  let w' := set_tickets (replace_ticket k' (tickets w)) (set_ticks (S (S (ticks w))) w) in
  validate_ticket clock scan_data w = (Ok (valid_answer k e), w') ∧
  scanned scan_data w' = Some k'.
Proof.
  intros Hf Hused Hev k' w'. split.
  - rewrite validate_ticket_load, Hf. now apply validate_loaded_unused.
  - unfold scanned in *. cbn. eapply find_replace_ticket; [exact Hf | reflexivity |].
    cbn. apply find_some in Hf. tauto.
Qed.

(** After the redemption every further scan gives the same answer, with
    the time of the redemption. *)
Lemma scans_after_redemption (n : nat) (scan_data : ScanRequest.t) (w : World)
    (k : Ticket.t) (e : Event.t) :
  scanned scan_data w = Some k →
  Ticket.is_used k = false →
  event_found (Ticket.event_id k) w = Some e →
  let k' := redeemed (clock (ticks w)) (clock (S (ticks w))) k in
  scans clock (S n) scan_data w =
    (Ok (valid_answer k e :: replicate n (already_used_answer k' (clock (ticks w)))),
     set_tickets (replace_ticket k' (tickets w)) (set_ticks (S (S (ticks w))) w)).
Proof.
  intros Hf Hused Hev k'.
  destruct (validate_unused_spec scan_data w k e Hf Hused Hev) as [Hv Hf'].
  cbn [scans]. erewrite bind_ok by exact Hv.
  erewrite bind_ok by (eapply scans_used; [exact Hf' | reflexivity | reflexivity]).
  reflexivity.
Qed.

(** The write of [validate_ticket] does not look at the stored row: with
    both queries run first, both scans are let in, and the second write
    replaces the time of the first. *)
Lemma interleaved_scans_both_valid (scan_data : ScanRequest.t) (w : World)
    (k : Ticket.t) (e : Event.t) :
  scanned scan_data w = Some k →
  Ticket.is_used k = false →
  event_found (Ticket.event_id k) w = Some e →
  ∃ w', interleaved_scans clock scan_data scan_data w =
          (Ok (valid_answer k e, valid_answer k e), w') ∧
        scanned scan_data w' =
          Some (redeemed (clock (S (S (ticks w)))) (clock (S (S (S (ticks w))))) k).
Proof.
  intros Hf Hused Hev. eexists. split.
  - unfold interleaved_scans, ticket_by_ticket_id. mstep.
    fold (scanned scan_data w). rewrite Hf.
    rewrite (validate_loaded_unused w k e Hused Hev).
    rewrite (validate_loaded_unused _ k e Hused) by exact Hev.
    reflexivity.
  - unfold scanned in *.
    pose proof (find_some _ _ Hf) as [_ Hp]. cbn in Hp.
    apply (find_replace_ticket _
             (redeemed (clock (ticks w)) (clock (S (ticks w))) k));
      [| reflexivity | exact Hp].
    apply (find_replace_ticket _ k); [exact Hf | reflexivity | exact Hp].
Qed.

(** C1: a scan of a stored ticket that is not used sets [is_used] and
    [used_at] (the reading of the clock at the scan) in one write of the
    row, which is the row found afterwards, and answers "valid" with the
    attendee name, the ticket type and the name of the event. *)
Theorem validate_unused_ticket (scan_data : ScanRequest.t) (w : World) (k : Ticket.t) :
  db_ok w →
  scanned scan_data w = Some k →
  Ticket.is_used k = false →
  ∃ (e : Event.t) (w' : World),
    let k' := redeemed (clock (ticks w)) (clock (S (ticks w))) k in
    event_found (Ticket.event_id k) w = Some e ∧
    validate_ticket clock scan_data w = (Ok (valid_answer k e), w') ∧
    tickets w' = replace_ticket k' (tickets w) ∧
    scanned scan_data w' = Some k' ∧
    Ticket.is_used k' = true ∧
    Ticket.used_at k' = Some (clock (ticks w)) ∧
    events w' = events w ∧ files w' = files w.
Proof.
  intros Hok Hf Hused.
  destruct (event_of_ticket w k Hok) as [e He].
  { apply find_some in Hf. tauto. }
  destruct (validate_unused_spec scan_data w k e Hf Hused He) as [Hv Hf'].
  exists e. eexists. cbn zeta. split; [exact He|]. split; [exact Hv|].
  split; [reflexivity|]. split; [exact Hf'|]. repeat split.
Qed.

(** C2: a scan of a used ticket answers "already_used" with the stored
    time of the redemption, the attendee name and the ticket type, and
    leaves the world as it was; so any number of further scans give that
    same answer, with that same time. *)
Theorem validate_used_ticket (scan_data : ScanRequest.t) (w : World) (k : Ticket.t) :
  db_ok w →
  scanned scan_data w = Some k →
  Ticket.is_used k = true →
  ∃ d : datetime,
    Ticket.used_at k = Some d ∧
    validate_ticket clock scan_data w = (Ok (already_used_answer k d), w) ∧
    ∀ n : nat,
      scans clock n scan_data w = (Ok (replicate n (already_used_answer k d)), w).
Proof.
  intros Hok Hf Hused.
  destruct (used_at_of_used w k Hok) as [d Hd]; [apply find_some in Hf; tauto | exact Hused |].
  exists d. split; [exact Hd|]. split.
  - rewrite validate_ticket_load, Hf. now apply validate_loaded_used.
  - intros n. now apply scans_used.
Qed.

(** C3: a scan of an identifier no stored ticket has answers "invalid"
    and leaves the world as it was. *)
Theorem validate_unknown_identifier (scan_data : ScanRequest.t) (w : World) :
  scanned scan_data w = None →
  validate_ticket clock scan_data w = (Ok invalid_answer, w).
Proof. intros Hf. rewrite validate_ticket_load, Hf. reflexivity. Qed.

End Scan.

(** ** The event lock *)

Section Events.
Variable clock : nat → datetime.

Lemma flush_event_changed (e e' : Event.t) (w : World) :
  e' ≠ e → Event.updated_at e' = Event.updated_at e →
  flush_event clock e e' w =
    (Ok (Event.set_updated_at (clock (ticks w)) e'),
     set_events (replace_event (Event.set_updated_at (clock (ticks w)) e') (events w))
       (set_ticks (S (ticks w)) w)).
Proof.
  intros Hne Hup. unfold flush_event.
  destruct (decide _) as [Heq|_]; [contradiction|].
  destruct (decide _) as [_|Hn]; [reflexivity | contradiction].
Qed.

Lemma toggle_event_active_spec (event_id : Z) (w : World) (e : Event.t) :
  event_found event_id w = Some e →
  toggle_event_active clock event_id w =
    (Ok ("Event '" +:+ Event.name e +:+ "' " +:+
           (if negb (Event.is_active e) then "activated" else "deactivated"),
         negb (Event.is_active e)),
     set_events (replace_event (toggled (clock (ticks w)) e) (events w))
       (set_ticks (S (ticks w)) w)).
Proof.
  intros Hf. unfold toggle_event_active, event_by_id. mstep.
  fold (event_found event_id w). rewrite Hf.
  rewrite flush_event_changed; [reflexivity | | reflexivity].
  intros Heq. apply (f_equal Event.is_active) in Heq. cbn in Heq.
  now destruct (Event.is_active e).
Qed.

Lemma lock_on_first_ticket_spec (e : Event.t) (w : World) :
  lock_on_first_ticket clock e w =
    (Ok (if Event.is_locked e then e else locked_row (clock (ticks w)) e),
     after_lock clock e w).
Proof.
  unfold lock_on_first_ticket, after_lock.
  destruct (Event.is_locked e) eqn:Hl; [reflexivity|]. cbn [negb].
  rewrite flush_event_changed; [reflexivity | | reflexivity].
  intros Heq. apply (f_equal Event.is_locked) in Heq. cbn in Heq. congruence.
Qed.

Lemma event_found_after_lock (event_id : Z) (e : Event.t) (w : World) :
  event_found event_id w = Some e →
  event_found event_id (after_lock clock e w) =
    Some (if Event.is_locked e then e else locked_row (clock (ticks w)) e).
Proof.
  intros Hf. unfold after_lock. destruct (Event.is_locked e); [exact Hf|].
  unfold event_found in *. cbn.
  apply (find_replace_event _ e); [exact Hf | reflexivity |].
  cbn. apply find_some in Hf. tauto.
Qed.

(** C5: a locked event refuses every update, whatever the fields sent,
    and stays as it is; the toggle of [is_active] does not look at the
    lock and goes through for every stored event. *)
Theorem locked_event_refuses_update (event_id : Z) (w : World) (e : Event.t) :
  event_found event_id w = Some e →
  (Event.is_locked e = true →
   ∀ event_data : EventCreate.t,
     update_event clock event_id event_data w = (Raise event_locked_error, w)) ∧
  (∃ (text : string) (w' : World),
     toggle_event_active clock event_id w =
       (Ok (text, negb (Event.is_active e)), w') ∧
     event_found event_id w' = Some (toggled (clock (ticks w)) e) ∧
     events w' = replace_event (toggled (clock (ticks w)) e) (events w) ∧
     Event.is_locked (toggled (clock (ticks w)) e) = Event.is_locked e ∧
     tickets w' = tickets w ∧ files w' = files w).
Proof.
  intros Hf. split.
  - intros Hl event_data. unfold update_event, event_by_id. mstep.
    fold (event_found event_id w). now rewrite Hf, Hl.
  - do 2 eexists. split; [now apply toggle_event_active_spec|].
    split; [|repeat split].
    unfold event_found in *. cbn.
    apply (find_replace_event _ e); [exact Hf | reflexivity |].
    cbn. apply find_some in Hf. tauto.
Qed.

End Events.

(** ** The image pipeline *)

Section Render.
Variable TICKETS_DIR : string.
Variable decodable : string → bool.

Lemma open_if_exists_readable (stored : option image) (w : World) :
  readable decodable stored = true →
  open_if_exists decodable stored w = (Ok stored, w).
Proof.
  destruct stored as [[data| |]|]; cbn [readable]; intros H; try reflexivity.
  unfold open_if_exists, open_image. mstep. now rewrite H.
Qed.

Lemma open_if_exists_unreadable (stored : option image) (w : World) :
  readable decodable stored = false →
  open_if_exists decodable stored w = (Raise UnidentifiedImageError, w).
Proof.
  destruct stored as [[data| |]|]; cbn [readable]; intros H; try discriminate.
  unfold open_if_exists, open_image. mstep. now rewrite H.
Qed.

(** A render reads the background and the QR code and writes one file, or
    fails on a layer it cannot read and writes none. *)
Lemma render_ticket_image_run
    (ticket_design_path attendee_name ticket_type ticket_id qr_code_path
     event_name event_date event_time venue : string) (w : World) :
  let background := if truthy ticket_design_path then files w !! ticket_design_path else None in
  render_ticket_image TICKETS_DIR decodable ticket_design_path attendee_name ticket_type
    ticket_id qr_code_path event_name event_date event_time venue w =
  if readable decodable background && readable decodable (files w !! qr_code_path)
  then (Ok (ticket_path TICKETS_DIR ticket_id),
        set_files
          (<[ticket_path TICKETS_DIR ticket_id :=
               TicketImage background (files w !! qr_code_path)
                 [ (40, 40, chars_prefix 40 event_name, font_title);
                   (40, 90, "Attendee: " +:+ attendee_name, font_large);
                   (40, 130, "Type: " +:+ ticket_type, font_medium);
                   (40, 170, "Date: " +:+ event_date, font_medium);
                   (40, 200, "Time: " +:+ event_time, font_medium);
                   (40, 230, "Venue: " +:+ venue, font_medium);
                   (40, 350, "Ticket ID: " +:+ ticket_id, font_small) ]]> (files w)) w)
  else (Raise UnidentifiedImageError, w).
Proof.
  cbn zeta. unfold render_ticket_image. unfold mbind at 1, M_bind at 1, gets at 1.
  cbn beta iota. unfold mbind at 1, M_bind at 1.
  destruct (readable decodable (if truthy ticket_design_path
                                then files w !! ticket_design_path else None)) eqn:Hbg.
  - rewrite (open_if_exists_readable _ w Hbg).
    unfold mbind at 1, M_bind at 1, gets at 1. cbn beta iota.
    unfold mbind at 1, M_bind at 1.
    destruct (readable decodable (files w !! qr_code_path)) eqn:Hqr.
    + rewrite (open_if_exists_readable _ w Hqr). reflexivity.
    + now rewrite (open_if_exists_unreadable _ w Hqr).
  - now rewrite (open_if_exists_unreadable _ w Hbg).
Qed.

(** What the pipeline writes can be read again. *)
Lemma readable_design_insert (fs : gmap string image) (e : Event.t)
    (path : string) (img : image) :
  readable decodable (Some img) = true →
  readable decodable (design_of fs e) = true →
  readable decodable (design_of (<[path := img]> fs) e) = true.
Proof.
  intros Himg. unfold design_of.
  destruct (truthy (or_empty (Event.ticket_design_path e))); [|reflexivity].
  destruct (decide (path = or_empty (Event.ticket_design_path e))) as [-> | Hne].
  - now rewrite lookup_insert_eq.
  - now rewrite lookup_insert_ne.
Qed.

End Render.

(** ** Batches of tickets *)

Section Batch.
Variable TICKETS_DIR : string.
Variable clock : nat → datetime.
Variable uuid4 : nat → string.
Variable smtp_ok : nat → bool.
Variable decodable : string → bool.

Lemma create_tickets_found (event_id : Z) (ticket_data : TicketCreate.t)
    (w : World) (e : Event.t) :
  event_found event_id w = Some e →
  create_tickets TICKETS_DIR clock uuid4 smtp_ok decodable event_id ticket_data w =
    create_loop TICKETS_DIR clock uuid4 smtp_ok decodable
      (Z.to_nat (TicketCreate.quantity ticket_data))
      (if Event.is_locked e then e else locked_row (clock (ticks w)) e)
      ticket_data [] (after_lock clock e w).
Proof.
  intros Hf. unfold create_tickets, event_by_id. mstep.
  fold (event_found event_id w). rewrite Hf.
  now rewrite lock_on_first_ticket_spec.
Qed.

(** C7, as the code has it: a batch of less than one ticket for a stored
    event is not refused. The loop does not run: the answer is the empty
    list, no ticket is stored and no file is written; the world is the one
    the head of [create_tickets] leaves. *)
Theorem empty_batch_accepted (event_id : Z) (ticket_data : TicketCreate.t)
    (w : World) (e : Event.t) :
  event_found event_id w = Some e →
  TicketCreate.quantity ticket_data < 1 →
  create_tickets TICKETS_DIR clock uuid4 smtp_ok decodable event_id ticket_data w =
    (Ok [], after_lock clock e w) ∧
  tickets (after_lock clock e w) = tickets w ∧
  files (after_lock clock e w) = files w ∧
  outbox (after_lock clock e w) = outbox w.
Proof.
  intros Hf Hq.
  rewrite (create_tickets_found _ _ _ e Hf).
  replace (Z.to_nat (TicketCreate.quantity ticket_data)) with O by lia.
  split; [reflexivity|].
  unfold after_lock; destruct (Event.is_locked e); repeat split.
Qed.

Lemma batch_ids_S (tick draw n : nat) :
  batch_ids clock uuid4 tick draw (S n) =
  ticket_id_at clock uuid4 tick draw :: batch_ids clock uuid4 (3 + tick) (S draw) n.
Proof.
  unfold batch_ids. cbn [seq map]. rewrite <- seq_shift, map_map.
  f_equal; [f_equal; lia|]. apply map_ext. intros i. f_equal; lia.
Qed.

Lemma ticket_id_not_taken (ticket_id : string) (ts : list Ticket.t) :
  ¬ In ticket_id (map Ticket.ticket_id ts) →
  existsb (λ k, String.eqb (Ticket.ticket_id k) ticket_id) ts = false.
Proof.
  intros Hnot. destruct (existsb _ ts) eqn:Hex; [|reflexivity].
  apply existsb_exists in Hex as (k & Hin & Heq).
  apply String.eqb_eq in Heq. destruct Hnot. rewrite <- Heq. now apply in_map.
Qed.

Lemma ticket_id_taken (ticket_id : string) (ts : list Ticket.t) :
  In ticket_id (map Ticket.ticket_id ts) →
  existsb (λ k, String.eqb (Ticket.ticket_id k) ticket_id) ts = true.
Proof.
  intros Hin. apply in_map_iff in Hin as (k & Heq & Hin).
  apply existsb_exists. exists k. split; [exact Hin | now apply String.eqb_eq].
Qed.

(** A turn of the loop, in full: the QR code is written, then the image
    is rendered, then the row is stored, then the mail is sent. *)
Lemma create_one_ticket_run (e : Event.t) (ticket_data : TicketCreate.t) (w : World) :
  let ticket_id := ticket_id_at clock uuid4 (ticks w) (draws w) in
  let fs1 := <[qr_path TICKETS_DIR ticket_id := QRImage ticket_id]> (files w) in
  let fs := files_after_turn TICKETS_DIR e ticket_data ticket_id (files w) in
  create_one_ticket TICKETS_DIR clock uuid4 smtp_ok decodable e ticket_data w =
    if negb (readable decodable (design_of fs1 e))
    then (Raise UnidentifiedImageError,
          mk_world (events w) (tickets w) fs1 (S (ticks w)) (S (draws w)) (outbox w))
    else if existsb (λ k, String.eqb (Ticket.ticket_id k) ticket_id) (tickets w)
    then (Raise IntegrityError,
          mk_world (events w) (tickets w) fs (3 + ticks w) (S (draws w)) (outbox w))
    else (Ok (new_ticket_row TICKETS_DIR clock uuid4 e ticket_data w),
          mk_world (events w)
            (tickets w ++ [new_ticket_row TICKETS_DIR clock uuid4 e ticket_data w])
            fs (3 + ticks w) (S (draws w))
            (outbox w ++
               [mk_mail (TicketCreate.attendee_email ticket_data)
                  ("Your Ticket for " +:+ Event.name e) ticket_id
                  (fs !! ticket_path TICKETS_DIR ticket_id)
                  (smtp_ok (List.length (outbox w)))])).
Proof.
  cbn zeta.
  unfold create_one_ticket, generate_ticket_id, generate_qr_code, save_file, utcnow,
    new_uuid4.
  mstep. rewrite render_ticket_image_run. cbn zeta.
  cbn [tickets set_files set_ticks set_draws ticks draws events files outbox].
  fold (ticket_id_at clock uuid4 (ticks w) (draws w)).
  set (ticket_id := ticket_id_at clock uuid4 (ticks w) (draws w)).
  fold (design_of (<[qr_path TICKETS_DIR ticket_id := QRImage ticket_id]> (files w)) e).
  assert (Hqr : readable decodable
            (<[qr_path TICKETS_DIR ticket_id := QRImage ticket_id]> (files w)
               !! qr_path TICKETS_DIR ticket_id) = true)
    by now rewrite lookup_insert_eq.
  rewrite Hqr, andb_true_r.
  destruct (readable decodable (design_of _ e)); cbn [negb]; [|reflexivity].
  unfold add_ticket, send_ticket_email, utcnow. mstep.
  cbn [tickets set_files set_ticks set_draws ticks draws events files outbox].
  destruct (existsb _ (tickets w)); reflexivity.
Qed.

(** A turn of the loop whose identifier is not stored yet, for an event
    whose design can be read. *)
Lemma create_one_ticket_fresh (e : Event.t) (ticket_data : TicketCreate.t) (w : World) :
  ¬ In (ticket_id_at clock uuid4 (ticks w) (draws w)) (map Ticket.ticket_id (tickets w)) →
  readable decodable (design_of (files w) e) = true →
  ∃ w' : World,
    create_one_ticket TICKETS_DIR clock uuid4 smtp_ok decodable e ticket_data w =
      (Ok (new_ticket_row TICKETS_DIR clock uuid4 e ticket_data w), w') ∧
    tickets w' = (tickets w ++ [new_ticket_row TICKETS_DIR clock uuid4 e ticket_data w])%list ∧
    events w' = events w ∧
    ticks w' = (3 + ticks w)%nat ∧
    draws w' = S (draws w) ∧
    files w' = files_after_turn TICKETS_DIR e ticket_data
                 (ticket_id_at clock uuid4 (ticks w) (draws w)) (files w) ∧
    readable decodable (design_of (files w') e) = true.
Proof.
  intros Hfresh Hread. apply ticket_id_not_taken in Hfresh.
  rewrite create_one_ticket_run. cbn zeta.
  rewrite (readable_design_insert decodable _ e _ (QRImage _) eq_refl Hread), Hfresh. cbn [negb].
  eexists. split; [reflexivity|]. cbn [tickets events ticks draws files].
  repeat split. unfold files_after_turn. cbn zeta.
  apply readable_design_insert; [reflexivity|].
  now apply readable_design_insert.
Qed.

(** A turn of the loop whose identifier is stored already: the database
    refuses the row. *)
Lemma create_one_ticket_taken (e : Event.t) (ticket_data : TicketCreate.t) (w : World) :
  In (ticket_id_at clock uuid4 (ticks w) (draws w)) (map Ticket.ticket_id (tickets w)) →
  readable decodable (design_of (files w) e) = true →
  ∃ w' : World,
    create_one_ticket TICKETS_DIR clock uuid4 smtp_ok decodable e ticket_data w =
      (Raise IntegrityError, w') ∧
    tickets w' = tickets w ∧ events w' = events w.
Proof.
  intros Htaken Hread. apply ticket_id_taken in Htaken.
  rewrite create_one_ticket_run. cbn zeta.
  rewrite (readable_design_insert decodable _ e _ (QRImage _) eq_refl Hread), Htaken. cbn [negb].
  eexists. split; [reflexivity|]. split; reflexivity.
Qed.

(** Whatever happens in a turn, it adds at most its own row, under an
    identifier that was not stored, and leaves the events alone. *)
Lemma create_one_ticket_cases (e : Event.t) (ticket_data : TicketCreate.t) (w : World) :
  (∃ (err : error) (w' : World),
     create_one_ticket TICKETS_DIR clock uuid4 smtp_ok decodable e ticket_data w =
       (Raise err, w') ∧
     tickets w' = tickets w ∧ events w' = events w) ∨
  (¬ In (ticket_id_at clock uuid4 (ticks w) (draws w)) (map Ticket.ticket_id (tickets w)) ∧
   ∃ w' : World,
     create_one_ticket TICKETS_DIR clock uuid4 smtp_ok decodable e ticket_data w =
       (Ok (new_ticket_row TICKETS_DIR clock uuid4 e ticket_data w), w') ∧
     tickets w' = (tickets w ++ [new_ticket_row TICKETS_DIR clock uuid4 e ticket_data w])%list ∧
     events w' = events w).
Proof.
  rewrite create_one_ticket_run. cbn zeta.
  destruct (readable decodable _); cbn [negb].
  - destruct (existsb _ (tickets w)) eqn:Hex.
    + left. do 2 eexists. split; [reflexivity|]. split; reflexivity.
    + right. split.
      * intros Hin. apply ticket_id_taken in Hin. congruence.
      * eexists. split; [reflexivity|]. split; reflexivity.
  - left. do 2 eexists. split; [reflexivity|]. split; reflexivity.
Qed.

Lemma design_of_locked_row (fs : gmap string image) (now : datetime) (e : Event.t) :
  design_of fs (if Event.is_locked e then e else locked_row now e) = design_of fs e.
Proof. now destruct (Event.is_locked e). Qed.

Lemma create_loop_fresh (e : Event.t) (ticket_data : TicketCreate.t) (n : nat) :
  ∀ (w : World) (acc : list Ticket.t),
    NoDup (batch_ids clock uuid4 (ticks w) (draws w) n) →
    (∀ i, In i (batch_ids clock uuid4 (ticks w) (draws w) n) →
          ¬ In i (map Ticket.ticket_id (tickets w))) →
    readable decodable (design_of (files w) e) = true →
    ∃ (created : list Ticket.t) (w' : World),
      create_loop TICKETS_DIR clock uuid4 smtp_ok decodable n e ticket_data acc w =
        (Ok (acc ++ created)%list, w') ∧
      map Ticket.ticket_id created = batch_ids clock uuid4 (ticks w) (draws w) n ∧
      tickets w' = (tickets w ++ created)%list ∧
      events w' = events w ∧
      Forall (λ k, Ticket.event_id k = Event.id e ∧ Ticket.is_used k = false ∧
                   Ticket.used_at k = None) created.
Proof.
  induction n as [|n IH]; intros w acc Hnd Hnew Hread.
  - exists [], w. cbn. rewrite !app_nil_r. repeat split. constructor.
  - rewrite batch_ids_S in Hnd, Hnew. apply NoDup_cons in Hnd as [Hhd Hnd].
    destruct (create_one_ticket_fresh e ticket_data w)
      as (w1 & Hone & Hts & Hes & Htk & Hdr & _ & Hread1).
    { apply Hnew. now left. }
    { exact Hread. }
    destruct (IH w1 (acc ++ [new_ticket_row TICKETS_DIR clock uuid4 e ticket_data w])%list)
      as (created & w' & Hloop & Hids & Hts' & Hes' & Hall).
    { now rewrite Htk, Hdr. }
    { rewrite Htk, Hdr, Hts. intros i Hi. rewrite map_app, in_app_iff. cbn.
      intros [Hold | [Heq | []]].
      - apply (Hnew i); [now right | exact Hold].
      - apply Hhd. apply list_elem_of_In. now rewrite Heq. }
    { exact Hread1. }
    exists (new_ticket_row TICKETS_DIR clock uuid4 e ticket_data w :: created), w'.
    cbn [create_loop]. erewrite bind_ok by exact Hone.
    rewrite Hloop, <- app_assoc. split; [reflexivity|].
    rewrite batch_ids_S. cbn [map]. rewrite Hids, Htk, Hdr.
    split; [reflexivity|]. rewrite Hts', Hts, <- app_assoc.
    split; [reflexivity|]. split; [congruence|].
    constructor; [now cbn | exact Hall].
Qed.

(** The turns of the loop of [create_tickets] only ever add tickets, and
    leave the events alone, whether the loop ends or is stopped. *)
Lemma create_loop_rows (e : Event.t) (ticket_data : TicketCreate.t) (n : nat) :
  ∀ (w : World) (acc : list Ticket.t),
    ∃ created : list Ticket.t,
      tickets (snd (create_loop TICKETS_DIR clock uuid4 smtp_ok decodable n e ticket_data acc w)) =
        (tickets w ++ created)%list ∧
      events (snd (create_loop TICKETS_DIR clock uuid4 smtp_ok decodable n e ticket_data acc w)) =
        events w.
Proof.
  induction n as [|n IH]; intros w acc.
  - exists []. cbn. now rewrite app_nil_r.
  - cbn [create_loop].
    destruct (create_one_ticket_cases e ticket_data w)
      as [(err & w' & Hone & Hts & Hes) | (_ & w' & Hone & Hts & Hes)].
    + erewrite bind_raise by exact Hone. exists []. cbn. now rewrite app_nil_r.
    + erewrite bind_ok by exact Hone.
      destruct (IH w' (acc ++ [new_ticket_row TICKETS_DIR clock uuid4 e ticket_data w])%list)
        as (created & Hts' & Hes').
      exists (new_ticket_row TICKETS_DIR clock uuid4 e ticket_data w :: created).
      rewrite Hts', Hes', Hts, Hes, <- app_assoc. now split.
Qed.

(** C6, as the code has it: a batch of k ≥ 1 tickets for a stored event
    takes the lock once, before the loop and so before any ticket is
    stored, and not at all on a locked event; the loop does not touch the
    events, however it ends. When the k identifiers it generates are
    pairwise distinct and none of them is stored, and the design of the
    event, if it has one, can be read as an image, it stores exactly k
    tickets, with exactly those identifiers. *)
Theorem batch_of_fresh_identifiers (event_id : Z) (ticket_data : TicketCreate.t)
    (w : World) (e : Event.t) :
  event_found event_id w = Some e →
  1 ≤ TicketCreate.quantity ticket_data →
  let n := Z.to_nat (TicketCreate.quantity ticket_data) in
  let w0 := after_lock clock e w in
  let e0 := if Event.is_locked e then e else locked_row (clock (ticks w)) e in
  let ids := batch_ids clock uuid4 (ticks w0) (draws w0) n in
  let run := create_tickets TICKETS_DIR clock uuid4 smtp_ok decodable event_id ticket_data w in
  (* the lock *)
  (run = create_loop TICKETS_DIR clock uuid4 smtp_ok decodable n e0 ticket_data [] w0 ∧
   event_found event_id w0 = Some e0 ∧ Event.is_locked e0 = true ∧
   tickets w0 = tickets w ∧ files w0 = files w ∧
   (Event.is_locked e = true → w0 = w) ∧
   events (snd run) = events w0) ∧
  (* the tickets *)
  (NoDup ids →
   (∀ i, In i ids → ¬ In i (map Ticket.ticket_id (tickets w))) →
   readable decodable (design_of (files w) e) = true →
   ∃ (created : list Ticket.t) (w' : World),
     run = (Ok created, w') ∧
     List.length created = n ∧
     map Ticket.ticket_id created = ids ∧
     NoDup (map Ticket.ticket_id created) ∧
     tickets w' = (tickets w ++ created)%list).
Proof.
  intros Hf Hq n w0 e0 ids run.
  assert (Hts0 : tickets w0 = tickets w).
  { unfold w0, after_lock. now destruct (Event.is_locked e). }
  assert (Hfs0 : files w0 = files w).
  { unfold w0, after_lock. now destruct (Event.is_locked e). }
  assert (Hrun : run = create_loop TICKETS_DIR clock uuid4 smtp_ok decodable n e0
                         ticket_data [] w0)
    by (unfold run; now rewrite (create_tickets_found _ _ _ e Hf)).
  split.
  - split; [exact Hrun|]. split; [now apply event_found_after_lock|].
    split; [unfold e0; now destruct (Event.is_locked e) eqn:Hl|].
    split; [exact Hts0|]. split; [exact Hfs0|].
    split; [intros Hl; unfold w0, after_lock; now rewrite Hl|].
    rewrite Hrun. destruct (create_loop_rows e0 ticket_data n w0 []) as (created & _ & Hes).
    exact Hes.
  - intros Hnd Hnew Hread.
    destruct (create_loop_fresh e0 ticket_data n w0 [])
      as (created & w' & Hloop & Hids & Hts & Hes & _).
    { exact Hnd. }
    { now rewrite Hts0. }
    { unfold e0. now rewrite design_of_locked_row, Hfs0. }
    exists created, w'. rewrite Hrun.
    split; [exact Hloop|].
    split; [rewrite <- (length_map Ticket.ticket_id), Hids; unfold ids, batch_ids;
            now rewrite length_map, length_seq|].
    split; [exact Hids|]. split; [now rewrite Hids|].
    now rewrite Hts, Hts0.
Qed.

End Batch.

(** ** Ticket edits *)

Lemma string_app_assoc (a b c : string) : (a +:+ b) +:+ c = a +:+ (b +:+ c).
Proof.
  induction a as [|x a IH]; [reflexivity|].
  change (String x ((a +:+ b) +:+ c) = String x (a +:+ (b +:+ c))).
  now rewrite IH.
Qed.

Lemma NoDup_map_inj {A B : Type} (f : A → B) (l : list A) (x y : A) :
  NoDup (map f l) → In x l → In y l → f x = f y → x = y.
Proof.
  induction l as [|a l IH]; cbn; intros Hnd Hx Hy Hf; [contradiction|].
  apply NoDup_cons in Hnd as [Hnot Hnd].
  rewrite list_elem_of_In in Hnot.
  destruct Hx as [-> | Hx], Hy as [-> | Hy]; auto.
  - destruct Hnot. rewrite Hf. now apply in_map.
  - destruct Hnot. rewrite <- Hf. now apply in_map.
Qed.

Lemma replace_ticket_same (k : Ticket.t) (ts : list Ticket.t) :
  NoDup (map Ticket.id ts) → In k ts → replace_ticket k ts = ts.
Proof.
  intros Hnd Hin. unfold replace_ticket.
  rewrite <- (map_id ts) at 2. apply map_ext_in. intros r Hr.
  destruct (Ticket.id r =? Ticket.id k) eqn:Heq; [|reflexivity].
  apply Z.eqb_eq in Heq. symmetry. now apply (NoDup_map_inj Ticket.id ts).
Qed.

Section Edit.
Variable TICKETS_DIR : string.
Variable clock : nat → datetime.
Variable decodable : string → bool.

(** The image of a ticket and a QR code never share a path. *)
Lemma qr_path_ne_ticket_path (a b : string) :
  qr_path TICKETS_DIR a ≠ ticket_path TICKETS_DIR b.
Proof.
  unfold qr_path, ticket_path, QR_DIR, path_join. intros Heq.
  rewrite !string_app_assoc in Heq. apply String.app_inj in Heq.
  cbn in Heq. discriminate.
Qed.

Lemma edits_frame (now : datetime) (ticket_data : TicketUpdate.t) (loaded : Ticket.t) :
  let k := edits now ticket_data loaded in
  Ticket.id k = Ticket.id loaded ∧
  Ticket.ticket_id k = Ticket.ticket_id loaded ∧
  Ticket.event_id k = Ticket.event_id loaded ∧
  Ticket.qr_code_path k = Ticket.qr_code_path loaded ∧
  Ticket.ticket_image_path k = Ticket.ticket_image_path loaded ∧
  Ticket.is_used k = Ticket.is_used loaded ∧
  Ticket.used_at k = Ticket.used_at loaded ∧
  Ticket.created_at k = Ticket.created_at loaded ∧
  Ticket.updated_at k = now ∧
  Ticket.attendee_name k =
    supplied_or_kept (TicketUpdate.attendee_name ticket_data) (Ticket.attendee_name loaded) ∧
  Ticket.attendee_email k =
    supplied_or_kept (TicketUpdate.attendee_email ticket_data) (Ticket.attendee_email loaded) ∧
  Ticket.ticket_type k =
    supplied_or_kept (TicketUpdate.ticket_type ticket_data) (Ticket.ticket_type loaded).
Proof.
  destruct ticket_data as [[n|] [m|] [t|]]; unfold edits, assign_if_truthy, supplied_or_kept;
    cbn [TicketUpdate.attendee_name TicketUpdate.attendee_email TicketUpdate.ticket_type];
    repeat match goal with |- context [truthy ?s] => destruct (truthy s) end;
    cbn; repeat split.
Qed.

Lemma update_ticket_run (ticket_id : Z) (ticket_data : TicketUpdate.t) (w : World)
    (loaded : Ticket.t) (e : Event.t) (qr_code_path : string) :
  ticket_found ticket_id w = Some loaded →
  event_found (Ticket.event_id loaded) w = Some e →
  Ticket.qr_code_path loaded = Some qr_code_path →
  update_ticket TICKETS_DIR clock decodable ticket_id ticket_data w =
    if readable decodable (design_of (files w) e) &&
       readable decodable (files w !! qr_code_path)
    then
      flush_ticket clock loaded (edited TICKETS_DIR (clock (ticks w)) ticket_data loaded)
        (set_files
           (<[ticket_path TICKETS_DIR (Ticket.ticket_id loaded) :=
                rendering (files w) e (edits (clock (ticks w)) ticket_data loaded)
                  qr_code_path]> (files w))
           (set_ticks (S (ticks w)) w))
    else (Raise UnidentifiedImageError, set_ticks (S (ticks w)) w).
Proof.
  intros Hf He Hqr.
  destruct (edits_frame (clock (ticks w)) ticket_data loaded)
    as (_ & Htid & Hev & Hq & _).
  unfold update_ticket, ticket_by_id. mstep.
  fold (ticket_found ticket_id w). rewrite Hf.
  unfold utcnow, event_by_id. mstep. cbn [events set_ticks].
  fold (edits (clock (ticks w)) ticket_data loaded).
  rewrite Hev. fold (event_found (Ticket.event_id loaded) w). rewrite He, Hq, Hqr.
  rewrite render_ticket_image_run. cbn zeta. cbn [files set_ticks].
  fold (design_of (files w) e).
  destruct (readable decodable (design_of (files w) e) &&
            readable decodable (files w !! qr_code_path)); [|reflexivity].
  unfold edited, rendering. rewrite Htid. reflexivity.
Qed.

Lemma stored_edit_frame (w : World) (ticket_data : TicketUpdate.t) (loaded r : Ticket.t) :
  stored_edit TICKETS_DIR clock w ticket_data loaded r →
  Ticket.id r = Ticket.id loaded ∧
  Ticket.ticket_id r = Ticket.ticket_id loaded ∧
  Ticket.event_id r = Ticket.event_id loaded ∧
  Ticket.qr_code_path r = Ticket.qr_code_path loaded ∧
  Ticket.is_used r = Ticket.is_used loaded ∧
  Ticket.used_at r = Ticket.used_at loaded ∧
  Ticket.created_at r = Ticket.created_at loaded ∧
  Ticket.ticket_image_path r = Some (ticket_path TICKETS_DIR (Ticket.ticket_id loaded)) ∧
  (Ticket.updated_at r = clock (ticks w) ∨ Ticket.updated_at r = clock (S (ticks w))) ∧
  Ticket.attendee_name r =
    supplied_or_kept (TicketUpdate.attendee_name ticket_data) (Ticket.attendee_name loaded) ∧
  Ticket.attendee_email r =
    supplied_or_kept (TicketUpdate.attendee_email ticket_data) (Ticket.attendee_email loaded) ∧
  Ticket.ticket_type r =
    supplied_or_kept (TicketUpdate.ticket_type ticket_data) (Ticket.ticket_type loaded).
Proof.
  destruct (edits_frame (clock (ticks w)) ticket_data loaded)
    as (H1 & H2 & H3 & H4 & H5 & H6 & H7 & H8 & H9 & H10 & H11 & H12).
  intros [-> | ->]; cbn; repeat split; auto.
Qed.

Lemma update_ticket_found (ticket_id : Z) (ticket_data : TicketUpdate.t) (w : World)
    (loaded : Ticket.t) :
  db_ok w → paths_ok TICKETS_DIR w →
  ticket_found ticket_id w = Some loaded →
  ∃ e : Event.t,
    event_found (Ticket.event_id loaded) w = Some e ∧
    if layers_readable_for TICKETS_DIR decodable w e loaded then
      ∃ (r : Ticket.t) (w' : World),
        update_ticket TICKETS_DIR clock decodable ticket_id ticket_data w = (Ok r, w') ∧
        stored_edit TICKETS_DIR clock w ticket_data loaded r ∧
        files w' =
          <[ticket_path TICKETS_DIR (Ticket.ticket_id loaded) :=
              rendering (files w) e r (qr_path TICKETS_DIR (Ticket.ticket_id loaded))]>
            (files w) ∧
        tickets w' = replace_ticket r (tickets w) ∧
        events w' = events w
    else
      update_ticket TICKETS_DIR clock decodable ticket_id ticket_data w =
        (Raise UnidentifiedImageError, set_ticks (S (ticks w)) w).
Proof.
  intros Hok Hpaths Hf.
  pose proof (find_ticket_id _ _ _ Hf) as [_ Hin].
  destruct (event_of_ticket w loaded Hok Hin) as [e He].
  unfold paths_ok in Hpaths. rewrite Forall_forall in Hpaths.
  destruct (Hpaths loaded) as [Hqr _]; [now apply list_elem_of_In|].
  exists e. split; [exact He|].
  rewrite (update_ticket_run ticket_id ticket_data w loaded e _ Hf He Hqr).
  unfold layers_readable_for.
  destruct (readable decodable (design_of (files w) e) &&
            readable decodable (files w !! qr_path TICKETS_DIR (Ticket.ticket_id loaded)));
    [|reflexivity].
  unfold flush_ticket, stored_edit.
  destruct (decide _) as [Heq|Hne].
  - exists (edited TICKETS_DIR (clock (ticks w)) ticket_data loaded). eexists.
    split; [reflexivity|]. split; [now left|].
    split; [reflexivity|]. split; [|reflexivity].
    cbn [tickets set_files set_ticks]. rewrite Heq.
    symmetry. apply replace_ticket_same; [apply Hok | exact Hin].
  - destruct (decide _) as [Hup|Hup].
    + exists (Ticket.set_updated_at (clock (S (ticks w)))
                (edited TICKETS_DIR (clock (ticks w)) ticket_data loaded)).
      eexists. split; [reflexivity|]. split; [now right|].
      repeat split.
    + exists (edited TICKETS_DIR (clock (ticks w)) ticket_data loaded). eexists.
      split; [reflexivity|]. split; [now left|].
      repeat split.
Qed.

Lemma update_ticket_missing (ticket_id : Z) (ticket_data : TicketUpdate.t) (w : World) :
  ticket_found ticket_id w = None →
  update_ticket TICKETS_DIR clock decodable ticket_id ticket_data w =
    (Raise (if sqlite_int ticket_id then ticket_not_found_error else OverflowError), w).
Proof.
  intros Hf. unfold update_ticket, ticket_by_id. mstep.
  fold (ticket_found ticket_id w). rewrite Hf. now destruct (sqlite_int ticket_id).
Qed.

(** An edit never touches the events. *)
Lemma update_ticket_events (ticket_id : Z) (ticket_data : TicketUpdate.t) (w : World) :
  events (snd (update_ticket TICKETS_DIR clock decodable ticket_id ticket_data w)) = events w.
Proof.
  unfold update_ticket, ticket_by_id, event_by_id, utcnow. mstep.
  destruct (find _ (tickets w)) as [k|]; [|now destruct (sqlite_int ticket_id)].
  cbn [events set_ticks].
  destruct (find _ (events w)) as [e|]; [|now destruct (sqlite_int _)].
  destruct (Ticket.qr_code_path _); [|reflexivity].
  rewrite render_ticket_image_run. cbn zeta.
  destruct (_ && _); [|reflexivity].
  unfold flush_ticket, utcnow. mstep.
  repeat (destruct (decide _); try reflexivity).
Qed.

(** The rows and the files an edit leaves, whether it goes through or not. *)
Lemma update_ticket_rows (ticket_id : Z) (ticket_data : TicketUpdate.t) (w : World) :
  db_ok w → paths_ok TICKETS_DIR w →
  let w' := snd (update_ticket TICKETS_DIR clock decodable ticket_id ticket_data w) in
  events w' = events w ∧
  (tickets w' = tickets w ∨
   ∃ loaded r,
     ticket_found ticket_id w = Some loaded ∧
     stored_edit TICKETS_DIR clock w ticket_data loaded r ∧
     tickets w' = replace_ticket r (tickets w)).
Proof.
  intros Hok Hpaths. cbn zeta.
  destruct (ticket_found ticket_id w) as [loaded|] eqn:Hf.
  - destruct (update_ticket_found ticket_id ticket_data w loaded Hok Hpaths Hf)
      as (e & He & Hrun).
    destruct (layers_readable_for TICKETS_DIR decodable w e loaded).
    + destruct Hrun as (r & w' & -> & Hr & _ & Hts & Hes).
      split; [exact Hes|]. right. now exists loaded, r.
    + rewrite Hrun. split; [reflexivity | now left].
  - rewrite (update_ticket_missing ticket_id ticket_data w Hf). split; [reflexivity | now left].
Qed.


End Edit.

Section EditRoute.
Variable TICKETS_DIR : string.
Variable clock : nat → datetime.
Variable decodable : string → bool.
Variable email_validator : string → option string.

(** What pydantic keeps of a body it accepts. *)
Lemma parse_TicketUpdate_fields (body ticket_data : TicketUpdate.t) :
  parse_TicketUpdate email_validator body = Some ticket_data →
  TicketUpdate.attendee_name ticket_data = TicketUpdate.attendee_name body ∧
  TicketUpdate.ticket_type ticket_data = TicketUpdate.ticket_type body ∧
  (TicketUpdate.attendee_email body = None → TicketUpdate.attendee_email ticket_data = None).
Proof.
  unfold parse_TicketUpdate. destruct (TicketUpdate.attendee_email body) as [s|] eqn:Hs.
  - destruct (EmailStr email_validator s); [|discriminate].
    intros [= <-]. cbn. repeat split. discriminate.
  - intros [= <-]. repeat split. intros _. exact Hs.
Qed.

Lemma empty_email_refused (ticket_id : Z) (body : TicketUpdate.t) (w : World) :
  TicketUpdate.attendee_email body = Some "" →
  update_ticket_route TICKETS_DIR clock decodable email_validator ticket_id body w =
    (Raise RequestValidationError, w).
Proof.
  intros Hempty. unfold update_ticket_route, parse_TicketUpdate. now rewrite Hempty.
Qed.

(** C10, as the code has it: a name or a type sent as the empty string is
    falsy, so the assignment is skipped and the stored value stays, as for
    a field that was not sent; the image is rendered again and [updated_at]
    is set all the same, when the layers of the image can be read. An
    e-mail sent as the empty string is no [EmailStr]: the request is
    answered with a validation error before the handler runs, and nothing
    changes. *)
Theorem update_ticket_skips_empty_string (ticket_id : Z) (body : TicketUpdate.t)
    (w : World) (loaded : Ticket.t) :
  db_ok w → paths_ok TICKETS_DIR w →
  ticket_found ticket_id w = Some loaded →
  (TicketUpdate.attendee_email body = Some "" →
   update_ticket_route TICKETS_DIR clock decodable email_validator ticket_id body w =
     (Raise RequestValidationError, w)) ∧
  (∀ ticket_data : TicketUpdate.t,
     parse_TicketUpdate email_validator body = Some ticket_data →
     ∃ e : Event.t,
       event_found (Ticket.event_id loaded) w = Some e ∧
       (readable decodable (design_of (files w) e) = true →
        readable decodable (files w !! qr_path TICKETS_DIR (Ticket.ticket_id loaded)) = true →
        ∃ (r : Ticket.t) (w' : World),
          update_ticket_route TICKETS_DIR clock decodable email_validator ticket_id body w =
            (Ok r, w') ∧
          ticket_found ticket_id w' = Some r ∧
          (TicketUpdate.attendee_name body = Some "" →
           Ticket.attendee_name r = Ticket.attendee_name loaded) ∧
          (TicketUpdate.ticket_type body = Some "" →
           Ticket.ticket_type r = Ticket.ticket_type loaded) ∧
          (∀ s, truthy s = true →
             (TicketUpdate.attendee_name body = Some s → Ticket.attendee_name r = s) ∧
             (TicketUpdate.attendee_email ticket_data = Some s →
              Ticket.attendee_email r = s) ∧
             (TicketUpdate.ticket_type body = Some s → Ticket.ticket_type r = s)) ∧
          files w' !! ticket_path TICKETS_DIR (Ticket.ticket_id loaded) =
            Some (rendering (files w) e r (qr_path TICKETS_DIR (Ticket.ticket_id loaded))) ∧
          (Ticket.updated_at r = clock (ticks w) ∨
           Ticket.updated_at r = clock (S (ticks w))))).
Proof.
  intros Hok Hpaths Hf. split; [apply empty_email_refused|].
  intros ticket_data Hparse.
  destruct (parse_TicketUpdate_fields body ticket_data Hparse) as (Hname & Htype & _).
  destruct (update_ticket_found TICKETS_DIR clock decodable ticket_id ticket_data w loaded
              Hok Hpaths Hf)
    as (e & He & Hrun).
  exists e. split; [exact He|]. intros Hdesign Hcode.
  unfold layers_readable_for in Hrun. rewrite Hdesign, Hcode in Hrun. cbn [andb] in Hrun.
  destruct Hrun as (r & w' & Hrun & Hr & Hfiles & Hts & Hes).
  destruct (stored_edit_frame TICKETS_DIR clock w ticket_data loaded r Hr)
    as (Hid & Htid & Hev & Hq & Hu & Hua & Hc & Himg & Hup & Hn & Hm & Ht).
  rewrite Hname in Hn. rewrite Htype in Ht.
  exists r, w'. split; [unfold update_ticket_route; now rewrite Hparse|]. split.
  { unfold ticket_found in *. rewrite Hts.
    apply (find_replace_ticket _ loaded); [exact Hf | exact Hid |].
    cbn. rewrite Hid. apply find_some in Hf. tauto. }
  split; [intros Hempty; now rewrite Hn, Hempty|].
  split; [intros Hempty; now rewrite Ht, Hempty|].
  split.
  { intros s Hs. repeat split; intros Hsent.
    - rewrite Hn, Hsent. cbn. now rewrite Hs.
    - rewrite Hm, Hsent. cbn. now rewrite Hs.
    - rewrite Ht, Hsent. cbn. now rewrite Hs. }
  split; [rewrite Hfiles; apply lookup_insert_eq | exact Hup].
Qed.

End EditRoute.

(** ** Every store the API leads to is well formed *)

Lemma next_id_above (ids : list Z) (i : Z) : In i ids → i < next_id ids.
Proof.
  unfold next_id. induction ids as [|j ids IH]; cbn; [contradiction|].
  intros [-> | Hin]; [lia|]. specialize (IH Hin). lia.
Qed.

Lemma next_id_fresh (ids : list Z) : ¬ In (next_id ids) ids.
Proof. intros Hin. apply next_id_above in Hin. lia. Qed.

Lemma map_id_replace_event (e : Event.t) (es : list Event.t) :
  map Event.id (replace_event e es) = map Event.id es.
Proof.
  unfold replace_event. rewrite map_map. apply map_ext. intros r.
  destruct (Event.id r =? Event.id e) eqn:Heq; [|reflexivity].
  apply Z.eqb_eq in Heq. now rewrite Heq.
Qed.

Lemma NoDup_map_filter {A B : Type} (f : A → B) (p : A → bool) (l : list A) :
  NoDup (map f l) → NoDup (map f (List.filter p l)).
Proof.
  induction l as [|a l IH]; cbn; [trivial|].
  intros Hnd. apply NoDup_cons in Hnd as [Hnot Hnd].
  destruct (p a); [|now apply IH]. cbn. apply NoDup_cons. split; [|now apply IH].
  rewrite list_elem_of_In in *. intros Hin. apply Hnot.
  apply in_map_iff in Hin as (x & Hx & Hin). apply filter_In in Hin as [Hin _].
  rewrite <- Hx. now apply in_map.
Qed.

Lemma NoDup_map_snoc {A B : Type} (f : A → B) (l : list A) (a : A) :
  NoDup (map f l) → ¬ In (f a) (map f l) → NoDup (map f (l ++ [a])).
Proof.
  intros Hnd Hnot. rewrite map_app. cbn. apply NoDup_app. split; [exact Hnd|].
  split; [|apply NoDup_singleton].
  intros x Hx Hx'. apply list_elem_of_In in Hx. apply list_elem_of_In in Hx'.
  destruct Hx' as [<- | []]. contradiction.
Qed.

(** A row replaced by primary key keeps every column the new row shares
    with the stored one. *)
Lemma map_replace_ticket {B : Type} (f : Ticket.t → B) (k r : Ticket.t) (ts : list Ticket.t) :
  NoDup (map Ticket.id ts) → In k ts → Ticket.id r = Ticket.id k → f r = f k →
  map f (replace_ticket r ts) = map f ts.
Proof.
  intros Hnd Hin Hid Hf. unfold replace_ticket. rewrite map_map.
  apply map_ext_in. intros x Hx.
  destruct (Ticket.id x =? Ticket.id r) eqn:Heq; [|reflexivity].
  apply Z.eqb_eq in Heq. rewrite Hid in Heq.
  now rewrite (NoDup_map_inj Ticket.id ts x k Hnd Hx Hin Heq).
Qed.

Lemma Forall_replace_ticket (P : Ticket.t → Prop) (r : Ticket.t) (ts : list Ticket.t) :
  Forall P ts → P r → Forall P (replace_ticket r ts).
Proof.
  intros Hall Hr. unfold replace_ticket. apply Forall_map.
  eapply Forall_impl; [exact Hall|]. intros x Hx. cbn.
  now destruct (Ticket.id x =? Ticket.id r).
Qed.

Section Invariant.
Variable UPLOAD_DIR : string.
Variable TICKETS_DIR : string.
Variable clock : nat → datetime.
Variable uuid4 : nat → string.
Variable smtp_ok : nat → bool.
Variable splitext_ext : string → string.
Variable decodable : string → bool.
Variable email_validator : string → option string.

(** Well-formedness looks at the ids of the events and at the tickets
    only. *)
Lemma store_ok_same_rows (w w' : World) :
  map Event.id (events w') = map Event.id (events w) →
  tickets w' = tickets w →
  store_ok TICKETS_DIR w → store_ok TICKETS_DIR w'.
Proof.
  intros Hes Hts [(H1 & H2 & H3 & H4) H5]. unfold store_ok, db_ok, paths_ok, ticket_ok in *.
  rewrite Hes, Hts. repeat split; assumption.
Qed.

Lemma store_ok_replace_ticket (w w' : World) (k r : Ticket.t) :
  store_ok TICKETS_DIR w → In k (tickets w) →
  Ticket.id r = Ticket.id k →
  Ticket.ticket_id r = Ticket.ticket_id k →
  Ticket.event_id r = Ticket.event_id k →
  Ticket.qr_code_path r = Ticket.qr_code_path k →
  Ticket.ticket_image_path r = Ticket.ticket_image_path k →
  (Ticket.is_used r = true → Ticket.used_at r ≠ None) →
  events w' = events w →
  tickets w' = replace_ticket r (tickets w) →
  store_ok TICKETS_DIR w'.
Proof.
  intros [(H1 & H2 & H3 & H4) H5] Hin Hid Htid Hev Hqr Himg Hused Hes Hts.
  unfold store_ok, db_ok, paths_ok in *. rewrite Hes, Hts.
  rewrite Forall_forall in H4, H5.
  apply list_elem_of_In in Hin as Hin'.
  destruct (H4 k Hin') as [Hk1 Hk2]. destruct (H5 k Hin') as [Hk3 Hk4].
  rewrite !(map_replace_ticket _ k r) by assumption.
  repeat split; try assumption.
  - apply Forall_replace_ticket; [now apply Forall_forall|].
    split; [now rewrite Hev | exact Hused].
  - apply Forall_replace_ticket; [now apply Forall_forall|].
    now rewrite Hqr, Himg, Htid.
Qed.

Lemma store_ok_add_event (w w' : World) (e : Event.t) :
  store_ok TICKETS_DIR w →
  Event.id e = next_id (map Event.id (events w)) →
  events w' = (events w ++ [e])%list →
  tickets w' = tickets w →
  store_ok TICKETS_DIR w'.
Proof.
  intros [(H1 & H2 & H3 & H4) H5] Hid Hes Hts.
  unfold store_ok, db_ok, paths_ok, ticket_ok in *. rewrite Hes, Hts.
  repeat split; try assumption.
  - apply NoDup_map_snoc; [exact H1|]. rewrite Hid. apply next_id_fresh.
  - eapply Forall_impl; [exact H4|]. intros k [Hk1 Hk2]. split; [|exact Hk2].
    rewrite map_app, in_app_iff. now left.
Qed.

Lemma store_ok_add_ticket (w w' : World) (k : Ticket.t) :
  store_ok TICKETS_DIR w →
  Ticket.id k = next_id (map Ticket.id (tickets w)) →
  ¬ In (Ticket.ticket_id k) (map Ticket.ticket_id (tickets w)) →
  In (Ticket.event_id k) (map Event.id (events w)) →
  Ticket.is_used k = false →
  Ticket.qr_code_path k = Some (qr_path TICKETS_DIR (Ticket.ticket_id k)) →
  Ticket.ticket_image_path k = Some (ticket_path TICKETS_DIR (Ticket.ticket_id k)) →
  events w' = events w →
  tickets w' = (tickets w ++ [k])%list →
  store_ok TICKETS_DIR w'.
Proof.
  intros [(H1 & H2 & H3 & H4) H5] Hid Hnew Hev Hused Hqr Himg Hes Hts.
  unfold store_ok, db_ok, paths_ok, ticket_ok in *. rewrite Hes, Hts.
  repeat split; try assumption.
  - apply NoDup_map_snoc; [exact H2|]. rewrite Hid. apply next_id_fresh.
  - now apply NoDup_map_snoc.
  - apply Forall_app. split; [exact H4|]. constructor; [|constructor].
    split; [exact Hev | congruence].
  - apply Forall_app. split; [exact H5|]. constructor; [|constructor]. now split.
Qed.

Lemma store_ok_delete_ticket (w w' : World) (p : Ticket.t → bool) :
  store_ok TICKETS_DIR w → events w' = events w → tickets w' = List.filter p (tickets w) → store_ok TICKETS_DIR w'.
Proof.
  intros [(H1 & H2 & H3 & H4) H5] Hes Hts.
  unfold store_ok, db_ok, paths_ok in *. rewrite Hes, Hts.
  rewrite Forall_forall in H4, H5.
  repeat split; try assumption; try now apply NoDup_map_filter.
  - apply Forall_forall. intros k Hk. apply H4.
    rewrite list_elem_of_In in *. apply filter_In in Hk. tauto.
  - apply Forall_forall. intros k Hk. apply H5.
    rewrite list_elem_of_In in *. apply filter_In in Hk. tauto.
Qed.

Lemma store_ok_delete_event (w w' : World) (i : Z) :
  store_ok TICKETS_DIR w →
  events w' = List.filter (λ e, negb (Event.id e =? i)) (events w) →
  tickets w' = List.filter (λ k, negb (Ticket.event_id k =? i)) (tickets w) →
  store_ok TICKETS_DIR w'.
Proof.
  intros [(H1 & H2 & H3 & H4) H5] Hes Hts.
  unfold store_ok, db_ok, paths_ok in *. rewrite Hes, Hts.
  rewrite Forall_forall in H4, H5.
  repeat split; try now apply NoDup_map_filter.
  - apply Forall_forall. intros k Hk. rewrite list_elem_of_In in Hk.
    apply filter_In in Hk as [Hk Hne]. apply list_elem_of_In in Hk.
    destruct (H4 k Hk) as [Hev Hused]. split; [|exact Hused].
    apply in_map_iff in Hev as (e & He & Hin). apply in_map_iff. exists e.
    split; [exact He|]. apply filter_In. split; [exact Hin|]. now rewrite He.
  - apply Forall_forall. intros k Hk. apply H5.
    rewrite list_elem_of_In in *. apply filter_In in Hk. tauto.
Qed.

Lemma flush_event_total (loaded e : Event.t) (w : World) :
  ∃ (r : Event.t) (w' : World),
    flush_event clock loaded e w = (Ok r, w') ∧
    map Event.id (events w') = map Event.id (events w) ∧
    tickets w' = tickets w.
Proof.
  unfold flush_event. destruct (decide _); [now exists e, w|].
  destruct (decide _); unfold utcnow; mstep; do 2 eexists;
    (split; [reflexivity|]); cbn [events tickets set_events set_ticks];
    now rewrite map_id_replace_event.
Qed.

Lemma create_event_ok (event_data : EventCreate.t) (w : World) :
  store_ok TICKETS_DIR w → store_ok TICKETS_DIR (snd (create_event clock event_data w)).
Proof.
  intros Hok. unfold create_event, add_event, utcnow. mstep. cbn.
  eapply (store_ok_add_event w); [exact Hok | | reflexivity | reflexivity]. reflexivity.
Qed.

Lemma update_event_ok (event_id : Z) (event_data : EventCreate.t) (w : World) :
  store_ok TICKETS_DIR w →
  store_ok TICKETS_DIR (snd (update_event clock event_id event_data w)).
Proof.
  intros Hok. unfold update_event, event_by_id. mstep.
  destruct (find _ (events w)) as [e|]; [|now destruct (sqlite_int _)].
  destruct (Event.is_locked e); [exact Hok|].
  match goal with |- context [flush_event clock ?a ?b ?c] =>
    destruct (flush_event_total a b c) as (r & w' & -> & Hes & Hts) end.
  now apply (store_ok_same_rows w).
Qed.

Lemma toggle_event_active_ok (event_id : Z) (w : World) :
  store_ok TICKETS_DIR w → store_ok TICKETS_DIR (snd (toggle_event_active clock event_id w)).
Proof.
  intros Hok. unfold toggle_event_active, event_by_id. mstep.
  destruct (find _ (events w)) as [e|]; [|now destruct (sqlite_int _)].
  match goal with |- context [flush_event clock ?a ?b ?c] =>
    destruct (flush_event_total a b c) as (r & w' & -> & Hes & Hts) end.
  now apply (store_ok_same_rows w).
Qed.

Lemma upload_ticket_design_ok (event_id : Z) (upload : UploadFile) (w : World) :
  store_ok TICKETS_DIR w →
  store_ok TICKETS_DIR
    (snd (upload_ticket_design UPLOAD_DIR clock splitext_ext event_id upload w)).
Proof.
  intros Hok. unfold upload_ticket_design, event_by_id, save_file. mstep.
  destruct (find _ (events w)) as [e|]; [|now destruct (sqlite_int _)].
  destruct (content_type upload) as [ct|]; [|exact Hok].
  destruct (negb _); [exact Hok|].
  match goal with |- context [flush_event clock ?a ?b ?c] =>
    destruct (flush_event_total a b c) as (r & w' & -> & Hes & Hts) end.
  now apply (store_ok_same_rows w).
Qed.

Lemma delete_event_ok (event_id : Z) (w : World) :
  store_ok TICKETS_DIR w → store_ok TICKETS_DIR (snd (delete_event event_id w)).
Proof.
  intros Hok. unfold delete_event, event_by_id. mstep.
  destruct (find _ (events w)) as [e|] eqn:Hf; [|now destruct (sqlite_int _)].
  apply find_event_id in Hf as [Hid _]. cbn. rewrite Hid.
  now apply (store_ok_delete_event w _ event_id).
Qed.

Lemma delete_ticket_ok (ticket_id : Z) (w : World) :
  store_ok TICKETS_DIR w → store_ok TICKETS_DIR (snd (delete_ticket ticket_id w)).
Proof.
  intros Hok. unfold delete_ticket, ticket_by_id, remove_if_exists, remove_file. mstep.
  destruct (find _ (tickets w)) as [k|]; [|now destruct (sqlite_int _)].
  destruct (truthy_opt (Ticket.qr_code_path k)), (truthy_opt (Ticket.ticket_image_path k));
    mstep; cbn; eapply (store_ok_delete_ticket w); try exact Hok; reflexivity.
Qed.

Lemma resend_ticket_ok (ticket_id : Z) (w : World) :
  store_ok TICKETS_DIR w → store_ok TICKETS_DIR (snd (resend_ticket smtp_ok ticket_id w)).
Proof.
  intros Hok. unfold resend_ticket, ticket_by_id, event_by_id, send_ticket_email. mstep.
  destruct (find _ (tickets w)) as [k|]; [|now destruct (sqlite_int _)].
  destruct (find _ (events w)) as [e|]; [|now destruct (sqlite_int _)].
  destruct (Ticket.ticket_image_path k); [|exact Hok].
  destruct (smtp_ok _); cbn; now apply (store_ok_same_rows w).
Qed.

Lemma validate_ticket_ok (scan_data : ScanRequest.t) (w : World) :
  store_ok TICKETS_DIR w → store_ok TICKETS_DIR (snd (validate_ticket clock scan_data w)).
Proof.
  intros Hok. rewrite validate_ticket_load.
  destruct (scanned scan_data w) as [k|] eqn:Hf; [|exact Hok].
  pose proof (find_some _ _ Hf) as [Hin _].
  destruct (Ticket.is_used k) eqn:Hused.
  - unfold validate_loaded. rewrite Hused. now destruct (Ticket.used_at k).
  - destruct (event_of_ticket w k (proj1 Hok) Hin) as [e He].
    rewrite (validate_loaded_unused clock w k e Hused He).
    apply (store_ok_replace_ticket w _ k (redeemed (clock (ticks w)) (clock (S (ticks w))) k));
      try exact Hok; try exact Hin; try reflexivity.
    intros _. discriminate.
Qed.

Lemma update_ticket_ok (ticket_id : Z) (ticket_data : TicketUpdate.t) (w : World) :
  store_ok TICKETS_DIR w →
  store_ok TICKETS_DIR
    (snd (update_ticket TICKETS_DIR clock decodable ticket_id ticket_data w)).
Proof.
  intros Hok.
  destruct (update_ticket_rows TICKETS_DIR clock decodable ticket_id ticket_data w
              (proj1 Hok) (proj2 Hok))
    as [Hes [Hts | (loaded & r & Hf & Hr & Hts)]].
  - apply (store_ok_same_rows w); [now rewrite Hes | exact Hts | exact Hok].
  - destruct (stored_edit_frame TICKETS_DIR clock w ticket_data loaded r Hr)
      as (Hid & Htid & Hev & Hq & Hu & Hua & Hc & Himg & _).
    pose proof (find_ticket_id _ _ _ Hf) as [_ Hin].
    destruct Hok as [Hdb Hpaths].
    pose proof Hdb as (_ & _ & _ & Hall).
    rewrite Forall_forall in Hall. destruct (Hall loaded) as [_ Hused];
      [now apply list_elem_of_In|].
    pose proof Hpaths as Hp. unfold paths_ok in Hp. rewrite Forall_forall in Hp.
    destruct (Hp loaded) as [_ Hpath]; [now apply list_elem_of_In|].
    eapply (store_ok_replace_ticket w _ loaded r); try eassumption.
    + now split.
    + now rewrite Himg, Hpath.
    + now rewrite Hu, Hua.
Qed.

Lemma update_ticket_route_ok (ticket_id : Z) (body : TicketUpdate.t) (w : World) :
  store_ok TICKETS_DIR w →
  store_ok TICKETS_DIR
    (snd (update_ticket_route TICKETS_DIR clock decodable email_validator ticket_id body w)).
Proof.
  intros Hok. unfold update_ticket_route.
  destruct (parse_TicketUpdate email_validator body); [|exact Hok].
  now apply update_ticket_ok.
Qed.

Lemma create_loop_ok (e : Event.t) (ticket_data : TicketCreate.t) (n : nat) :
  ∀ (w : World) (acc : list Ticket.t),
    store_ok TICKETS_DIR w →
    In (Event.id e) (map Event.id (events w)) →
    store_ok TICKETS_DIR
      (snd (create_loop TICKETS_DIR clock uuid4 smtp_ok decodable n e ticket_data acc w)).
Proof.
  induction n as [|n IH]; intros w acc Hok He; [exact Hok|].
  cbn [create_loop].
  destruct (create_one_ticket_cases TICKETS_DIR clock uuid4 smtp_ok decodable e ticket_data w)
    as [(err & w' & Hone & Hts & Hes) | (Hfresh & w' & Hone & Hts & Hes)].
  - erewrite bind_raise by exact Hone. cbn.
    apply (store_ok_same_rows w); [now rewrite Hes | exact Hts | exact Hok].
  - erewrite bind_ok by exact Hone.
    apply IH; [|now rewrite Hes].
    eapply (store_ok_add_ticket w w'); try exact Hok; try exact Hts; try exact Hes;
      try reflexivity; assumption.
Qed.

Lemma create_tickets_ok (event_id : Z) (ticket_data : TicketCreate.t) (w : World) :
  store_ok TICKETS_DIR w →
  store_ok TICKETS_DIR
    (snd (create_tickets TICKETS_DIR clock uuid4 smtp_ok decodable event_id ticket_data w)).
Proof.
  intros Hok. destruct (event_found event_id w) as [e|] eqn:Hf.
  - rewrite (create_tickets_found TICKETS_DIR clock uuid4 smtp_ok decodable _ _ _ e Hf).
    pose proof (find_event_id _ _ _ Hf) as [Hid Hin].
    assert (Hids : map Event.id (events (after_lock clock e w)) = map Event.id (events w)).
    { unfold after_lock. destruct (Event.is_locked e); [reflexivity|].
      cbn. apply map_id_replace_event. }
    assert (Hts : tickets (after_lock clock e w) = tickets w).
    { unfold after_lock. now destruct (Event.is_locked e). }
    apply create_loop_ok.
    + now apply (store_ok_same_rows w).
    + rewrite Hids. replace (Event.id (if Event.is_locked e then e else _)) with (Event.id e)
        by now destruct (Event.is_locked e).
      now apply in_map.
  - unfold create_tickets, event_by_id. mstep. fold (event_found event_id w).
    rewrite Hf. now destruct (sqlite_int event_id).
Qed.

Lemma create_tickets_route_ok (event_id : Z) (body : TicketCreate.t) (w : World) :
  store_ok TICKETS_DIR w →
  store_ok TICKETS_DIR
    (snd (create_tickets_route TICKETS_DIR clock uuid4 smtp_ok decodable email_validator
            event_id body w)).
Proof.
  intros Hok. unfold create_tickets_route.
  destruct (parse_TicketCreate email_validator body); [|exact Hok].
  now apply create_tickets_ok.
Qed.

(** Every store the requests of the API lead to from the empty one is
    well formed. *)
Theorem reachable_store_ok (w : World) :
  reachable UPLOAD_DIR TICKETS_DIR clock uuid4 smtp_ok splitext_ext decodable email_validator w →
  store_ok TICKETS_DIR w.
Proof.
  induction 1 as [|r w _ IH].
  - repeat split; cbn; constructor.
  - destruct r; cbn [serve].
    + now apply create_event_ok.
    + now apply update_event_ok.
    + now apply delete_event_ok.
    + now apply toggle_event_active_ok.
    + now apply upload_ticket_design_ok.
    + now apply create_tickets_route_ok.
    + now apply update_ticket_route_ok.
    + now apply delete_ticket_ok.
    + now apply resend_ticket_ok.
    + now apply validate_ticket_ok.
Qed.

End Invariant.

(** ** The sample run *)

Lemma sample_with_tickets_ok : store_ok Sample.TICKETS_DIR Sample.with_tickets.
Proof.
  assert (Hrun : Sample.with_tickets =
            serve Sample.UPLOAD_DIR Sample.TICKETS_DIR Sample.clock Sample.uuid4
              Sample.smtp_ok Sample.splitext_ext Sample.decodable Sample.email_validator (CreateTickets 1 (Sample.ada 3))
              (serve Sample.UPLOAD_DIR Sample.TICKETS_DIR Sample.clock Sample.uuid4
                 Sample.smtp_ok Sample.splitext_ext Sample.decodable Sample.email_validator (CreateEvent Sample.party) empty_world))
    by (vm_compute; reflexivity).
  rewrite Hrun.
  apply (reachable_store_ok Sample.UPLOAD_DIR Sample.TICKETS_DIR Sample.clock Sample.uuid4
           Sample.smtp_ok Sample.splitext_ext Sample.decodable Sample.email_validator).
  do 2 apply reachable_serve. apply reachable_empty.
Qed.

Lemma sample_after_scan_ok : store_ok Sample.TICKETS_DIR Sample.after_scan.
Proof.
  assert (Hrun : Sample.after_scan =
            snd (validate_ticket Sample.clock Sample.first_code Sample.with_tickets))
    by (vm_compute; reflexivity).
  rewrite Hrun.
  apply (validate_ticket_ok Sample.TICKETS_DIR Sample.clock Sample.first_code).
  apply sample_with_tickets_ok.
Qed.

Lemma sample_first_ticket :
  scanned Sample.first_code Sample.with_tickets = Some Sample.first_ticket.
Proof. vm_compute. reflexivity. Qed.

Lemma validate_unused_ticket_witness :
  db_ok Sample.with_tickets ∧
  scanned Sample.first_code Sample.with_tickets = Some Sample.first_ticket ∧
  Ticket.is_used Sample.first_ticket = false ∧
  ∃ (e : Event.t) (w' : World),
    validate_ticket Sample.clock Sample.first_code Sample.with_tickets =
      (Ok (valid_answer Sample.first_ticket e), w') ∧
    scanned Sample.first_code w' =
      Some (redeemed (Sample.clock 12) (Sample.clock 13) Sample.first_ticket).
Proof.
  pose proof (proj1 sample_with_tickets_ok) as Hok.
  pose proof sample_first_ticket as Hf.
  split; [exact Hok|]. split; [exact Hf|]. split; [reflexivity|].
  destruct (validate_unused_ticket Sample.clock Sample.first_code Sample.with_tickets
              Sample.first_ticket Hok Hf eq_refl)
    as (e & w' & _ & Hv & _ & Hfound & _).
  exists e, w'. split; [exact Hv | exact Hfound].
Defined.

Lemma validate_used_ticket_witness :
  db_ok Sample.after_scan ∧
  scanned Sample.first_code Sample.after_scan =
    Some (redeemed (Sample.clock 12) (Sample.clock 13) Sample.first_ticket) ∧
  Ticket.is_used (redeemed (Sample.clock 12) (Sample.clock 13) Sample.first_ticket) = true ∧
  ∃ d : datetime,
    validate_ticket Sample.clock Sample.first_code Sample.after_scan =
      (Ok (already_used_answer Sample.first_ticket d), Sample.after_scan) ∧
    scans Sample.clock 2 Sample.first_code Sample.after_scan =
      (Ok [already_used_answer Sample.first_ticket d;
           already_used_answer Sample.first_ticket d], Sample.after_scan).
Proof.
  pose proof (proj1 sample_after_scan_ok) as Hok.
  assert (Hf : scanned Sample.first_code Sample.after_scan =
               Some (redeemed (Sample.clock 12) (Sample.clock 13) Sample.first_ticket))
    by (vm_compute; reflexivity).
  split; [exact Hok|]. split; [exact Hf|]. split; [reflexivity|].
  destruct (validate_used_ticket Sample.clock Sample.first_code Sample.after_scan _
              Hok Hf eq_refl) as (d & _ & Hv & Hn).
  exists d. split; [exact Hv | exact (Hn 2%nat)].
Defined.

Lemma validate_unknown_identifier_witness :
  scanned (ScanRequest.mk "UNKNOWN-ID") empty_world = None ∧
  validate_ticket Sample.clock (ScanRequest.mk "UNKNOWN-ID") empty_world =
    (Ok invalid_answer, empty_world).
Proof.
  split; [reflexivity|].
  apply (validate_unknown_identifier Sample.clock (ScanRequest.mk "UNKNOWN-ID") empty_world).
  reflexivity.
Defined.

(** C4: two scans of a fresh ticket whose queries both run before either
    write are both let in; the row then carries the time of the second
    write, not of the first. *)
Theorem interleaved_scans_let_both_in :
  ∃ w' : World,
    interleaved_scans Sample.clock Sample.first_code Sample.first_code Sample.with_tickets =
      (Ok (mk_scan true "Entry granted" "valid"
             [("attendee_name", "Ada Obi"); ("ticket_type", "VIP");
              ("ticket_id", "TKT-20250601183003-3F2B8C1E");
              ("event_name", "Lagos Jazz Night")],
           mk_scan true "Entry granted" "valid"
             [("attendee_name", "Ada Obi"); ("ticket_type", "VIP");
              ("ticket_id", "TKT-20250601183003-3F2B8C1E");
              ("event_name", "Lagos Jazz Night")]), w') ∧
    Ticket.is_used Sample.first_ticket = false ∧
    scanned Sample.first_code Sample.with_tickets = Some Sample.first_ticket ∧
    (Ticket.used_at <$> scanned Sample.first_code w') = Some (Some (Sample.clock 14)) ∧
    Sample.clock 14 ≠ Sample.clock 12.
Proof.
  eexists. split; [vm_compute; reflexivity|].
  split; [reflexivity|]. split; [exact sample_first_ticket|].
  split; [vm_compute; reflexivity | discriminate].
Qed.

Lemma locked_event_refuses_update_witness :
  ∃ e : Event.t,
    event_found 1 Sample.with_tickets = Some e ∧
    Event.is_locked e = true ∧
    update_event Sample.clock 1 Sample.party Sample.with_tickets =
      (Raise event_locked_error, Sample.with_tickets) ∧
    ∃ (text : string) (w' : World),
      toggle_event_active Sample.clock 1 Sample.with_tickets = (Ok (text, false), w') ∧
      event_found 1 w' = Some (toggled (Sample.clock 12) e).
Proof.
  destruct (event_found 1 Sample.with_tickets) as [e|] eqn:Hf; [|vm_compute in Hf; discriminate].
  exists e.
  assert (Hl : Event.is_locked e = true)
    by (vm_compute in Hf; injection Hf as <-; reflexivity).
  assert (Ha : Event.is_active e = true)
    by (vm_compute in Hf; injection Hf as <-; reflexivity).
  destruct (locked_event_refuses_update Sample.clock 1 Sample.with_tickets e Hf)
    as (Hupd & text & w' & Htog & Hfound & _).
  split; [reflexivity|]. split; [exact Hl|]. split; [exact (Hupd Hl Sample.party)|].
  exists text, w'. rewrite Ha in Htog. split; [exact Htog | exact Hfound].
Defined.

Lemma sample_event_found :
  ∃ e : Event.t, event_found 1 Sample.with_event = Some e ∧ Event.is_locked e = false.
Proof. eexists. split; [vm_compute; reflexivity | reflexivity]. Qed.

Lemma batch_of_fresh_identifiers_witness :
  ∃ e : Event.t,
    event_found 1 Sample.with_event = Some e ∧
    1 ≤ TicketCreate.quantity (Sample.ada 3) ∧
    NoDup (batch_ids Sample.clock Sample.uuid4 3 0 3) ∧
    (∀ i, In i (batch_ids Sample.clock Sample.uuid4 3 0 3) →
          ¬ In i (map Ticket.ticket_id (tickets Sample.with_event))) ∧
    readable Sample.decodable (design_of (files Sample.with_event) e) = true ∧
    ∃ (created : list Ticket.t) (w' : World),
      create_tickets Sample.TICKETS_DIR Sample.clock Sample.uuid4 Sample.smtp_ok
        Sample.decodable 1 (Sample.ada 3) Sample.with_event = (Ok created, w') ∧
      List.length created = 3%nat ∧
      map Ticket.ticket_id created =
        ["TKT-20250601183003-3F2B8C1E"; "TKT-20250601183006-A41C09DE";
         "TKT-20250601183009-0BE7D512"] ∧
      (Event.is_locked <$> event_found 1 w') = Some true.
Proof.
  destruct (event_found 1 Sample.with_event) as [e|] eqn:Hf;
    [|vm_compute in Hf; discriminate].
  pose proof Hf as He. vm_compute in He. injection He as He. subst e.
  eexists. split; [reflexivity|].
  assert (Hq : 1 ≤ TicketCreate.quantity (Sample.ada 3)) by (cbn; lia).
  assert (Hnd : NoDup (batch_ids Sample.clock Sample.uuid4 3 0 3))
    by (apply (bool_decide_unpack _); vm_compute; exact I).
  assert (Hnew : ∀ i, In i (batch_ids Sample.clock Sample.uuid4 3 0 3) →
                      ¬ In i (map Ticket.ticket_id (tickets Sample.with_event)))
    by (intros i _ []).
  split; [exact Hq|]. split; [exact Hnd|]. split; [exact Hnew|].
  split; [vm_compute; reflexivity|].
  pose proof (batch_of_fresh_identifiers Sample.TICKETS_DIR Sample.clock Sample.uuid4
                Sample.smtp_ok Sample.decodable 1 (Sample.ada 3) Sample.with_event _ Hf Hq)
    as H.
  cbn zeta in H. destruct H as [(_ & Hfound & Hlocked & _ & _ & _ & Hes) Htickets].
  destruct (Htickets Hnd Hnew eq_refl) as (created & w' & Hrun & Hlen & Hids & _).
  exists created, w'. split; [exact Hrun|]. split; [exact Hlen|].
  split; [rewrite Hids; vm_compute; reflexivity|].
  rewrite Hrun in Hes. cbn [snd] in Hes. unfold event_found in *. rewrite Hes, Hfound.
  cbn [fmap option_fmap option_map]. now rewrite Hlocked.
Defined.

(** C6, as stated, fails when two identifiers of a batch coincide: drawn
    within one second from UUIDs with the same first eight characters, the
    second row is refused by the UNIQUE column and the batch stops with one
    ticket stored instead of two. *)
Lemma colliding_identifiers_stop_the_batch :
  let run := create_tickets Sample.TICKETS_DIR Sample.busy_clock Sample.close_uuid4
               Sample.smtp_ok Sample.decodable 1 (Sample.ada 2) Sample.with_event in
  Sample.close_uuid4 0 ≠ Sample.close_uuid4 1 ∧
  fst run = Raise IntegrityError ∧
  List.length (tickets (snd run)) = 1%nat ∧
  ¬ ∃ (created : list Ticket.t) (w' : World),
      run = (Ok created, w') ∧ List.length created = 2%nat ∧
      NoDup (map Ticket.ticket_id created).
Proof.
  cbn zeta. split; [vm_compute; discriminate|].
  split; [vm_compute; reflexivity|]. split; [vm_compute; reflexivity|].
  intros (created & w' & Hrun & _).
  apply (f_equal fst) in Hrun. vm_compute in Hrun. discriminate.
Qed.

Lemma empty_batch_accepted_witness :
  ∃ e : Event.t,
    event_found 1 Sample.with_event = Some e ∧
    TicketCreate.quantity (Sample.ada 0) < 1 ∧
    create_tickets Sample.TICKETS_DIR Sample.clock Sample.uuid4 Sample.smtp_ok Sample.decodable 1
      (Sample.ada 0) Sample.with_event = (Ok [], after_lock Sample.clock e Sample.with_event) ∧
    tickets (after_lock Sample.clock e Sample.with_event) = [] ∧
    files (after_lock Sample.clock e Sample.with_event) = ∅.
Proof.
  destruct sample_event_found as (e & Hf & Hl). exists e.
  assert (Hq : TicketCreate.quantity (Sample.ada 0) < 1) by (cbn; lia).
  split; [exact Hf|]. split; [exact Hq|].
  destruct (empty_batch_accepted Sample.TICKETS_DIR Sample.clock Sample.uuid4 Sample.smtp_ok
              Sample.decodable
              1 (Sample.ada 0) Sample.with_event e Hf Hq)
    as (Hrun & Hts & Hfs & _).
  split; [exact Hrun|]. split; [rewrite Hts | rewrite Hfs]; reflexivity.
Defined.

(** C7, as stated, fails: a batch of zero tickets for an unlocked event is
    answered with the empty list, not with an error, and the event is
    locked by it. *)
Lemma empty_batch_locks_the_event :
  let run := create_tickets Sample.TICKETS_DIR Sample.clock Sample.uuid4 Sample.smtp_ok Sample.decodable 1
               (Sample.ada 0) Sample.with_event in
  fst run = Ok [] ∧
  (Event.is_locked <$> event_found 1 Sample.with_event) = Some false ∧
  (Event.is_locked <$> event_found 1 (snd run)) = Some true ∧
  ¬ ∃ err : error, run = (Raise err, Sample.with_event).
Proof.
  cbn zeta. split; [vm_compute; reflexivity|].
  split; [vm_compute; reflexivity|]. split; [vm_compute; reflexivity|].
  intros (err & Hrun). apply (f_equal fst) in Hrun. vm_compute in Hrun. discriminate.
Qed.

Lemma sample_ticket_found :
  ticket_found 1 Sample.with_tickets = Some Sample.first_ticket.
Proof. vm_compute. reflexivity. Qed.



Lemma update_ticket_skips_empty_string_witness :
  db_ok Sample.with_tickets ∧
  paths_ok Sample.TICKETS_DIR Sample.with_tickets ∧
  ticket_found 1 Sample.with_tickets = Some Sample.first_ticket ∧
  parse_TicketUpdate Sample.email_validator Sample.rename = Some Sample.rename ∧
  TicketUpdate.ticket_type Sample.rename = Some "" ∧
  ∃ e : Event.t,
    event_found 1 Sample.with_tickets = Some e ∧
    readable Sample.decodable (design_of (files Sample.with_tickets) e) = true ∧
    readable Sample.decodable
      (files Sample.with_tickets !!
         qr_path Sample.TICKETS_DIR (Ticket.ticket_id Sample.first_ticket)) = true ∧
    ∃ (r : Ticket.t) (w' : World),
      update_ticket_route Sample.TICKETS_DIR Sample.clock Sample.decodable
        Sample.email_validator 1 Sample.rename Sample.with_tickets = (Ok r, w') ∧
      Ticket.ticket_type r = "VIP" ∧
      Ticket.attendee_name r = "Ada O. Obi" ∧
      files w' !! ticket_path Sample.TICKETS_DIR "TKT-20250601183003-3F2B8C1E" =
        Some (rendering (files Sample.with_tickets) e r
                (qr_path Sample.TICKETS_DIR "TKT-20250601183003-3F2B8C1E")).
Proof.
  destruct sample_with_tickets_ok as [Hok Hpaths].
  pose proof sample_ticket_found as Hf.
  split; [exact Hok|]. split; [exact Hpaths|]. split; [exact Hf|].
  split; [reflexivity|]. split; [reflexivity|].
  destruct (proj2 (update_ticket_skips_empty_string Sample.TICKETS_DIR Sample.clock
                     Sample.decodable Sample.email_validator 1 Sample.rename
                     Sample.with_tickets Sample.first_ticket Hok Hpaths Hf)
              Sample.rename eq_refl)
    as (e & He & Hrun).
  change (Ticket.event_id Sample.first_ticket) with 1 in He.
  pose proof He as Hlit. vm_compute in Hlit. injection Hlit as Hlit. subst e.
  eexists. split; [exact He|].
  match type of Hrun with
  | ?design = true → ?code = true → _ =>
    assert (Hdesign : design = true) by (vm_compute; reflexivity);
    assert (Hcode : code = true) by (vm_compute; reflexivity)
  end.
  split; [exact Hdesign|]. split; [exact Hcode|].
  destruct (Hrun Hdesign Hcode) as (r & w' & Hupd & _ & _ & Htype & Hsent & Himg & _).
  exists r, w'. split; [exact Hupd|]. split; [now apply Htype|].
  split; [now apply (Hsent "Ada O. Obi")|]. exact Himg.
Defined.

(** C10, as stated, fails for the e-mail: an edit that sends the empty
    string as e-mail is refused before the handler runs, so the image is
    not rendered again and [updated_at] is not set; nothing changes. *)
Lemma empty_email_is_refused :
  let run := update_ticket_route Sample.TICKETS_DIR Sample.clock Sample.decodable
               Sample.email_validator 1 SampleMore.blank_email Sample.with_tickets in
  TicketUpdate.attendee_email SampleMore.blank_email = Some "" ∧
  ticket_found 1 Sample.with_tickets = Some Sample.first_ticket ∧
  run = (Raise RequestValidationError, Sample.with_tickets) ∧
  ¬ ∃ (r : Ticket.t) (w' : World), run = (Ok r, w').
Proof.
  cbn zeta. split; [reflexivity|]. split; [vm_compute; reflexivity|].
  split; [reflexivity|]. intros (r & w' & Hrun). discriminate.
Qed.

(** The rows of a deleted event are gone, and so is every ticket a later
    listing could return. *)
Lemma delete_event_rows (event_id : Z) (w : World) (e : Event.t) :
  event_found event_id w = Some e →
  let w' := snd (delete_event event_id w) in
  (sqlite_int event_id = true → fst (get_event_tickets event_id w') = Ok []) ∧
  event_found event_id w' = None ∧
  Forall (λ k, Ticket.event_id k ≠ event_id) (tickets w').
Proof.
  intros Hf. unfold delete_event, event_by_id. mstep.
  fold (event_found event_id w). rewrite Hf. cbn.
  pose proof (find_event_id _ _ _ Hf) as [Hid _].
  assert (Hnone : List.filter (λ k, Ticket.event_id k =? event_id)
            (List.filter (λ k, negb (Ticket.event_id k =? event_id)) (tickets w)) = []).
  { induction (tickets w) as [|k ts IH]; [reflexivity|]. cbn.
    destruct (Ticket.event_id k =? event_id) eqn:Heq; cbn; [exact IH|].
    now rewrite Heq. }
  split; [intros Hint; unfold get_event_tickets; rewrite Hint; cbn; now rewrite Hnone|].
  split.
  - unfold event_found. cbn. rewrite Hid.
    induction (events w) as [|x es IH]; [reflexivity|]. cbn.
    destruct (Event.id x =? event_id) eqn:Heq; cbn; [exact IH|]. now rewrite Heq.
  - apply Forall_forall. intros k Hk. apply list_elem_of_In, filter_In in Hk as [_ Hk].
    intros Heq. rewrite Heq, Z.eqb_refl in Hk. discriminate.
Qed.

(** [delete_event] never touches a file. *)
Lemma delete_event_files (event_id : Z) (w : World) :
  files (snd (delete_event event_id w)) = files w.
Proof.
  unfold delete_event, event_by_id. mstep.
  destruct (find _ (events w)); [reflexivity | now destruct (sqlite_int event_id)].
Qed.

(** C9: the rows of the three tickets go with the event and the listing
    is empty, but the six files the tickets had generated are all still
    there, where [delete_ticket] would have removed those of its ticket. *)
Theorem delete_event_leaves_the_files :
  let w := Sample.with_tickets in
  let w' := snd (delete_event 1 w) in
  List.length (tickets w) = 3%nat ∧
  tickets w' = [] ∧ events w' = [] ∧
  fst (get_event_tickets 1 w') = Ok [] ∧
  files w' = files w ∧
  size (files w') = 6%nat ∧
  forallb (λ k, bool_decide (is_Some (files w' !! or_empty (Ticket.qr_code_path k))) &&
                bool_decide (is_Some (files w' !! or_empty (Ticket.ticket_image_path k))))
          (tickets w) = true ∧
  files (snd (delete_ticket 1 w)) !! or_empty (Ticket.qr_code_path Sample.first_ticket) = None ∧
  files (snd (delete_ticket 1 w)) !! or_empty (Ticket.ticket_image_path Sample.first_ticket)
    = None.
Proof. cbn zeta. repeat split; vm_compute; reflexivity. Qed.

(** ** Rows found after a table has changed *)

Lemma find_app_found {A : Type} (p : A → bool) (l l' : list A) (x : A) :
  find p l = Some x → find p (l ++ l')%list = Some x.
Proof.
  induction l as [|a l IH]; cbn; [discriminate|].
  destruct (p a); [trivial | exact IH].
Qed.

Lemma find_replace_event_other (i : Z) (r : Event.t) (es : list Event.t) :
  Event.id r ≠ i →
  find (λ e, Event.id e =? i) (replace_event r es) = find (λ e, Event.id e =? i) es.
Proof.
  intros Hne. induction es as [|a es IH]; [reflexivity|]. cbn.
  destruct (Event.id a =? Event.id r) eqn:Ha.
  - apply Z.eqb_eq in Ha.
    destruct (Event.id r =? i) eqn:Hr; [apply Z.eqb_eq in Hr; contradiction|].
    rewrite Ha, Hr. exact IH.
  - destruct (Event.id a =? i); [reflexivity | exact IH].
Qed.

Lemma find_replace_ticket_other (i : Z) (r : Ticket.t) (ts : list Ticket.t) :
  Ticket.id r ≠ i →
  find (λ k, Ticket.id k =? i) (replace_ticket r ts) = find (λ k, Ticket.id k =? i) ts.
Proof.
  intros Hne. induction ts as [|a ts IH]; [reflexivity|]. cbn.
  destruct (Ticket.id a =? Ticket.id r) eqn:Ha.
  - apply Z.eqb_eq in Ha.
    destruct (Ticket.id r =? i) eqn:Hr; [apply Z.eqb_eq in Hr; contradiction|].
    rewrite Ha, Hr. exact IH.
  - destruct (Ticket.id a =? i); [reflexivity | exact IH].
Qed.

Lemma find_event_after_delete (i j : Z) (es : list Event.t) :
  find (λ e, Event.id e =? i) (List.filter (λ e, negb (Event.id e =? j)) es) =
  if i =? j then None else find (λ e, Event.id e =? i) es.
Proof.
  induction es as [|a es IH]; cbn; [now destruct (i =? j)|].
  destruct (Event.id a =? j) eqn:Haj; cbn.
  - rewrite IH. destruct (i =? j) eqn:Hij; [reflexivity|].
    apply Z.eqb_eq in Haj. destruct (Event.id a =? i) eqn:Hai; [|reflexivity].
    apply Z.eqb_eq in Hai. apply Z.eqb_neq in Hij. lia.
  - destruct (Event.id a =? i) eqn:Hai; [|exact IH].
    destruct (i =? j) eqn:Hij; [|reflexivity].
    apply Z.eqb_eq in Hai, Hij. apply Z.eqb_neq in Haj. lia.
Qed.

Lemma find_ticket_after_filter (i : Z) (q : Ticket.t → bool) (ts : list Ticket.t)
    (k k' : Ticket.t) :
  NoDup (map Ticket.id ts) →
  find (λ k, Ticket.id k =? i) ts = Some k →
  find (λ k, Ticket.id k =? i) (List.filter q ts) = Some k' →
  k' = k.
Proof.
  intros Hnd Hf Hf'.
  apply find_ticket_id in Hf as [Hid Hin].
  apply find_ticket_id in Hf' as [Hid' Hin'].
  apply filter_In in Hin' as [Hin' _].
  apply (NoDup_map_inj Ticket.id ts); [assumption.. | congruence].
Qed.

(** ** The events table, request by request *)

Section Steps.
Variable UPLOAD_DIR : string.
Variable TICKETS_DIR : string.
Variable clock : nat → datetime.
Variable uuid4 : nat → string.
Variable smtp_ok : nat → bool.
Variable splitext_ext : string → string.
Variable decodable : string → bool.
Variable email_validator : string → option string.

Lemma flush_event_cases (loaded e : Event.t) (w : World) :
  ∃ (r : Event.t) (w' : World),
    flush_event clock loaded e w = (Ok r, w') ∧
    (r = e ∨ r = Event.set_updated_at (clock (ticks w)) e) ∧
    (events w' = events w ∧ r = loaded ∨ events w' = replace_event r (events w)) ∧
    tickets w' = tickets w ∧ files w' = files w ∧ outbox w' = outbox w.
Proof.
  unfold flush_event. destruct (decide _) as [Heq|Hne].
  { exists e, w. repeat split; now left. }
  destruct (decide _); unfold utcnow; mstep; do 2 eexists;
    (split; [reflexivity|]); cbn [events tickets files outbox set_events set_ticks];
    (split; [auto|]); (split; [now right|]); repeat split.
Qed.

Lemma same_details_refl (e : Event.t) : same_details e e.
Proof. repeat split. Qed.

Lemma serve_events (r : request) (w : World) :
  events_step w
    (events (serve UPLOAD_DIR TICKETS_DIR clock uuid4 smtp_ok splitext_ext decodable
               email_validator r w)).
Proof.
  destruct r as [d|i d|i|i|i f|i d|i d|i|i|s]; cbn [serve].
  - (* create_event *)
    right; left. unfold create_event, add_event, utcnow. mstep. cbn. eexists. reflexivity.
  - (* update_event *)
    unfold update_event, event_by_id. mstep. fold (event_found i w).
    destruct (event_found i w) as [e|] eqn:Hf; [|destruct (sqlite_int i); now left].
    destruct (Event.is_locked e) eqn:Hl; [now left|].
    match goal with |- context [flush_event clock ?a ?b ?c] =>
      destruct (flush_event_cases a b c) as (r & w' & -> & Hr & [[Hes _]|Hes] & _) end;
      cbn [snd]; rewrite Hes; [now left|].
    right; right; right. exists e, r.
    assert (Hf' : event_found (Event.id e) w = Some e)
      by (now rewrite (proj1 (find_event_id _ _ _ Hf))).
    split; [exact Hf'|]. split; [reflexivity|]. split; [now destruct Hr as [-> | ->]|].
    congruence.
  - (* delete_event *)
    unfold delete_event, event_by_id. mstep. fold (event_found i w).
    destruct (event_found i w) as [e|] eqn:Hf; [|destruct (sqlite_int i); now left].
    right; right; left. exists (Event.id e). reflexivity.
  - (* toggle_event_active *)
    unfold toggle_event_active, event_by_id. mstep. fold (event_found i w).
    destruct (event_found i w) as [e|] eqn:Hf; [|destruct (sqlite_int i); now left].
    match goal with |- context [flush_event clock ?a ?b ?c] =>
      destruct (flush_event_cases a b c) as (r & w' & -> & Hr & [[Hes _]|Hes] & _) end;
      cbn [snd]; rewrite Hes; [now left|].
    right; right; right. exists e, r.
    assert (Hf' : event_found (Event.id e) w = Some e)
      by (now rewrite (proj1 (find_event_id _ _ _ Hf))).
    split; [exact Hf'|]. split; [reflexivity|].
    destruct Hr as [-> | ->]; (split; [reflexivity|]); intros Hl; now repeat split.
  - (* upload_ticket_design *)
    unfold upload_ticket_design, event_by_id, save_file. mstep. fold (event_found i w).
    destruct (event_found i w) as [e|] eqn:Hf; [|destruct (sqlite_int i); now left].
    destruct (content_type f) as [ct|]; [|now left].
    destruct (negb _); [now left|].
    match goal with |- context [flush_event clock ?a ?b ?c] =>
      destruct (flush_event_cases a b c) as (r & w' & -> & Hr & [[Hes _]|Hes] & _) end;
      cbn [snd]; rewrite Hes; cbn [events set_files]; [now left|].
    right; right; right. exists e, r.
    assert (Hf' : event_found (Event.id e) w = Some e)
      by (now rewrite (proj1 (find_event_id _ _ _ Hf))).
    split; [exact Hf'|]. split; [reflexivity|].
    destruct Hr as [-> | ->]; (split; [reflexivity|]); intros Hl; now repeat split.
  - (* create_tickets *)
    unfold create_tickets_route.
    destruct (parse_TicketCreate email_validator d) as [ticket_data|]; [|now left].
    destruct (event_found i w) as [e|] eqn:Hf.
    + rewrite (create_tickets_found TICKETS_DIR clock uuid4 smtp_ok decodable _ _ _ e Hf).
      destruct (create_loop_rows TICKETS_DIR clock uuid4 smtp_ok decodable
                  (if Event.is_locked e then e else locked_row (clock (ticks w)) e)
                  ticket_data
                  (Z.to_nat (TicketCreate.quantity ticket_data)) (after_lock clock e w) [])
        as (created & _ & ->).
      unfold after_lock. destruct (Event.is_locked e) eqn:Hl; [now left|].
      right; right; right. exists e, (locked_row (clock (ticks w)) e).
      assert (Hf' : event_found (Event.id e) w = Some e)
        by (now rewrite (proj1 (find_event_id _ _ _ Hf))).
      split; [exact Hf'|]. split; [reflexivity|]. split; [reflexivity|]. congruence.
    + unfold create_tickets, event_by_id. mstep. fold (event_found i w).
      rewrite Hf. destruct (sqlite_int i); now left.
  - (* update_ticket *)
    left. unfold update_ticket_route.
    destruct (parse_TicketUpdate email_validator d) as [ticket_data|]; [|reflexivity].
    apply update_ticket_events.
  - (* delete_ticket *)
    left. unfold delete_ticket, ticket_by_id, remove_if_exists, remove_file. mstep.
    destruct (find _ (tickets w)) as [k|]; [|now destruct (sqlite_int i)].
    now destruct (truthy_opt (Ticket.qr_code_path k)),
      (truthy_opt (Ticket.ticket_image_path k)).
  - (* resend_ticket *)
    left. unfold resend_ticket, ticket_by_id, event_by_id, send_ticket_email. mstep.
    destruct (find _ (tickets w)) as [k|]; [|now destruct (sqlite_int i)].
    destruct (find _ (events w)) as [e|]; [|now destruct (sqlite_int _)].
    destruct (Ticket.ticket_image_path k); [|reflexivity].
    now destruct (smtp_ok _).
  - (* validate_ticket *)
    left. rewrite validate_ticket_load. unfold validate_loaded, flush_ticket, utcnow,
      event_by_id. mstep.
    destruct (scanned s w) as [k|]; [|reflexivity].
    destruct (Ticket.is_used k); [now destruct (Ticket.used_at k)|].
    repeat (destruct (decide _); cbn [events set_ticks set_tickets ticks];
            try reflexivity);
      (destruct (find _ (events w)); [reflexivity | now destruct (sqlite_int _)]).
Qed.

End Steps.

Section Frames.
Variable UPLOAD_DIR : string.
Variable TICKETS_DIR : string.
Variable clock : nat → datetime.
Variable uuid4 : nat → string.
Variable smtp_ok : nat → bool.
Variable splitext_ext : string → string.
Variable decodable : string → bool.
Variable email_validator : string → option string.

(** X1: whatever the request and whatever its answer, a well-formed
    store is well formed after it. *)
Theorem every_request_keeps_the_store_well_formed (r : request) (w : World) :
  store_ok TICKETS_DIR w →
  store_ok TICKETS_DIR (serve UPLOAD_DIR TICKETS_DIR clock uuid4 smtp_ok splitext_ext decodable email_validator r w).
Proof.
  intros Hok. destruct r; cbn [serve].
  - now apply create_event_ok.
  - now apply update_event_ok.
  - now apply delete_event_ok.
  - now apply toggle_event_active_ok.
  - now apply upload_ticket_design_ok.
  - now apply create_tickets_route_ok.
  - now apply update_ticket_route_ok.
  - now apply delete_ticket_ok.
  - now apply resend_ticket_ok.
  - now apply validate_ticket_ok.
Qed.

(** X2: the lock of an event never reverts, and no request changes the
    id, name, date, time, venue, city, description or creation time of a
    locked event: as long as the event is stored, it is locked and carries
    the same details. *)
Theorem locked_event_is_frozen (r : request) (w : World) (i : Z) (e e' : Event.t) :
  event_found i w = Some e →
  Event.is_locked e = true →
  event_found i (serve UPLOAD_DIR TICKETS_DIR clock uuid4 smtp_ok splitext_ext decodable email_validator r w) = Some e' →
  Event.is_locked e' = true ∧ same_details e e'.
Proof.
  intros Hf Hl Hf'. unfold event_found in Hf'.
  destruct (serve_events UPLOAD_DIR TICKETS_DIR clock uuid4 smtp_ok splitext_ext decodable email_validator r w)
    as [Hes | [(x & Hes) | [(j & Hes) | (loaded & x & Hld & Hes & Hid & Hkeep)]]];
    rewrite Hes in Hf'.
  - unfold event_found in Hf. rewrite Hf in Hf'. injection Hf' as <-.
    split; [exact Hl | apply same_details_refl].
  - unfold event_found in Hf. rewrite (find_app_found _ _ _ _ Hf) in Hf'.
    injection Hf' as <-. split; [exact Hl | apply same_details_refl].
  - rewrite find_event_after_delete in Hf'. destruct (i =? j); [discriminate|].
    unfold event_found in Hf. rewrite Hf in Hf'. injection Hf' as <-.
    split; [exact Hl | apply same_details_refl].
  - destruct (Z.eq_dec (Event.id x) i) as [Hx | Hx].
    + assert (loaded = e) as -> by (rewrite <- Hid, Hx, Hf in Hld; congruence).
      unfold event_found in Hf.
      rewrite (find_replace_event _ e x _ Hf Hid) in Hf'
        by (cbn; rewrite Hid; apply find_some in Hf; tauto).
      injection Hf' as <-. now apply Hkeep.
    + rewrite (find_replace_event_other _ _ _ Hx) in Hf'.
      unfold event_found in Hf. rewrite Hf in Hf'. injection Hf' as <-.
      split; [exact Hl | apply same_details_refl].
Qed.

Lemma same_ticket_refl (k : Ticket.t) : same_ticket k k.
Proof. unfold same_ticket. intuition. Qed.

Lemma serve_tickets (r : request) (w : World) :
  store_ok TICKETS_DIR w →
  tickets_step w
    (tickets (serve UPLOAD_DIR TICKETS_DIR clock uuid4 smtp_ok splitext_ext decodable
                email_validator r w)).
Proof.
  intros Hok. destruct r as [d|i d|i|i|i f|i d|i d|i|i|s]; cbn [serve].
  - left. unfold create_event, add_event, utcnow. mstep. reflexivity.
  - left. unfold update_event, event_by_id. mstep.
    destruct (find _ (events w)) as [e|]; [|now destruct (sqlite_int i)].
    destruct (Event.is_locked e); [reflexivity|].
    match goal with |- context [flush_event clock ?a ?b ?c] =>
      destruct (flush_event_cases clock a b c) as (r & w' & -> & _ & _ & Hts & _) end.
    exact Hts.
  - unfold delete_event, event_by_id. mstep.
    destruct (find _ (events w)) as [e|]; [|destruct (sqlite_int i); now left].
    right; right; left. eexists. reflexivity.
  - left. unfold toggle_event_active, event_by_id. mstep.
    destruct (find _ (events w)) as [e|]; [|now destruct (sqlite_int i)].
    match goal with |- context [flush_event clock ?a ?b ?c] =>
      destruct (flush_event_cases clock a b c) as (r & w' & -> & _ & _ & Hts & _) end.
    exact Hts.
  - left. unfold upload_ticket_design, event_by_id, save_file. mstep.
    destruct (find _ (events w)) as [e|]; [|now destruct (sqlite_int i)].
    destruct (content_type f) as [ct|]; [|reflexivity].
    destruct (negb _); [reflexivity|].
    match goal with |- context [flush_event clock ?a ?b ?c] =>
      destruct (flush_event_cases clock a b c) as (r & w' & -> & _ & _ & Hts & _) end.
    exact Hts.
  - unfold create_tickets_route.
    destruct (parse_TicketCreate email_validator d) as [ticket_data|]; [|now left].
    destruct (event_found i w) as [e|] eqn:Hf.
    + rewrite (create_tickets_found TICKETS_DIR clock uuid4 smtp_ok decodable _ _ _ e Hf).
      destruct (create_loop_rows TICKETS_DIR clock uuid4 smtp_ok decodable
                  (if Event.is_locked e then e else locked_row (clock (ticks w)) e)
                  ticket_data
                  (Z.to_nat (TicketCreate.quantity ticket_data)) (after_lock clock e w) [])
        as (created & -> & _).
      right; left. exists created. unfold after_lock. now destruct (Event.is_locked e).
    + unfold create_tickets, event_by_id. mstep. fold (event_found i w).
      rewrite Hf. destruct (sqlite_int i); now left.
  - unfold update_ticket_route.
    destruct (parse_TicketUpdate email_validator d) as [ticket_data|]; [|now left].
    destruct (update_ticket_rows TICKETS_DIR clock decodable i ticket_data w
                (proj1 Hok) (proj2 Hok))
      as [_ [Hts | (loaded & r & Hf & Hr & Hts)]]; [now left|].
    destruct (stored_edit_frame TICKETS_DIR clock w ticket_data loaded r Hr)
      as (Hid & Htid & Hev & Hq & Hu & Hua & Hc & _).
    right; right; right. exists loaded, r.
    split; [now apply (find_ticket_id _ _ _ Hf)|]. split; [exact Hts|].
    repeat split; try assumption. now rewrite Hu.
  - unfold delete_ticket, ticket_by_id, remove_if_exists, remove_file. mstep.
    destruct (find _ (tickets w)) as [k|]; [|destruct (sqlite_int i); now left].
    right; right; left. eexists.
    destruct (truthy_opt (Ticket.qr_code_path k)),
      (truthy_opt (Ticket.ticket_image_path k)); reflexivity.
  - left. unfold resend_ticket, ticket_by_id, event_by_id, send_ticket_email. mstep.
    destruct (find _ (tickets w)) as [k|]; [|now destruct (sqlite_int i)].
    destruct (find _ (events w)) as [e|]; [|now destruct (sqlite_int _)].
    destruct (Ticket.ticket_image_path k); [|reflexivity].
    now destruct (smtp_ok _).
  - rewrite validate_ticket_load.
    destruct (scanned s w) as [k|] eqn:Hf; [|now left].
    pose proof (find_some _ _ Hf) as [Hin _].
    destruct (Ticket.is_used k) eqn:Hused.
    + left. unfold validate_loaded. rewrite Hused. now destruct (Ticket.used_at k).
    + destruct (event_of_ticket w k (proj1 Hok) Hin) as [e He].
      rewrite (validate_loaded_unused clock w k e Hused He).
      right; right; right.
      exists k, (redeemed (clock (ticks w)) (clock (S (ticks w))) k).
      split; [exact Hin|]. split; [reflexivity|].
      repeat split; congruence.
Qed.

(** X3: a redemption is final and an identifier is for life. For every
    request on a well-formed store, a ticket that is still stored afterwards
    has the identifier, the event, the QR path and the creation time it had;
    and if it was used, it is used still, with the same time of use. *)
Theorem ticket_identity_and_redemption_are_kept (r : request) (w : World) (i : Z)
    (k k' : Ticket.t) :
  store_ok TICKETS_DIR w →
  ticket_found i w = Some k →
  ticket_found i (serve UPLOAD_DIR TICKETS_DIR clock uuid4 smtp_ok splitext_ext decodable email_validator r w) = Some k' →
  same_ticket k k'.
Proof.
  intros Hok Hf Hf'. unfold ticket_found in *.
  pose proof (proj1 Hok) as (_ & Hnd & _).
  destruct (serve_tickets r w Hok)
    as [Hts | [(created & Hts) | [(q & Hts) | (loaded & x & Hin & Hts & Hsame)]]];
    rewrite Hts in Hf'.
  - rewrite Hf in Hf'. injection Hf' as <-. apply same_ticket_refl.
  - rewrite (find_app_found _ _ _ _ Hf) in Hf'. injection Hf' as <-.
    apply same_ticket_refl.
  - rewrite (find_ticket_after_filter i q _ k k' Hnd Hf Hf'). apply same_ticket_refl.
  - pose proof Hsame as (Hid & _).
    destruct (Z.eq_dec (Ticket.id x) i) as [Hx | Hx].
    + pose proof (find_ticket_id _ _ _ Hf) as [Hk Hink].
      assert (loaded = k) as ->
        by (apply (NoDup_map_inj Ticket.id (tickets w)); [assumption.. | congruence]).
      rewrite (find_replace_ticket _ k x _ Hf Hid) in Hf'
        by (cbn; rewrite Hid; apply find_some in Hf; tauto).
      injection Hf' as <-. exact Hsame.
    + rewrite (find_replace_ticket_other _ _ _ Hx) in Hf'.
      rewrite Hf in Hf'. injection Hf' as <-. apply same_ticket_refl.
Qed.

End Frames.

(** ** Rows that are not there, rows that are deleted *)

Lemma find_ticket_after_delete (i j : Z) (ts : list Ticket.t) :
  find (λ k, Ticket.id k =? i) (List.filter (λ k, negb (Ticket.id k =? j)) ts) =
  if i =? j then None else find (λ k, Ticket.id k =? i) ts.
Proof.
  induction ts as [|a ts IH]; cbn; [now destruct (i =? j)|].
  destruct (Ticket.id a =? j) eqn:Haj; cbn.
  - rewrite IH. destruct (i =? j) eqn:Hij; [reflexivity|].
    apply Z.eqb_eq in Haj. destruct (Ticket.id a =? i) eqn:Hai; [|reflexivity].
    apply Z.eqb_eq in Hai. apply Z.eqb_neq in Hij. lia.
  - destruct (Ticket.id a =? i) eqn:Hai; [|exact IH].
    destruct (i =? j) eqn:Hij; [|reflexivity].
    apply Z.eqb_eq in Hai, Hij. apply Z.eqb_neq in Haj. lia.
Qed.

Lemma path_join_truthy (dir name : string) : truthy (path_join dir name) = true.
Proof. unfold path_join. now destruct dir. Qed.

Section Rows.
Variable UPLOAD_DIR : string.
Variable TICKETS_DIR : string.
Variable clock : nat → datetime.
Variable uuid4 : nat → string.
Variable smtp_ok : nat → bool.
Variable splitext_ext : string → string.
Variable decodable : string → bool.

(** X4: a request that names an event or a ticket that is not stored
    changes nothing and is refused: with HTTP 404 and the matching detail
    when the id is a 64-bit integer, which is what SQLite can compare with
    a key, and with an [OverflowError] of the database driver when it is
    not. *)
Theorem missing_rows_answer_404 (event_id ticket_id : Z) (w : World) :
  event_found event_id w = None →
  ticket_found ticket_id w = None →
  let no_event := if sqlite_int event_id then event_not_found_error else OverflowError in
  let no_ticket := if sqlite_int ticket_id then ticket_not_found_error else OverflowError in
  get_event event_id w = (Raise no_event, w) ∧
  (∀ d, update_event clock event_id d w = (Raise no_event, w)) ∧
  delete_event event_id w = (Raise no_event, w) ∧
  toggle_event_active clock event_id w = (Raise no_event, w) ∧
  (∀ f, upload_ticket_design UPLOAD_DIR clock splitext_ext event_id f w =
          (Raise no_event, w)) ∧
  (∀ d, create_tickets TICKETS_DIR clock uuid4 smtp_ok decodable event_id d w =
          (Raise no_event, w)) ∧
  get_event_stats event_id w = (Raise no_event, w) ∧
  get_ticket ticket_id w = (Raise no_ticket, w) ∧
  (∀ d, update_ticket TICKETS_DIR clock decodable ticket_id d w = (Raise no_ticket, w)) ∧
  delete_ticket ticket_id w = (Raise no_ticket, w) ∧
  resend_ticket smtp_ok ticket_id w = (Raise no_ticket, w).
Proof.
  intros He Hk. unfold event_found in He. unfold ticket_found in Hk. cbn zeta.
  repeat split; intros;
    unfold get_event, update_event, delete_event, toggle_event_active, upload_ticket_design,
      create_tickets, get_event_stats, get_ticket, update_ticket, delete_ticket,
      resend_ticket, event_by_id, ticket_by_id; mstep;
    rewrite ?He, ?Hk;
    first [now destruct (sqlite_int event_id) | now destruct (sqlite_int ticket_id)].
Qed.

(** X5: deleting a stored ticket removes its row and its two generated
    files, and nothing else: every other ticket, every other file and the
    events stay as they were. *)
Theorem delete_ticket_removes_row_and_files (ticket_id : Z) (w : World) (k : Ticket.t) :
  store_ok TICKETS_DIR w →
  ticket_found ticket_id w = Some k →
  ∃ w' : World,
    delete_ticket ticket_id w =
      (Ok ("Ticket deleted successfully: " +:+ Ticket.attendee_name k +:+ " - " +:+
           Ticket.ticket_id k), w') ∧
    ticket_found ticket_id w' = None ∧
    (∀ j, j ≠ ticket_id → ticket_found j w' = ticket_found j w) ∧
    files w' !! qr_path TICKETS_DIR (Ticket.ticket_id k) = None ∧
    files w' !! ticket_path TICKETS_DIR (Ticket.ticket_id k) = None ∧
    (∀ p, p ≠ qr_path TICKETS_DIR (Ticket.ticket_id k) →
          p ≠ ticket_path TICKETS_DIR (Ticket.ticket_id k) →
          files w' !! p = files w !! p) ∧
    events w' = events w.
Proof.
  intros [_ Hpaths] Hf.
  pose proof (find_ticket_id _ _ _ Hf) as [Hid Hin].
  unfold paths_ok in Hpaths. rewrite Forall_forall in Hpaths.
  destruct (Hpaths k) as [Hqr Himg]; [now apply list_elem_of_In|].
  unfold delete_ticket, ticket_by_id, remove_if_exists, remove_file. mstep.
  fold (ticket_found ticket_id w). rewrite Hf, Hqr, Himg.
  cbn [truthy_opt or_empty]. unfold qr_path at 1 2, ticket_path at 1 2.
  rewrite !path_join_truthy. fold (qr_path TICKETS_DIR (Ticket.ticket_id k)).
  fold (ticket_path TICKETS_DIR (Ticket.ticket_id k)).
  eexists. split; [reflexivity|]. unfold ticket_found.
  cbn [tickets files events set_tickets set_files].
  rewrite Hid. split; [|split; [|split; [|split; [|split]]]].
  - rewrite find_ticket_after_delete. now rewrite Z.eqb_refl.
  - intros j Hj. rewrite find_ticket_after_delete.
    destruct (j =? ticket_id) eqn:Hjt; [apply Z.eqb_eq in Hjt; contradiction | reflexivity].
  - rewrite lookup_delete_ne by (apply not_eq_sym, qr_path_ne_ticket_path).
    apply lookup_delete_eq.
  - apply lookup_delete_eq.
  - intros p Hp1 Hp2. now rewrite !lookup_delete_ne by congruence.
  - reflexivity.
Qed.

(** X6: a deleted ticket no longer opens the door: a scan of its
    identifier after the deletion is answered "invalid". *)
Theorem deleted_ticket_scans_invalid (ticket_id : Z) (w : World) (k : Ticket.t) :
  store_ok TICKETS_DIR w →
  ticket_found ticket_id w = Some k →
  validate_ticket clock (ScanRequest.mk (Ticket.ticket_id k)) (snd (delete_ticket ticket_id w)) =
    (Ok invalid_answer, snd (delete_ticket ticket_id w)).
Proof.
  intros [(_ & _ & Hnd & _) _] Hf.
  pose proof (find_ticket_id _ _ _ Hf) as [Hid Hin].
  rewrite validate_ticket_load.
  enough (Hnone : scanned (ScanRequest.mk (Ticket.ticket_id k))
                    (snd (delete_ticket ticket_id w)) = None) by (now rewrite Hnone).
  unfold delete_ticket, ticket_by_id, remove_if_exists, remove_file. mstep.
  fold (ticket_found ticket_id w). rewrite Hf.
  assert (Hgone : find (λ x, String.eqb (Ticket.ticket_id x) (Ticket.ticket_id k))
            (List.filter (λ x, negb (Ticket.id x =? Ticket.id k)) (tickets w)) = None).
  { destruct (find _ _) as [x|] eqn:Hx; [exfalso | reflexivity].
    apply find_some in Hx as [Hx Heq]. apply filter_In in Hx as [Hx Hkeep].
    apply String.eqb_eq in Heq.
    rewrite (NoDup_map_inj Ticket.ticket_id (tickets w) x k Hnd Hx Hin Heq) in Hkeep.
    now rewrite Z.eqb_refl in Hkeep. }
  unfold scanned. cbn [ScanRequest.ticket_id].
  destruct (truthy_opt (Ticket.qr_code_path k)), (truthy_opt (Ticket.ticket_image_path k));
    mstep; cbn [snd tickets set_tickets set_files]; exact Hgone.
Qed.

(** X7: switching an event off and on again brings [is_active] back; but
    for [updated_at], the row is what it was, and tickets and files are not
    touched. *)
Theorem toggle_twice_restores_is_active (event_id : Z) (w : World) (e : Event.t) :
  event_found event_id w = Some e →
  ∃ (t1 t2 : string) (w1 w2 : World),
    toggle_event_active clock event_id w = (Ok (t1, negb (Event.is_active e)), w1) ∧
    toggle_event_active clock event_id w1 = (Ok (t2, Event.is_active e), w2) ∧
    event_found event_id w2 = Some (Event.set_updated_at (clock (S (ticks w))) e) ∧
    tickets w2 = tickets w ∧ files w2 = files w.
Proof.
  intros Hf.
  pose proof (toggle_event_active_spec clock event_id w e Hf) as H1.
  assert (Hf1 : event_found event_id
            (set_events (replace_event (toggled (clock (ticks w)) e) (events w))
               (set_ticks (S (ticks w)) w)) = Some (toggled (clock (ticks w)) e)).
  { unfold event_found in *. cbn [events set_events].
    apply (find_replace_event _ e); [exact Hf | reflexivity |].
    cbn. apply find_some in Hf. exact (proj2 Hf). }
  pose proof (toggle_event_active_spec clock event_id _ _ Hf1) as H2.
  do 4 eexists. split; [exact H1|]. split.
  - rewrite H2.
    assert (Hback : negb (Event.is_active (toggled (clock (ticks w)) e)) = Event.is_active e)
      by (unfold toggled; cbn; apply negb_involutive).
    rewrite Hback. reflexivity.
  - split; [|split; reflexivity].
    unfold event_found in *. cbn [events set_events set_ticks ticks].
    replace (Event.set_updated_at (clock (S (ticks w))) e)
      with (toggled (clock (S (ticks w))) (toggled (clock (ticks w)) e))
      by (destruct e; unfold toggled; cbn; now rewrite negb_involutive).
    apply (find_replace_event _ (toggled (clock (ticks w)) e));
      [exact Hf1 | reflexivity |].
    cbn. apply find_some in Hf. exact (proj2 Hf).
Qed.

(** X8: an event that is not locked takes an update: the six fields of
    the request are stored, the id, the design, [is_active], the lock and
    the creation time stay, and tickets and files are not touched. *)
Theorem unlocked_event_takes_the_update (event_id : Z) (d : EventCreate.t)
    (w : World) (e : Event.t) :
  event_found event_id w = Some e →
  Event.is_locked e = false →
  ∃ (r : Event.t) (w' : World),
    update_event clock event_id d w = (Ok r, w') ∧
    event_found event_id w' = Some r ∧
    Event.name r = EventCreate.name d ∧
    Event.event_date r = EventCreate.event_date d ∧
    Event.event_time r = EventCreate.event_time d ∧
    Event.venue r = EventCreate.venue d ∧
    Event.city r = EventCreate.city d ∧
    Event.description r = EventCreate.description d ∧
    Event.id r = Event.id e ∧
    Event.ticket_design_path r = Event.ticket_design_path e ∧
    Event.is_active r = Event.is_active e ∧
    Event.is_locked r = false ∧
    Event.created_at r = Event.created_at e ∧
    tickets w' = tickets w ∧ files w' = files w.
Proof.
  intros Hf Hl. unfold update_event, event_by_id. mstep.
  fold (event_found event_id w). rewrite Hf, Hl.
  match goal with |- context [flush_event clock ?a ?b ?c] =>
    destruct (flush_event_cases clock a b c) as (r & w' & -> & Hr & Hes & Hts & Hfs & _) end.
  exists r, w'. split; [reflexivity|]. split.
  - unfold event_found in *. destruct Hes as [[-> ->] | ->]; [exact Hf|].
    apply (find_replace_event _ e); [exact Hf | now destruct Hr as [-> | ->] |].
    apply find_some in Hf as [_ Hp]. cbn in Hp. now destruct Hr as [-> | ->].
  - destruct Hr as [-> | ->]; cbn; repeat split; assumption.
Qed.

(** X9: a batch locks its event, whatever its size and however it ends:
    after [create_tickets] on a stored event the event is locked, and every
    update of it is refused, leaving the world alone. *)
Theorem any_batch_locks_the_event (event_id : Z) (d : TicketCreate.t)
    (w : World) (e : Event.t) :
  event_found event_id w = Some e →
  let w' := snd (create_tickets TICKETS_DIR clock uuid4 smtp_ok decodable event_id d w) in
  ∃ e' : Event.t,
    event_found event_id w' = Some e' ∧
    Event.is_locked e' = true ∧
    same_details e e' ∧
    ∀ d' : EventCreate.t,
      update_event clock event_id d' w' = (Raise event_locked_error, w').
Proof.
  intros Hf w'.
  exists (if Event.is_locked e then e else locked_row (clock (ticks w)) e).
  assert (Hfound : event_found event_id w' =
            Some (if Event.is_locked e then e else locked_row (clock (ticks w)) e)).
  { unfold w'. rewrite (create_tickets_found TICKETS_DIR clock uuid4 smtp_ok decodable _ _ _ e Hf).
    destruct (create_loop_rows TICKETS_DIR clock uuid4 smtp_ok decodable
                (if Event.is_locked e then e else locked_row (clock (ticks w)) e) d
                (Z.to_nat (TicketCreate.quantity d)) (after_lock clock e w) [])
      as (created & _ & Hes).
    unfold event_found. rewrite Hes. now apply event_found_after_lock. }
  assert (Hlocked : Event.is_locked
            (if Event.is_locked e then e else locked_row (clock (ticks w)) e) = true)
    by now destruct (Event.is_locked e) eqn:Hl.
  split; [exact Hfound|]. split; [exact Hlocked|]. split.
  - destruct (Event.is_locked e); repeat split.
  - intros d'. unfold update_event, event_by_id. mstep.
    fold (event_found event_id w'). now rewrite Hfound, Hlocked.
Qed.

End Rows.

(** ** Counting *)

Lemma count_cons {A : Type} (p : A → bool) (a : A) (l : list A) :
  count p (a :: l) = (if p a then 1 else 0) + count p l.
Proof. unfold count. cbn. destruct (p a); cbn [List.length]; lia. Qed.

Lemma count_bounds {A : Type} (p : A → bool) (l : list A) :
  0 ≤ count p l ≤ count (λ _, true) l.
Proof.
  induction l as [|a l IH]; [unfold count; cbn; lia|].
  rewrite !count_cons. destruct (p a); lia.
Qed.

Lemma count_and_le {A : Type} (p q : A → bool) (l : list A) :
  count (λ x, p x && q x) l ≤ count p l.
Proof.
  induction l as [|a l IH]; [unfold count; cbn; lia|].
  rewrite !count_cons. destruct (p a), (q a); cbn; lia.
Qed.

Lemma zsum_cons (a : Z) (l : list Z) : zsum (a :: l) = a + zsum l.
Proof. reflexivity. Qed.

Lemma zsum_zero (ids : list Z) : zsum (map (λ _, 0) ids) = 0.
Proof.
  induction ids as [|i ids IH]; [reflexivity|].
  cbn [map]. rewrite zsum_cons, IH. reflexivity.
Qed.

Lemma zsum_add (f g : Z → Z) (ids : list Z) :
  zsum (map (λ i, f i + g i) ids) = zsum (map f ids) + zsum (map g ids).
Proof.
  induction ids as [|i ids IH]; [reflexivity|].
  cbn [map]. rewrite !zsum_cons, IH. lia.
Qed.

Lemma zsum_opp (f : Z → Z) (ids : list Z) :
  zsum (map (λ i, - f i) ids) = - zsum (map f ids).
Proof.
  induction ids as [|i ids IH]; [reflexivity|].
  cbn [map]. rewrite !zsum_cons, IH. lia.
Qed.

Lemma zsum_indicator_absent (x : Z) (ids : list Z) :
  ¬ In x ids → zsum (map (λ i, if x =? i then 1 else 0) ids) = 0.
Proof.
  induction ids as [|j ids IH]; intros Hnot; [reflexivity|].
  cbn [map]. rewrite zsum_cons.
  destruct (x =? j) eqn:Hj; [apply Z.eqb_eq in Hj; subst; destruct Hnot; now left|].
  rewrite IH; [reflexivity|]. intros H. apply Hnot. now right.
Qed.

Lemma zsum_indicator (x : Z) (ids : list Z) :
  NoDup ids → In x ids → zsum (map (λ i, if x =? i then 1 else 0) ids) = 1.
Proof.
  induction ids as [|i ids IH]; [contradiction|].
  intros Hnd Hin. apply NoDup_cons in Hnd as [Hnot Hnd].
  rewrite list_elem_of_In in Hnot. cbn [map]. rewrite zsum_cons.
  destruct (x =? i) eqn:Hx.
  - apply Z.eqb_eq in Hx. subst i. now rewrite zsum_indicator_absent.
  - destruct Hin as [-> | Hin]; [rewrite Z.eqb_refl in Hx; discriminate|].
    now rewrite IH.
Qed.

(** Tickets counted event by event add up to the tickets counted at once,
    when every ticket belongs to one of the events and no id is repeated. *)
Lemma count_by_event (q : Ticket.t → bool) (ids : list Z) (ts : list Ticket.t) :
  NoDup ids →
  (∀ k, In k ts → In (Ticket.event_id k) ids) →
  zsum (map (λ i, count (λ k, (Ticket.event_id k =? i) && q k) ts) ids) = count q ts.
Proof.
  intros Hnd. induction ts as [|k ts IH]; intros Hall.
  - unfold count. cbn. apply zsum_zero.
  - rewrite count_cons.
    rewrite (map_ext _ (λ i, (if Ticket.event_id k =? i then (if q k then 1 else 0) else 0)
                             + count (λ k, (Ticket.event_id k =? i) && q k) ts))
      by (intros i; rewrite count_cons; now destruct (Ticket.event_id k =? i)).
    rewrite zsum_add, IH by (intros x Hx; apply Hall; now right).
    f_equal. destruct (q k).
    + apply zsum_indicator; [exact Hnd | apply Hall; now left].
    + rewrite (map_ext _ (λ _, 0)) by (intros i; now destruct (_ =? i)).
      apply zsum_zero.
Qed.

Lemma get_dashboard_stats_run (w : World) :
  get_dashboard_stats w =
    (Ok (DashboardStats.mk
           (count (λ _, true) (tickets w)) (count Ticket.is_used (tickets w))
           (count (λ _, true) (tickets w) - count Ticket.is_used (tickets w))
           (count (λ _, true) (events w)) (count Event.is_active (events w))), w).
Proof. reflexivity. Qed.

Lemma get_event_stats_run (w : World) (e : Event.t) (i : Z) :
  event_found i w = Some e →
  get_event_stats i w =
    (Ok (EventStats.mk i (Event.name e)
           (count (λ k, Ticket.event_id k =? i) (tickets w))
           (count (λ k, (Ticket.event_id k =? i) && Ticket.is_used k) (tickets w))
           (count (λ k, Ticket.event_id k =? i) (tickets w) -
            count (λ k, (Ticket.event_id k =? i) && Ticket.is_used k) (tickets w))
           (Event.is_active e) (Event.is_locked e)), w).
Proof.
  intros Hf. unfold get_event_stats, event_by_id. mstep.
  fold (event_found i w). now rewrite Hf.
Qed.

Lemma event_found_of_stored (w : World) (e : Event.t) :
  In e (events w) → ∃ e', event_found (Event.id e) w = Some e'.
Proof.
  intros Hin. unfold event_found.
  destruct (find _ (events w)) as [e'|] eqn:Hf; [now exists e'|].
  pose proof (find_none _ _ Hf e Hin) as Hn. cbn in Hn.
  rewrite Z.eqb_refl in Hn. discriminate.
Qed.

Lemma all_event_stats_sum (f : EventStats.t → Z) (g : Z → Z) (w : World) :
  (∀ i e, event_found i w = Some e →
          ∀ s, get_event_stats i w = (Ok s, w) → f s = g i) →
  zsum (map f (all_event_stats w)) = zsum (map g (map Event.id (events w))).
Proof.
  intros Hfg. unfold all_event_stats.
  assert (Hsub : ∀ es, (∀ e, In e es → In e (events w)) →
            zsum (map f (flat_map (λ e, match fst (get_event_stats (Event.id e) w) with
                                        | Ok s => [s] | Raise _ => [] end) es)) =
            zsum (map g (map Event.id es))).
  { induction es as [|e es IH]; intros Hin; [reflexivity|].
    cbn [flat_map map]. rewrite map_app.
    destruct (event_found_of_stored w e (Hin e (or_introl eq_refl))) as [e' He'].
    rewrite (get_event_stats_run w e' _ He'). cbn [fst map app].
    specialize (IH (λ x Hx, Hin x (or_intror Hx))).
    rewrite !zsum_cons, IH.
    now rewrite (Hfg _ _ He' _ (get_event_stats_run w e' _ He')). }
  now apply Hsub.
Qed.

(** X10: the dashboard is consistent with the statistics of the events.
    On a well-formed store the totals, the used and the remaining tickets
    of the events add up to those of the dashboard; used tickets never
    exceed the total, remaining is their difference, and active events never
    exceed the events. *)
Theorem dashboard_adds_up (w : World) (TICKETS_DIR : string) :
  store_ok TICKETS_DIR w →
  ∃ g : DashboardStats.t,
    get_dashboard_stats w = (Ok g, w) ∧
    DashboardStats.total_tickets g =
      zsum (map EventStats.total_tickets (all_event_stats w)) ∧
    DashboardStats.used_tickets g =
      zsum (map EventStats.used_tickets (all_event_stats w)) ∧
    DashboardStats.remaining_tickets g =
      zsum (map EventStats.remaining_tickets (all_event_stats w)) ∧
    DashboardStats.total_tickets g = Z.of_nat (List.length (tickets w)) ∧
    DashboardStats.total_events g = Z.of_nat (List.length (events w)) ∧
    0 ≤ DashboardStats.used_tickets g ≤ DashboardStats.total_tickets g ∧
    DashboardStats.remaining_tickets g =
      DashboardStats.total_tickets g - DashboardStats.used_tickets g ∧
    0 ≤ DashboardStats.active_events g ≤ DashboardStats.total_events g.
Proof.
  intros [(Hnd & _ & _ & Hall) _]. rewrite Forall_forall in Hall.
  assert (Hev : ∀ k, In k (tickets w) → In (Ticket.event_id k) (map Event.id (events w))).
  { intros k Hk. apply (Hall k). now apply list_elem_of_In. }
  eexists. split; [apply get_dashboard_stats_run|].
  cbn [DashboardStats.total_tickets DashboardStats.used_tickets
       DashboardStats.remaining_tickets DashboardStats.total_events
       DashboardStats.active_events].
  assert (Htotal : zsum (map EventStats.total_tickets (all_event_stats w)) =
                   count (λ _, true) (tickets w)).
  { rewrite (all_event_stats_sum _
               (λ i, count (λ k, (Ticket.event_id k =? i) && true) (tickets w))).
    - now apply count_by_event.
    - intros i e He s Hs. rewrite (get_event_stats_run w e i He) in Hs.
      injection Hs as <-. cbn. unfold count. f_equal. f_equal.
      apply filter_ext. intros k. now rewrite andb_true_r. }
  assert (Hused : zsum (map EventStats.used_tickets (all_event_stats w)) =
                  count Ticket.is_used (tickets w)).
  { rewrite (all_event_stats_sum _
               (λ i, count (λ k, (Ticket.event_id k =? i) && Ticket.is_used k) (tickets w))).
    - now apply count_by_event.
    - intros i e He s Hs. rewrite (get_event_stats_run w e i He) in Hs.
      now injection Hs as <-. }
  assert (Hrem : zsum (map EventStats.remaining_tickets (all_event_stats w)) =
                 count (λ _, true) (tickets w) - count Ticket.is_used (tickets w)).
  { rewrite <- Htotal, <- Hused.
    rewrite (all_event_stats_sum EventStats.remaining_tickets
               (λ i, count (λ k, (Ticket.event_id k =? i) && true) (tickets w) +
                     - count (λ k, (Ticket.event_id k =? i) && Ticket.is_used k) (tickets w))).
    - rewrite zsum_add.
      rewrite (all_event_stats_sum EventStats.total_tickets
                 (λ i, count (λ k, (Ticket.event_id k =? i) && true) (tickets w))).
      + rewrite (all_event_stats_sum EventStats.used_tickets
                   (λ i, count (λ k, (Ticket.event_id k =? i) && Ticket.is_used k) (tickets w))).
        * rewrite zsum_opp. lia.
        * intros i e He s Hs. rewrite (get_event_stats_run w e i He) in Hs.
          now injection Hs as <-.
      + intros i e He s Hs. rewrite (get_event_stats_run w e i He) in Hs.
        injection Hs as <-. cbn. unfold count. f_equal. f_equal.
        apply filter_ext. intros k. now rewrite andb_true_r.
    - intros i e He s Hs. rewrite (get_event_stats_run w e i He) in Hs.
      injection Hs as <-. cbn.
      assert (count (λ k, Ticket.event_id k =? i) (tickets w) =
              count (λ k, (Ticket.event_id k =? i) && true) (tickets w)) as ->
        by (unfold count; f_equal; f_equal; apply filter_ext; intros k;
            now rewrite andb_true_r).
      lia. }
  pose proof (count_bounds Ticket.is_used (tickets w)).
  pose proof (count_bounds Event.is_active (events w)).
  assert (Hlen : ∀ A (l : list A), count (λ _, true) l = Z.of_nat (List.length l)).
  { intros A l. unfold count. f_equal. f_equal. induction l; cbn; congruence. }
  repeat split; try lia; try (symmetry; assumption); apply Hlen.
Qed.

Lemma replace_ticket_absent (r : Ticket.t) (ts : list Ticket.t) :
  ¬ In (Ticket.id r) (map Ticket.id ts) → replace_ticket r ts = ts.
Proof.
  intros Hnot. unfold replace_ticket. rewrite <- (map_id ts) at 2.
  apply map_ext_in. intros x Hx.
  destruct (Ticket.id x =? Ticket.id r) eqn:Heq; [|reflexivity].
  apply Z.eqb_eq in Heq. destruct Hnot. rewrite <- Heq. now apply in_map.
Qed.

(** Replacing the row of [k] by [r] moves the count of a filter by what
    [k] and [r] contribute to it. *)
Lemma count_replace_ticket (p : Ticket.t → bool) (k r : Ticket.t) (ts : list Ticket.t) :
  NoDup (map Ticket.id ts) → In k ts → Ticket.id r = Ticket.id k →
  count p (replace_ticket r ts) =
    count p ts - (if p k then 1 else 0) + (if p r then 1 else 0).
Proof.
  intros Hnd Hin Hid. induction ts as [|a ts IH]; [contradiction|].
  cbn [map] in Hnd. apply NoDup_cons in Hnd as [Hnot Hnd].
  rewrite list_elem_of_In in Hnot.
  change (replace_ticket r (a :: ts))
    with ((if Ticket.id a =? Ticket.id r then r else a) :: replace_ticket r ts).
  rewrite !count_cons. destruct Hin as [-> | Hin].
  - rewrite Hid, Z.eqb_refl, replace_ticket_absent by now rewrite Hid. lia.
  - destruct (Ticket.id a =? Ticket.id r) eqn:Ha.
    + apply Z.eqb_eq in Ha. destruct Hnot. rewrite Ha, Hid. now apply in_map.
    + rewrite (IH Hnd Hin). lia.
Qed.

(** X11: a scan that lets someone in moves exactly one ticket from
    remaining to used on the dashboard, and one only; a scan that is
    answered "already_used" or "invalid" moves none. *)
Theorem a_valid_scan_uses_one_ticket (clock : nat → datetime) (TICKETS_DIR : string)
    (scan_data : ScanRequest.t) (w : World) (g : DashboardStats.t) :
  store_ok TICKETS_DIR w →
  fst (get_dashboard_stats w) = Ok g →
  ∃ (answer : ScanResult) (w' : World) (g' : DashboardStats.t),
    validate_ticket clock scan_data w = (Ok answer, w') ∧
    fst (get_dashboard_stats w') = Ok g' ∧
    DashboardStats.total_tickets g' = DashboardStats.total_tickets g ∧
    DashboardStats.total_events g' = DashboardStats.total_events g ∧
    DashboardStats.active_events g' = DashboardStats.active_events g ∧
    DashboardStats.used_tickets g' =
      DashboardStats.used_tickets g + (if valid answer then 1 else 0) ∧
    DashboardStats.remaining_tickets g' =
      DashboardStats.remaining_tickets g - (if valid answer then 1 else 0).
Proof.
  intros Hok Hg. rewrite get_dashboard_stats_run in Hg. cbn in Hg. injection Hg as <-.
  rewrite validate_ticket_load.
  destruct (scanned scan_data w) as [k|] eqn:Hf.
  - pose proof (find_some _ _ Hf) as [Hin _].
    destruct (Ticket.is_used k) eqn:Hused.
    + destruct (used_at_of_used w k (proj1 Hok) Hin Hused) as [d Hd].
      rewrite (validate_loaded_used clock w k d Hused Hd).
      do 3 eexists. split; [reflexivity|]. rewrite get_dashboard_stats_run.
      split; [reflexivity|]. cbn. repeat split; lia.
    + destruct (event_of_ticket w k (proj1 Hok) Hin) as [e He].
      rewrite (validate_loaded_unused clock w k e Hused He).
      do 3 eexists. split; [reflexivity|]. rewrite get_dashboard_stats_run.
      split; [reflexivity|].
      cbn [DashboardStats.total_tickets DashboardStats.used_tickets
           DashboardStats.remaining_tickets DashboardStats.total_events
           DashboardStats.active_events valid valid_answer tickets events
           set_tickets set_ticks].
      pose proof (proj1 Hok) as (_ & Hnd & _).
      rewrite !(count_replace_ticket _ k) by (assumption || reflexivity).
      cbn. rewrite Hused. repeat split; lia.
  - do 3 eexists. split; [reflexivity|]. rewrite get_dashboard_stats_run.
    split; [reflexivity|]. cbn. repeat split; lia.
Qed.

(** ** Listings *)










(** ** Batches and the mail *)

Section Turns.
Variable TICKETS_DIR : string.
Variable clock : nat → datetime.
Variable uuid4 : nat → string.
Variable decodable : string → bool.

Lemma create_one_ticket_any_mail (smtp1 smtp2 : nat → bool) (e : Event.t)
    (ticket_data : TicketCreate.t) (w1 w2 : World) :
  same_but_delivery w1 w2 →
  fst (create_one_ticket TICKETS_DIR clock uuid4 smtp1 decodable e ticket_data w1) =
  fst (create_one_ticket TICKETS_DIR clock uuid4 smtp2 decodable e ticket_data w2) ∧
  same_but_delivery
    (snd (create_one_ticket TICKETS_DIR clock uuid4 smtp1 decodable e ticket_data w1))
    (snd (create_one_ticket TICKETS_DIR clock uuid4 smtp2 decodable e ticket_data w2)).
Proof.
  intros (Hes & Hts & Hfs & Htk & Hdr & Hout).
  rewrite !create_one_ticket_run. cbn zeta. unfold new_ticket_row.
  rewrite Hes, Hts, Hfs, Htk, Hdr.
  destruct (negb _); [|destruct (existsb _ (tickets w2))];
    cbn [fst snd]; (split; [reflexivity|]);
    unfold same_but_delivery;
    cbn [events tickets files ticks draws outbox]; repeat split; try assumption.
  rewrite !map_app, Hout. reflexivity.
Qed.

Lemma create_loop_any_mail (smtp1 smtp2 : nat → bool) (e : Event.t)
    (ticket_data : TicketCreate.t) (n : nat) :
  ∀ (w1 w2 : World) (acc : list Ticket.t),
    same_but_delivery w1 w2 →
    fst (create_loop TICKETS_DIR clock uuid4 smtp1 decodable n e ticket_data acc w1) =
    fst (create_loop TICKETS_DIR clock uuid4 smtp2 decodable n e ticket_data acc w2) ∧
    same_but_delivery
      (snd (create_loop TICKETS_DIR clock uuid4 smtp1 decodable n e ticket_data acc w1))
      (snd (create_loop TICKETS_DIR clock uuid4 smtp2 decodable n e ticket_data acc w2)).
Proof.
  induction n as [|n IH]; intros w1 w2 acc Hsame; [now split|].
  cbn [create_loop]. unfold mbind, M_bind.
  destruct (create_one_ticket_any_mail smtp1 smtp2 e ticket_data w1 w2 Hsame) as [Hfst Hsnd].
  destruct (create_one_ticket TICKETS_DIR clock uuid4 smtp1 decodable e ticket_data w1) as [[k1|x1] u1],
           (create_one_ticket TICKETS_DIR clock uuid4 smtp2 decodable e ticket_data w2) as [[k2|x2] u2];
    cbn [fst snd] in *; try discriminate.
  - injection Hfst as ->. now apply IH.
  - injection Hfst as ->. now split.
Qed.

(** X13: whether the mails go through has no part in what a batch
    creates. With any two mail servers [create_tickets] gives the same
    answer and leaves the same events, tickets and files; the two runs
    differ at most in the outcome recorded for each delivery attempt. *)
Theorem batch_does_not_depend_on_delivery (smtp1 smtp2 : nat → bool) (event_id : Z)
    (ticket_data : TicketCreate.t) (w : World) :
  fst (create_tickets TICKETS_DIR clock uuid4 smtp1 decodable event_id ticket_data w) =
  fst (create_tickets TICKETS_DIR clock uuid4 smtp2 decodable event_id ticket_data w) ∧
  same_but_delivery
    (snd (create_tickets TICKETS_DIR clock uuid4 smtp1 decodable event_id ticket_data w))
    (snd (create_tickets TICKETS_DIR clock uuid4 smtp2 decodable event_id ticket_data w)).
Proof.
  destruct (event_found event_id w) as [e|] eqn:Hf.
  - rewrite !(create_tickets_found TICKETS_DIR clock uuid4 _ decodable _ _ _ e Hf).
    apply create_loop_any_mail. repeat split.
  - unfold create_tickets, event_by_id. mstep. fold (event_found event_id w).
    rewrite Hf. destruct (sqlite_int event_id); repeat split.
Qed.

Lemma create_loop_collision (smtp_ok : nat → bool) (e : Event.t)
    (ticket_data : TicketCreate.t) (m j : nat) :
  ∀ (w : World) (acc : list Ticket.t),
    NoDup (batch_ids clock uuid4 (ticks w) (draws w) j) →
    (∀ i, In i (batch_ids clock uuid4 (ticks w) (draws w) j) →
          ¬ In i (map Ticket.ticket_id (tickets w))) →
    In (ticket_id_at clock uuid4 (ticks w + 3 * j) (draws w + j))
       (map Ticket.ticket_id (tickets w) ++ batch_ids clock uuid4 (ticks w) (draws w) j) →
    readable decodable (design_of (files w) e) = true →
    ∃ (created : list Ticket.t) (w' : World),
      create_loop TICKETS_DIR clock uuid4 smtp_ok decodable (j + S m) e ticket_data acc w =
        (Raise IntegrityError, w') ∧
      map Ticket.ticket_id created = batch_ids clock uuid4 (ticks w) (draws w) j ∧
      tickets w' = (tickets w ++ created)%list ∧
      events w' = events w.
Proof.
  induction j as [|j IH]; intros w acc Hnd Hnew Hhit Hread.
  - cbn [batch_ids seq map] in Hhit. rewrite app_nil_r, !Nat.add_0_r in Hhit.
    destruct (create_one_ticket_taken TICKETS_DIR clock uuid4 smtp_ok decodable e ticket_data w
                Hhit Hread)
      as (w' & Hone & Hts & Hes).
    exists [], w'. cbn [Nat.add create_loop]. erewrite bind_raise by exact Hone.
    split; [reflexivity|]. split; [reflexivity|]. now rewrite app_nil_r.
  - rewrite batch_ids_S in Hnd, Hnew, Hhit. apply NoDup_cons in Hnd as [Hhd Hnd].
    destruct (create_one_ticket_fresh TICKETS_DIR clock uuid4 smtp_ok decodable e ticket_data w)
      as (w1 & Hone & Hts & Hes & Htk & Hdr & _ & Hread1); [apply Hnew; now left | exact Hread |].
    destruct (IH w1 (acc ++ [new_ticket_row TICKETS_DIR clock uuid4 e ticket_data w])%list)
      as (created & w' & Hloop & Hids & Hts' & Hes'); [| | | exact Hread1 |].
    { now rewrite Htk, Hdr. }
    { rewrite Htk, Hdr, Hts. intros i Hi. rewrite map_app, in_app_iff. cbn.
      intros [Hold | [Heq | []]].
      - apply (Hnew i); [now right | exact Hold].
      - apply Hhd. apply list_elem_of_In. now rewrite Heq. }
    { rewrite Htk, Hdr, Hts, map_app. cbn [map].
      replace (3 + ticks w + 3 * j)%nat with (ticks w + 3 * S j)%nat by lia.
      replace (S (draws w) + j)%nat with (draws w + S j)%nat by lia.
      rewrite <- app_assoc. exact Hhit. }
    exists (new_ticket_row TICKETS_DIR clock uuid4 e ticket_data w :: created), w'.
    cbn [Nat.add create_loop]. erewrite bind_ok by exact Hone.
    rewrite Hloop. split; [reflexivity|].
    rewrite batch_ids_S. cbn [map]. rewrite Hids, Htk, Hdr.
    split; [reflexivity|]. rewrite Hts', Hts, <- app_assoc.
    split; [reflexivity | congruence].
Qed.

(** X14: a batch is not all or nothing. When the design of the event, if
    it has one, is a file that can be read as an image, the first j
    identifiers of a batch of more than j are new and the next one is taken,
    by a stored ticket or by a ticket of the batch itself, [create_tickets]
    fails with an integrity error and the j tickets made before stay stored,
    in an event that is now locked. *)
Theorem batch_stops_at_first_collision (smtp_ok : nat → bool) (event_id : Z)
    (ticket_data : TicketCreate.t) (w : World) (e : Event.t) (j : nat) :
  event_found event_id w = Some e →
  (j < Z.to_nat (TicketCreate.quantity ticket_data))%nat →
  let w0 := after_lock clock e w in
  let ids := batch_ids clock uuid4 (ticks w0) (draws w0) j in
  NoDup ids →
  (∀ i, In i ids → ¬ In i (map Ticket.ticket_id (tickets w))) →
  In (ticket_id_at clock uuid4 (ticks w0 + 3 * j) (draws w0 + j))
     (map Ticket.ticket_id (tickets w) ++ ids) →
  readable decodable (design_of (files w) e) = true →
  ∃ (created : list Ticket.t) (w' : World) (e' : Event.t),
    create_tickets TICKETS_DIR clock uuid4 smtp_ok decodable event_id ticket_data w =
      (Raise IntegrityError, w') ∧
    tickets w' = (tickets w ++ created)%list ∧
    map Ticket.ticket_id created = ids ∧
    List.length created = j ∧
    event_found event_id w' = Some e' ∧ Event.is_locked e' = true.
Proof.
  intros Hf Hj w0 ids Hnd Hnew Hhit Hread.
  assert (Hts0 : tickets w0 = tickets w).
  { unfold w0, after_lock. now destruct (Event.is_locked e). }
  assert (Hfs0 : files w0 = files w).
  { unfold w0, after_lock. now destruct (Event.is_locked e). }
  destruct (Z.to_nat (TicketCreate.quantity ticket_data)) as [|n] eqn:Hn; [lia|].
  assert (Hsplit : S n = (j + S (n - j))%nat) by lia.
  destruct (create_loop_collision smtp_ok
              (if Event.is_locked e then e else locked_row (clock (ticks w)) e)
              ticket_data (n - j) j w0 [])
    as (created & w' & Hloop & Hids & Hts & Hes);
    [exact Hnd | now rewrite Hts0 | now rewrite Hts0
     | now rewrite Hfs0, design_of_locked_row |].
  exists created, w', (if Event.is_locked e then e else locked_row (clock (ticks w)) e).
  rewrite (create_tickets_found TICKETS_DIR clock uuid4 smtp_ok decodable _ _ _ e Hf), Hn, Hsplit.
  split; [exact Hloop|]. split; [now rewrite Hts, Hts0|]. split; [exact Hids|].
  split; [rewrite <- (length_map Ticket.ticket_id), Hids; unfold ids, batch_ids;
          now rewrite length_map, length_seq|].
  split.
  - unfold event_found. rewrite Hes. now apply event_found_after_lock.
  - now destruct (Event.is_locked e) eqn:Hl.
Qed.

End Turns.

(** ** Identifiers *)

Lemma string_length_app (a b : string) :
  String.length (a +:+ b) = (String.length a + String.length b)%nat.
Proof.
  induction a as [|x a IH]; [reflexivity|].
  change (S (String.length (a +:+ b)) = S (String.length a + String.length b)).
  now rewrite IH.
Qed.

Lemma string_app_inj_length (a a' b b' : string) :
  String.length a = String.length a' → a +:+ b = a' +:+ b' → a = a' ∧ b = b'.
Proof.
  revert a'. induction a as [|x a IH]; intros [|x' a'] Hlen Heq; try discriminate.
  - now split.
  - change (String x (a +:+ b) = String x' (a' +:+ b')) in Heq.
    injection Heq as -> Heq. injection Hlen as Hlen.
    destruct (IH a' Hlen Heq) as [-> ->]. now split.
Qed.

Lemma zfill_length (width n : nat) : String.length (zfill width n) = width.
Proof.
  revert n. induction width as [|w IH]; intros n; [reflexivity|].
  cbn [zfill]. rewrite string_length_app, IH. cbn. lia.
Qed.

Lemma digit_inj (n m : nat) : digit n = digit m → (n mod 10 = m mod 10)%nat.
Proof.
  unfold digit. intros Heq. apply (f_equal nat_of_ascii) in Heq.
  pose proof (Nat.mod_upper_bound n 10). pose proof (Nat.mod_upper_bound m 10).
  rewrite !nat_ascii_embedding in Heq by lia. lia.
Qed.

Lemma zfill_inj (width n m : nat) :
  (n < 10 ^ width)%nat → (m < 10 ^ width)%nat → zfill width n = zfill width m → n = m.
Proof.
  revert n m. induction width as [|w IH]; intros n m Hn Hm Heq.
  - cbn in Hn, Hm. lia.
  - cbn [zfill] in Heq.
    apply string_app_inj_length in Heq as [Hhi Hlo]; [|now rewrite !zfill_length].
    injection Hlo as Hlo. apply digit_inj in Hlo.
    rewrite Nat.pow_succ_r' in Hn, Hm.
    assert (Hq : (n / 10 = m / 10)%nat).
    { apply IH; [| | exact Hhi]; apply Nat.Div0.div_lt_upper_bound; lia. }
    pose proof (Nat.div_mod_eq n 10) as En. pose proof (Nat.div_mod_eq m 10) as Em.
    rewrite Hq, Hlo in En. congruence.
Qed.

Lemma strftime_compact_length (d : datetime) : String.length (strftime_compact d) = 14%nat.
Proof.
  unfold strftime_compact. now rewrite !string_length_app, !zfill_length.
Qed.

Lemma strftime_compact_inj (a b : datetime) :
  valid_datetime a → valid_datetime b →
  strftime_compact a = strftime_compact b → same_second a b.
Proof.
  intros (Ha1 & Ha2 & Ha3 & Ha4 & Ha5 & Ha6 & _) (Hb1 & Hb2 & Hb3 & Hb4 & Hb5 & Hb6 & _) Heq.
  unfold strftime_compact in Heq.
  apply string_app_inj_length in Heq as [Hy Heq]; [|now rewrite !zfill_length].
  apply string_app_inj_length in Heq as [Hmo Heq]; [|now rewrite !zfill_length].
  apply string_app_inj_length in Heq as [Hd Heq]; [|now rewrite !zfill_length].
  apply string_app_inj_length in Heq as [Hh Heq]; [|now rewrite !zfill_length].
  apply string_app_inj_length in Heq as [Hmi Hs]; [|now rewrite !zfill_length].
  repeat split; eapply zfill_inj; try eassumption;
    try apply Ha1; try apply Hb1; cbn; lia.
Qed.

(** X15: two generated identifiers are equal exactly when they were made
    in the same calendar second from UUIDs whose first eight characters are
    the same once in upper case. *)
Theorem identifiers_collide_iff (clock : nat → datetime) (uuid4 : nat → string)
    (t d t' d' : nat) :
  valid_datetime (clock t) → valid_datetime (clock t') →
  ticket_id_at clock uuid4 t d = ticket_id_at clock uuid4 t' d' ↔
  same_second (clock t) (clock t') ∧
  upper (prefix_of 8 (uuid4 d)) = upper (prefix_of 8 (uuid4 d')).
Proof.
  intros Hv Hv'. unfold ticket_id_at. split.
  - intros Heq. apply String.app_inj in Heq.
    apply string_app_inj_length in Heq as [Hs Hu];
      [|now rewrite !strftime_compact_length].
    apply String.app_inj in Hu. split; [now apply strftime_compact_inj | exact Hu].
  - intros [(Hy & Hmo & Hd & Hh & Hmi & Hs) Hu].
    unfold strftime_compact. now rewrite Hy, Hmo, Hd, Hh, Hmi, Hs, Hu.
Qed.

Lemma upper_length (s : string) : String.length (upper s) = String.length s.
Proof. induction s as [|c s IH]; cbn; [reflexivity | now rewrite IH]. Qed.

Lemma prefix_of_length (n : nat) (s : string) :
  String.length (prefix_of n s) = Nat.min n (String.length s).
Proof.
  unfold prefix_of. revert s. induction n as [|n IH]; intros [|c s]; cbn; try reflexivity.
  now rewrite IH.
Qed.

(** X16: for a reading of the clock with a four-digit year and a UUID
    string of eight characters or more (a UUID4 has thirty-six), the
    generated identifier starts with "TKT-" and has exactly twenty-seven
    characters. *)
Theorem identifier_shape (clock : nat → datetime) (uuid4 : nat → string) (t d : nat) :
  valid_datetime (clock t) →
  (8 ≤ String.length (uuid4 d))%nat →
  String.prefix "TKT-" (ticket_id_at clock uuid4 t d) = true ∧
  String.length (ticket_id_at clock uuid4 t d) = 27%nat.
Proof.
  intros _ Hge. unfold ticket_id_at. split; [reflexivity|].
  rewrite !string_length_app, strftime_compact_length, upper_length, prefix_of_length.
  change (String.length "TKT-") with 4%nat. change (String.length "-") with 1%nat. lia.
Qed.

(** ** From issue to door *)

Lemma find_app_skip {A : Type} (p : A → bool) (l l' : list A) :
  (∀ x, In x l → p x = false) → find p (l ++ l')%list = find p l'.
Proof.
  induction l as [|a l IH]; intros Hnone; [reflexivity|]. cbn.
  rewrite (Hnone a) by now left. apply IH. intros x Hx. apply Hnone. now right.
Qed.

Lemma find_by_unique_ticket_id (k : Ticket.t) (ts : list Ticket.t) :
  NoDup (map Ticket.ticket_id ts) → In k ts →
  find (λ x, String.eqb (Ticket.ticket_id x) (Ticket.ticket_id k)) ts = Some k.
Proof.
  intros Hnd Hin.
  destruct (find _ ts) as [x|] eqn:Hf.
  - apply find_some in Hf as [Hx Heq]. apply String.eqb_eq in Heq.
    now rewrite (NoDup_map_inj Ticket.ticket_id ts x k Hnd Hx Hin Heq).
  - pose proof (find_none _ _ Hf k Hin) as Hn. cbn in Hn.
    now rewrite String.eqb_refl in Hn.
Qed.

Section Door.
Variable UPLOAD_DIR : string.
Variable TICKETS_DIR : string.
Variable clock : nat → datetime.
Variable uuid4 : nat → string.
Variable smtp_ok : nat → bool.
Variable splitext_ext : string → string.
Variable decodable : string → bool.

(** X17: a ticket just issued is let in once. After a batch whose
    identifiers are new, for an event whose design, if it has one, is a
    file that can be read as an image, the first scan of any of its tickets
    is answered "valid" with the name of the event, and the second
    "already_used" with the time of the first. *)
Theorem issued_ticket_is_let_in_once (event_id : Z) (ticket_data : TicketCreate.t)
    (w : World) (e : Event.t) :
  event_found event_id w = Some e →
  let n := Z.to_nat (TicketCreate.quantity ticket_data) in
  let w0 := after_lock clock e w in
  let ids := batch_ids clock uuid4 (ticks w0) (draws w0) n in
  NoDup ids →
  (∀ i, In i ids → ¬ In i (map Ticket.ticket_id (tickets w))) →
  readable decodable (design_of (files w) e) = true →
  ∃ (created : list Ticket.t) (w' : World),
    create_tickets TICKETS_DIR clock uuid4 smtp_ok decodable event_id ticket_data w =
      (Ok created, w') ∧
    List.length created = n ∧
    ∀ k, In k created →
      ∃ (e' : Event.t) (w'' : World),
        scans clock 2 (ScanRequest.mk (Ticket.ticket_id k)) w' =
          (Ok [valid_answer k e'; already_used_answer k (clock (ticks w'))], w'') ∧
        Event.name e' = Event.name e.
Proof.
  intros Hf n w0 ids Hnd Hnew Hread.
  assert (Hts0 : tickets w0 = tickets w).
  { unfold w0, after_lock. now destruct (Event.is_locked e). }
  assert (Hfs0 : files w0 = files w).
  { unfold w0, after_lock. now destruct (Event.is_locked e). }
  destruct (create_loop_fresh TICKETS_DIR clock uuid4 smtp_ok decodable
              (if Event.is_locked e then e else locked_row (clock (ticks w)) e)
              ticket_data n w0 [])
    as (created & w' & Hloop & Hids & Hts & Hes & Hall);
    [exact Hnd | now rewrite Hts0 | now rewrite Hfs0, design_of_locked_row |].
  exists created, w'.
  rewrite (create_tickets_found TICKETS_DIR clock uuid4 smtp_ok decodable _ _ _ e Hf). fold n w0.
  split; [exact Hloop|].
  split; [rewrite <- (length_map Ticket.ticket_id), Hids; unfold ids, batch_ids;
          now rewrite length_map, length_seq|].
  intros k Hk. rewrite Forall_forall in Hall.
  destruct (Hall k) as (Hev & Hused & _); [now apply list_elem_of_In|].
  assert (Hscan : scanned (ScanRequest.mk (Ticket.ticket_id k)) w' = Some k).
  { unfold scanned. cbn [ScanRequest.ticket_id]. rewrite Hts, Hts0, find_app_skip.
    - apply find_by_unique_ticket_id; [now rewrite Hids | exact Hk].
    - intros x Hx. destruct (String.eqb _ _) eqn:Heq; [|reflexivity].
      apply String.eqb_eq in Heq. exfalso.
      apply (Hnew (Ticket.ticket_id k)).
      + unfold ids. rewrite <- Hids. now apply in_map.
      + rewrite <- Heq. now apply in_map. }
  assert (Hevent : event_found (Ticket.event_id k) w' =
            Some (if Event.is_locked e then e else locked_row (clock (ticks w)) e)).
  { rewrite Hev. unfold event_found. rewrite Hes.
    replace (Event.id (if Event.is_locked e then e else locked_row (clock (ticks w)) e))
      with event_id
      by (destruct (Event.is_locked e); cbn; symmetry; apply (find_event_id _ _ _ Hf)).
    now apply event_found_after_lock. }
  do 2 eexists. split.
  - rewrite (scans_after_redemption clock 1 _ w' k _ Hscan Hused Hevent). reflexivity.
  - now destruct (Event.is_locked e).
Qed.

(** X18: resending a ticket makes one delivery attempt, to the stored
    address and with the stored image, and changes neither the database
    nor the files; the answer is HTTP 500 exactly when the delivery fails. *)
Theorem resend_makes_one_attempt (ticket_id : Z) (w : World) (k : Ticket.t) :
  store_ok TICKETS_DIR w →
  ticket_found ticket_id w = Some k →
  ∃ (e : Event.t) (answer : result string),
    event_found (Ticket.event_id k) w = Some e ∧
    resend_ticket smtp_ok ticket_id w =
      (answer,
       set_outbox
         (outbox w ++
            [mk_mail (Ticket.attendee_email k) ("Your Ticket for " +:+ Event.name e)
               (Ticket.ticket_id k)
               (files w !! ticket_path TICKETS_DIR (Ticket.ticket_id k))
               (smtp_ok (List.length (outbox w)))]) w) ∧
    answer = (if smtp_ok (List.length (outbox w))
              then Ok "Ticket email resent successfully"
              else Raise mail_failed_error).
Proof.
  intros [Hdb Hpaths] Hf.
  pose proof (find_ticket_id _ _ _ Hf) as [_ Hin].
  destruct (event_of_ticket w k Hdb Hin) as [e He].
  unfold paths_ok in Hpaths. rewrite Forall_forall in Hpaths.
  destruct (Hpaths k) as [_ Himg]; [now apply list_elem_of_In|].
  exists e, (if smtp_ok (List.length (outbox w))
             then Ok "Ticket email resent successfully" else Raise mail_failed_error).
  split; [exact He|].
  unfold resend_ticket, ticket_by_id, event_by_id, send_ticket_email. mstep.
  fold (ticket_found ticket_id w). rewrite Hf.
  fold (event_found (Ticket.event_id k) w). rewrite He, Himg.
  destruct (smtp_ok (List.length (outbox w))); split; reflexivity.
Qed.

Lemma upload_design_run (event_id : Z) (upload : UploadFile)
    (w : World) (e : Event.t) :
  event_found event_id w = Some e →
  let path := design_path UPLOAD_DIR splitext_ext event_id upload in
  match content_type upload with
  | None =>
    upload_ticket_design UPLOAD_DIR clock splitext_ext event_id upload w =
      (Raise AttributeError, w)
  | Some content =>
    if String.prefix "image/" content then
      ∃ (e' : Event.t) (w' : World),
        upload_ticket_design UPLOAD_DIR clock splitext_ext event_id upload w =
          (Ok ("Ticket design uploaded successfully", path), w') ∧
        files w' = <[path := Uploaded (file upload)]> (files w) ∧
        event_found event_id w' = Some e' ∧
        Event.ticket_design_path e' = Some path ∧
        Event.is_locked e' = Event.is_locked e ∧
        same_details e e' ∧
        tickets w' = tickets w
    else
      upload_ticket_design UPLOAD_DIR clock splitext_ext event_id upload w =
        (Raise not_an_image_error, w)
  end.
Proof.
  intros Hf path. unfold upload_ticket_design, event_by_id, save_file. mstep.
  fold (event_found event_id w). rewrite Hf.
  destruct (content_type upload) as [content|]; [|reflexivity].
  destruct (String.prefix "image/" content); [|reflexivity].
  cbn [negb].
  match goal with |- context [flush_event clock ?a ?b ?c] =>
    destruct (flush_event_cases clock a b c) as (r & w' & -> & Hr & Hes & Hts & Hfs & _) end.
  exists r, w'. split; [reflexivity|]. split; [exact Hfs|]. split.
  - unfold event_found in *. destruct Hes as [[-> ->] | ->]; [exact Hf|].
    apply (find_replace_event _ e); [exact Hf | now destruct Hr as [-> | ->] |].
    apply find_some in Hf as [_ Hp]. cbn in Hp. now destruct Hr as [-> | ->].
  - destruct Hr as [-> | ->]; cbn; repeat split; exact Hts.
Qed.

(** X19: a design is accepted for any stored event, locked or not, when
    the content type of the upload says image: the file is saved under the
    id of the event, the event points to it, and tickets are not touched;
    what the file holds is not looked at. Any other content type is answered
    with HTTP 400 and changes nothing, and an upload that comes without a
    content type stops the handler with an [AttributeError], nothing
    changed. *)
Theorem upload_stores_the_design (event_id : Z) (upload : UploadFile)
    (w : World) (e : Event.t) :
  event_found event_id w = Some e →
  let path := design_path UPLOAD_DIR splitext_ext event_id upload in
  match content_type upload with
  | None =>
    upload_ticket_design UPLOAD_DIR clock splitext_ext event_id upload w =
      (Raise AttributeError, w)
  | Some content =>
    if String.prefix "image/" content then
      ∃ (e' : Event.t) (w' : World),
        upload_ticket_design UPLOAD_DIR clock splitext_ext event_id upload w =
          (Ok ("Ticket design uploaded successfully", path), w') ∧
        files w' = <[path := Uploaded (file upload)]> (files w) ∧
        event_found event_id w' = Some e' ∧
        Event.ticket_design_path e' = Some path ∧
        Event.is_locked e' = Event.is_locked e ∧
        same_details e e' ∧
        tickets w' = tickets w
    else
      upload_ticket_design UPLOAD_DIR clock splitext_ext event_id upload w =
        (Raise not_an_image_error, w)
  end.
Proof. intros Hf. now apply upload_design_run. Qed.

(** X20: after a design that can be read as an image has been uploaded
    for an event, an edit of one of its tickets, whose QR code is still a
    readable file, renders the ticket over that design. *)
Theorem edit_after_upload_renders_over_the_design (event_id ticket_id : Z)
    (upload : UploadFile) (content : string) (ticket_data : TicketUpdate.t)
    (w : World) (k : Ticket.t) :
  store_ok TICKETS_DIR w →
  ticket_found ticket_id w = Some k →
  Ticket.event_id k = event_id →
  content_type upload = Some content →
  String.prefix "image/" content = true →
  decodable (file upload) = true →
  readable decodable (files w !! qr_path TICKETS_DIR (Ticket.ticket_id k)) = true →
  let w1 := snd (upload_ticket_design UPLOAD_DIR clock splitext_ext event_id upload w) in
  ∃ (r : Ticket.t) (w2 : World) (qr : option image) (texts : list (Z * Z * string * font)),
    update_ticket TICKETS_DIR clock decodable ticket_id ticket_data w1 = (Ok r, w2) ∧
    files w2 !! ticket_path TICKETS_DIR (Ticket.ticket_id k) =
      Some (TicketImage (Some (Uploaded (file upload))) qr texts).
Proof.
  intros Hok Hf Hev Hcontent Himage Hdecodable Hqr w1.
  pose proof (find_ticket_id _ _ _ Hf) as [_ Hin].
  destruct (event_of_ticket w k (proj1 Hok) Hin) as [e He]. rewrite Hev in He.
  pose proof (upload_design_run event_id upload w e He) as Hup.
  cbn zeta in Hup. rewrite Hcontent, Himage in Hup.
  destruct Hup as (e' & w' & Hrun & Hfs & He' & Hdesign & _ & _ & Hts).
  assert (Hw1 : w1 = w') by (unfold w1; now rewrite Hrun). rewrite Hw1.
  assert (Hok' : store_ok TICKETS_DIR w').
  { rewrite <- Hw1. now apply upload_ticket_design_ok. }
  assert (Hf' : ticket_found ticket_id w' = Some k)
    by (unfold ticket_found; now rewrite Hts).
  assert (Ht : truthy (design_path UPLOAD_DIR splitext_ext event_id upload) = true)
    by apply path_join_truthy.
  assert (Hp : or_empty (Some (design_path UPLOAD_DIR splitext_ext event_id upload)) =
               design_path UPLOAD_DIR splitext_ext event_id upload)
    by (cbn [or_empty]; now rewrite Ht).
  assert (Hover : design_of (files w') e' = Some (Uploaded (file upload))).
  { unfold design_of. now rewrite Hdesign, Hp, Ht, Hfs, lookup_insert_eq. }
  destruct (update_ticket_found TICKETS_DIR clock decodable ticket_id ticket_data w' k
              (proj1 Hok') (proj2 Hok') Hf')
    as (x & Hx & Hupd).
  rewrite Hev, He' in Hx. injection Hx as <-.
  assert (Hlayers : layers_readable_for TICKETS_DIR decodable w' e' k = true).
  { unfold layers_readable_for. rewrite Hover. cbn [readable]. rewrite Hdecodable.
    cbn [andb]. rewrite Hfs.
    destruct (decide (design_path UPLOAD_DIR splitext_ext event_id upload =
                      qr_path TICKETS_DIR (Ticket.ticket_id k))) as [Heq | Hne].
    - rewrite Heq, lookup_insert_eq. exact Hdecodable.
    - rewrite lookup_insert_ne by exact Hne. exact Hqr. }
  rewrite Hlayers in Hupd.
  destruct Hupd as (r & w2 & Hupd & _ & Hfiles & _).
  exists r, w2. do 2 eexists. split; [exact Hupd|].
  rewrite Hfiles, lookup_insert_eq. unfold rendering.
  rewrite Hover. reflexivity.
Qed.

(** X21: a new event gets an id that no stored event has, and is stored
    active, unlocked and without a design, with the fields of the request;
    the events and tickets already stored are found as before. *)
Theorem create_event_adds_a_fresh_event (event_data : EventCreate.t) (w : World) :
  ∃ (e : Event.t) (w' : World),
    create_event clock event_data w = (Ok e, w') ∧
    event_found (Event.id e) w = None ∧
    event_found (Event.id e) w' = Some e ∧
    Event.is_active e = true ∧ Event.is_locked e = false ∧
    Event.ticket_design_path e = None ∧
    Event.name e = EventCreate.name event_data ∧
    Event.event_date e = EventCreate.event_date event_data ∧
    Event.event_time e = EventCreate.event_time event_data ∧
    Event.venue e = EventCreate.venue event_data ∧
    Event.city e = EventCreate.city event_data ∧
    Event.description e = EventCreate.description event_data ∧
    (∀ j x, event_found j w = Some x → event_found j w' = Some x) ∧
    tickets w' = tickets w ∧ files w' = files w.
Proof.
  unfold create_event, add_event, utcnow. mstep.
  cbn [events set_ticks set_events tickets files].
  do 2 eexists. split; [reflexivity|].
  assert (Hnone : ∀ x, In x (events w) →
            (Event.id x =? next_id (map Event.id (events w))) = false).
  { intros x Hx. apply Z.eqb_neq. intros Heq.
    apply (next_id_fresh (map Event.id (events w))). rewrite <- Heq. now apply in_map. }
  split.
  { unfold event_found. cbn [Event.id].
    destruct (find _ (events w)) as [x|] eqn:Hx; [|reflexivity].
    apply find_some in Hx as [Hin Heq]. cbn in Heq. now rewrite (Hnone x Hin) in Heq. }
  split.
  { unfold event_found. cbn [Event.id events set_events set_ticks].
    rewrite find_app_skip by exact Hnone. cbn. now rewrite Z.eqb_refl. }
  repeat split.
  intros j x Hj. unfold event_found in *. cbn [events set_events set_ticks].
  now apply find_app_found.
Qed.

End Door.

(** ** The files of an issued ticket *)

Lemma string_app_inj_r (a b c : string) : a +:+ c = b +:+ c → a = b.
Proof.
  intros Heq. assert (Hlen : String.length a = String.length b).
  { apply (f_equal String.length) in Heq. rewrite !string_length_app in Heq. lia. }
  now apply (string_app_inj_length a b c c Hlen).
Qed.

Lemma qr_path_inj (TICKETS_DIR a b : string) :
  qr_path TICKETS_DIR a = qr_path TICKETS_DIR b → a = b.
Proof.
  unfold qr_path, path_join. intros Heq.
  do 3 apply String.app_inj in Heq. now apply string_app_inj_r in Heq.
Qed.

Lemma ticket_path_inj (TICKETS_DIR a b : string) :
  ticket_path TICKETS_DIR a = ticket_path TICKETS_DIR b → a = b.
Proof.
  unfold ticket_path, path_join. intros Heq.
  do 3 apply String.app_inj in Heq. now apply string_app_inj_r in Heq.
Qed.

Section Files.
Variable TICKETS_DIR : string.
Variable clock : nat → datetime.
Variable uuid4 : nat → string.
Variable smtp_ok : nat → bool.
Variable decodable : string → bool.

Lemma create_loop_files (e : Event.t) (ticket_data : TicketCreate.t) (n : nat) :
  ∀ (w : World) (acc : list Ticket.t),
    NoDup (batch_ids clock uuid4 (ticks w) (draws w) n) →
    (∀ i, In i (batch_ids clock uuid4 (ticks w) (draws w) n) →
          ¬ In i (map Ticket.ticket_id (tickets w))) →
    readable decodable (design_of (files w) e) = true →
    ∃ (created : list Ticket.t) (w' : World),
      create_loop TICKETS_DIR clock uuid4 smtp_ok decodable n e ticket_data acc w =
        (Ok (acc ++ created)%list, w') ∧
      map Ticket.ticket_id created = batch_ids clock uuid4 (ticks w) (draws w) n ∧
      (∀ p, (∀ i, In i (batch_ids clock uuid4 (ticks w) (draws w) n) →
                  p ≠ qr_path TICKETS_DIR i ∧ p ≠ ticket_path TICKETS_DIR i) →
            files w' !! p = files w !! p) ∧
      ∀ k, In k created →
           has_its_files TICKETS_DIR (files w') k ∧
           Ticket.attendee_name k = TicketCreate.attendee_name ticket_data.
Proof.
  induction n as [|n IH]; intros w acc Hnd Hnew Hread.
  - exists [], w. cbn [create_loop]. rewrite app_nil_r.
    split; [reflexivity|]. split; [reflexivity|]. split; [reflexivity|]. intros k [].
  - rewrite batch_ids_S in Hnd, Hnew. apply NoDup_cons in Hnd as [Hhd Hnd].
    rewrite list_elem_of_In in Hhd.
    destruct (create_one_ticket_fresh TICKETS_DIR clock uuid4 smtp_ok decodable e ticket_data w
                (Hnew _ (or_introl eq_refl)) Hread)
      as (w1 & Hone & Hts1 & _ & Htk1 & Hdr1 & Hfs1 & Hread1).
    set (id0 := ticket_id_at clock uuid4 (ticks w) (draws w)) in *.
    set (k0 := new_ticket_row TICKETS_DIR clock uuid4 e ticket_data w) in *.
    destruct (IH w1 (acc ++ [k0])%list) as (created & w' & Hloop & Hids & Hframe & Hfiles).
    { now rewrite Htk1, Hdr1. }
    { rewrite Htk1, Hdr1, Hts1. intros i Hi. rewrite map_app, in_app_iff. cbn.
      intros [Hold | [Heq | []]].
      - apply (Hnew i); [now right | exact Hold].
      - apply Hhd. rewrite <- Heq in Hi. exact Hi. }
    { exact Hread1. }
    rewrite Htk1, Hdr1 in Hids, Hframe.
    exists (k0 :: created), w'.
    cbn [create_loop]. erewrite bind_ok by exact Hone.
    rewrite Hloop, <- app_assoc. split; [reflexivity|].
    rewrite batch_ids_S. cbn [map]. rewrite Hids.
    split; [reflexivity|]. split.
    + intros p Hp. rewrite Hframe by (intros i Hi; apply Hp; now right).
      destruct (Hp id0 (or_introl eq_refl)) as [Hq Ht].
      rewrite Hfs1. unfold files_after_turn. cbn zeta.
      now rewrite !lookup_insert_ne by congruence.
    + intros k [<- | Hk]; [|now apply Hfiles].
      assert (Hlater : ∀ i, In i (batch_ids clock uuid4 (3 + ticks w) (S (draws w)) n) →
                i ≠ id0) by (intros i Hi ->; contradiction).
      split; [|reflexivity].
      unfold has_its_files. cbn [k0 new_ticket_row Ticket.qr_code_path
        Ticket.ticket_image_path Ticket.ticket_id Ticket.attendee_name].
      fold id0. split; [reflexivity|]. split; [reflexivity|].
      rewrite !Hframe.
      * rewrite Hfs1. unfold files_after_turn. cbn zeta.
        rewrite lookup_insert_ne by (apply not_eq_sym, qr_path_ne_ticket_path).
        rewrite !lookup_insert_eq. split; [reflexivity|].
        do 2 eexists. split; [reflexivity|]. cbn. tauto.
      * intros i Hi. split; intros Heq;
          first [ apply qr_path_inj in Heq; apply (Hlater i Hi); now symmetry
                | apply ticket_path_inj in Heq; apply (Hlater i Hi); now symmetry
                | now apply qr_path_ne_ticket_path in Heq
                | symmetry in Heq; now apply qr_path_ne_ticket_path in Heq ].
      * intros i Hi. split; intros Heq;
          first [ apply qr_path_inj in Heq; apply (Hlater i Hi); now symmetry
                | apply ticket_path_inj in Heq; apply (Hlater i Hi); now symmetry
                | now apply qr_path_ne_ticket_path in Heq
                | symmetry in Heq; now apply qr_path_ne_ticket_path in Heq ].
Qed.

(** X22: every ticket of a batch whose identifiers are new, for an event
    whose design, if it has one, is a file that can be read as an image, has
    its files when the batch returns: a QR code whose payload is the ticket's
    identifier, at the path stored in the row, and an image at the stored
    path with that QR code pasted and the attendee and the identifier written
    on it; later tickets of the batch do not overwrite them. *)
Theorem issued_ticket_has_its_files (event_id : Z) (ticket_data : TicketCreate.t)
    (w : World) (e : Event.t) :
  event_found event_id w = Some e →
  let n := Z.to_nat (TicketCreate.quantity ticket_data) in
  let w0 := after_lock clock e w in
  let ids := batch_ids clock uuid4 (ticks w0) (draws w0) n in
  NoDup ids →
  (∀ i, In i ids → ¬ In i (map Ticket.ticket_id (tickets w))) →
  readable decodable (design_of (files w) e) = true →
  ∃ (created : list Ticket.t) (w' : World),
    create_tickets TICKETS_DIR clock uuid4 smtp_ok decodable event_id ticket_data w =
      (Ok created, w') ∧
    (∀ k, In k created →
          has_its_files TICKETS_DIR (files w') k ∧
          Ticket.attendee_name k = TicketCreate.attendee_name ticket_data) ∧
    (∀ p, (∀ i, In i ids → p ≠ qr_path TICKETS_DIR i ∧ p ≠ ticket_path TICKETS_DIR i) →
          files w' !! p = files w !! p).
Proof.
  intros Hf n w0 ids Hnd Hnew Hread.
  assert (Hts0 : tickets w0 = tickets w).
  { unfold w0, after_lock. now destruct (Event.is_locked e). }
  assert (Hfs0 : files w0 = files w).
  { unfold w0, after_lock. now destruct (Event.is_locked e). }
  destruct (create_loop_files
              (if Event.is_locked e then e else locked_row (clock (ticks w)) e)
              ticket_data n w0 [])
    as (created & w' & Hloop & Hids & Hframe & Hfiles);
    [exact Hnd | now rewrite Hts0 | now rewrite Hfs0, design_of_locked_row |].
  exists created, w'.
  rewrite (create_tickets_found TICKETS_DIR clock uuid4 smtp_ok decodable _ _ _ e Hf). fold n w0.
  split; [exact Hloop|]. split.
  - exact Hfiles.
  - intros p Hp. rewrite <- Hfs0. now apply Hframe.
Qed.

End Files.

(** ** Deleting an event *)

(** X23: deleting a stored event removes the event and the rows of its
    tickets, and no other row: afterwards the event is not found, its
    listing is empty and its statistics are answered with HTTP 404, while
    every other event and the tickets of every other event are as before.
    (An id that is not a 64-bit integer, which no row of SQLite has, is
    refused by the driver in both requests.) *)
Theorem delete_event_removes_event_and_its_tickets (event_id : Z) (w : World) (e : Event.t) :
  event_found event_id w = Some e →
  ∃ w' : World,
    delete_event event_id w =
      (Ok ("Event '" +:+ Event.name e +:+ "' and all associated tickets deleted successfully"),
       w') ∧
    event_found event_id w' = None ∧
    (∀ j, j ≠ event_id → event_found j w' = event_found j w) ∧
    tickets w' = List.filter (λ k, negb (Ticket.event_id k =? event_id)) (tickets w) ∧
    (∀ j, j ≠ event_id →
          fst (get_event_tickets j w') = fst (get_event_tickets j w)) ∧
    get_event_tickets event_id w' =
      (if sqlite_int event_id then Ok [] else Raise OverflowError, w') ∧
    get_event_stats event_id w' =
      (Raise (if sqlite_int event_id then event_not_found_error else OverflowError), w').
Proof.
  intros Hf. pose proof (find_event_id _ _ _ Hf) as [Hid _].
  unfold delete_event, event_by_id. mstep. fold (event_found event_id w). rewrite Hf.
  eexists. split; [reflexivity|].
  unfold event_found, get_event_tickets, get_event_stats, event_by_id. mstep.
  cbn [events tickets set_events set_tickets fst]. rewrite Hid.
  assert (Hgone : find (λ x, Event.id x =? event_id)
            (List.filter (λ x, negb (Event.id x =? event_id)) (events w)) = None)
    by (rewrite find_event_after_delete; now rewrite Z.eqb_refl).
  assert (Hnone : List.filter (λ k, Ticket.event_id k =? event_id)
            (List.filter (λ k, negb (Ticket.event_id k =? event_id)) (tickets w)) = []).
  { induction (tickets w) as [|k ts IH]; [reflexivity|]. cbn.
    destruct (Ticket.event_id k =? event_id) eqn:Heq; cbn; [exact IH|]. now rewrite Heq. }
  split; [exact Hgone|]. split.
  { intros j Hj. rewrite find_event_after_delete.
    destruct (j =? event_id) eqn:Hje; [apply Z.eqb_eq in Hje; contradiction | reflexivity]. }
  split; [reflexivity|]. split.
  { intros j Hj. destruct (sqlite_int j); [|reflexivity].
    cbn [fst tickets set_events set_tickets]. do 2 f_equal. clear Hnone.
    induction (tickets w) as [|k ts IH]; [reflexivity|]. cbn.
    destruct (Ticket.event_id k =? event_id) eqn:Heq; cbn.
    - apply Z.eqb_eq in Heq.
      destruct (Ticket.event_id k =? j) eqn:Hkj; [apply Z.eqb_eq in Hkj; congruence | exact IH].
    - destruct (Ticket.event_id k =? j); [now rewrite IH | exact IH]. }
  split.
  - destruct (sqlite_int event_id); [|reflexivity].
    cbn [tickets set_events set_tickets]. now rewrite Hnone.
  - rewrite Hgone. now destruct (sqlite_int event_id).
Qed.

(** ** Requests that are stopped half-way or refused *)

Section Unreadable.
Variable TICKETS_DIR : string.
Variable clock : nat → datetime.
Variable uuid4 : nat → string.
Variable smtp_ok : nat → bool.
Variable decodable : string → bool.



End Unreadable.

Section Refused.
Variable TICKETS_DIR : string.
Variable clock : nat → datetime.
Variable uuid4 : nat → string.
Variable smtp_ok : nat → bool.
Variable decodable : string → bool.
Variable email_validator : string → option string.


End Refused.

(** ** The properties on the sample run *)

Ltac datetime_bounds :=
  first [ apply (Nat.le_lt_trans _ 6); [lia | apply Nat.pow_gt_lin_r; lia]
        | apply Nat.leb_le; vm_compute; reflexivity
        | apply Nat.ltb_lt; vm_compute; reflexivity
        | lia ].

Lemma every_request_keeps_the_store_well_formed_witness :
  store_ok Sample.TICKETS_DIR Sample.with_tickets ∧
  store_ok Sample.TICKETS_DIR
    (SampleMore.serve (ValidateTicket Sample.first_code) Sample.with_tickets).
Proof.
  split; [exact sample_with_tickets_ok|].
  apply (every_request_keeps_the_store_well_formed Sample.UPLOAD_DIR Sample.TICKETS_DIR
           Sample.clock Sample.uuid4 Sample.smtp_ok Sample.splitext_ext Sample.decodable
           Sample.email_validator).
  exact sample_with_tickets_ok.
Defined.

Lemma locked_event_is_frozen_witness :
  ∃ e e' : Event.t,
    event_found 1 Sample.with_tickets = Some e ∧
    Event.is_locked e = true ∧
    event_found 1 (SampleMore.serve (UploadTicketDesign 1 SampleMore.poster)
                     Sample.with_tickets) = Some e' ∧
    Event.is_locked e' = true ∧ same_details e e'.
Proof.
  destruct (event_found 1 Sample.with_tickets) as [e|] eqn:Hf;
    [|vm_compute in Hf; discriminate].
  destruct (event_found 1 (SampleMore.serve (UploadTicketDesign 1 SampleMore.poster)
                             Sample.with_tickets)) as [e'|] eqn:Hf';
    [|vm_compute in Hf'; discriminate].
  assert (Hl : Event.is_locked e = true)
    by (vm_compute in Hf; injection Hf as <-; reflexivity).
  exists e, e'. split; [reflexivity|]. split; [exact Hl|]. split; [reflexivity|].
  exact (locked_event_is_frozen Sample.UPLOAD_DIR Sample.TICKETS_DIR Sample.clock
           Sample.uuid4 Sample.smtp_ok Sample.splitext_ext Sample.decodable
           Sample.email_validator
           (UploadTicketDesign 1 SampleMore.poster) Sample.with_tickets 1 e e' Hf Hl Hf').
Defined.

Lemma ticket_identity_and_redemption_are_kept_witness :
  ∃ k k' : Ticket.t,
    store_ok Sample.TICKETS_DIR Sample.after_scan ∧
    ticket_found 1 Sample.after_scan = Some k ∧
    Ticket.is_used k = true ∧
    ticket_found 1 (SampleMore.serve (UpdateTicket 1 Sample.rename) Sample.after_scan)
      = Some k' ∧
    same_ticket k k'.
Proof.
  destruct (ticket_found 1 Sample.after_scan) as [k|] eqn:Hf;
    [|vm_compute in Hf; discriminate].
  destruct (ticket_found 1 (SampleMore.serve (UpdateTicket 1 Sample.rename)
                              Sample.after_scan)) as [k'|] eqn:Hf';
    [|vm_compute in Hf'; discriminate].
  exists k, k'. split; [exact sample_after_scan_ok|]. split; [reflexivity|].
  split; [vm_compute in Hf; injection Hf as <-; reflexivity|]. split; [reflexivity|].
  exact (ticket_identity_and_redemption_are_kept Sample.UPLOAD_DIR Sample.TICKETS_DIR
           Sample.clock Sample.uuid4 Sample.smtp_ok Sample.splitext_ext Sample.decodable
           Sample.email_validator
           (UpdateTicket 1 Sample.rename) Sample.after_scan 1 k k'
           sample_after_scan_ok Hf Hf').
Defined.

Lemma missing_rows_answer_404_witness :
  event_found 5 Sample.with_tickets = None ∧
  ticket_found (2 ^ 63) Sample.with_tickets = None ∧
  delete_event 5 Sample.with_tickets = (Raise event_not_found_error, Sample.with_tickets) ∧
  delete_ticket (2 ^ 63) Sample.with_tickets = (Raise OverflowError, Sample.with_tickets).
Proof.
  assert (He : event_found 5 Sample.with_tickets = None) by (vm_compute; reflexivity).
  assert (Hk : ticket_found (2 ^ 63) Sample.with_tickets = None) by (vm_compute; reflexivity).
  split; [exact He|]. split; [exact Hk|].
  destruct (missing_rows_answer_404 Sample.UPLOAD_DIR Sample.TICKETS_DIR Sample.clock
              Sample.uuid4 Sample.smtp_ok Sample.splitext_ext Sample.decodable
              5 (2 ^ 63) Sample.with_tickets He Hk)
    as (_ & _ & Hde & _ & _ & _ & _ & _ & _ & Hdt & _).
  split; [exact Hde | exact Hdt].
Defined.

Lemma delete_ticket_removes_row_and_files_witness :
  store_ok Sample.TICKETS_DIR Sample.with_tickets ∧
  ticket_found 1 Sample.with_tickets = Some Sample.first_ticket ∧
  ∃ w' : World,
    fst (delete_ticket 1 Sample.with_tickets) =
      Ok "Ticket deleted successfully: Ada Obi - TKT-20250601183003-3F2B8C1E" ∧
    snd (delete_ticket 1 Sample.with_tickets) = w' ∧
    ticket_found 1 w' = None ∧
    files w' !! qr_path Sample.TICKETS_DIR "TKT-20250601183003-3F2B8C1E" = None.
Proof.
  split; [exact sample_with_tickets_ok|]. split; [exact sample_ticket_found|].
  destruct (delete_ticket_removes_row_and_files Sample.TICKETS_DIR 1 Sample.with_tickets
              Sample.first_ticket sample_with_tickets_ok sample_ticket_found)
    as (w' & Hrun & Hgone & _ & Hqr & _).
  exists w'. rewrite Hrun. split; [reflexivity|]. split; [reflexivity|].
  split; [exact Hgone | exact Hqr].
Defined.

Lemma deleted_ticket_scans_invalid_witness :
  store_ok Sample.TICKETS_DIR Sample.with_tickets ∧
  ticket_found 1 Sample.with_tickets = Some Sample.first_ticket ∧
  validate_ticket Sample.clock Sample.first_code (snd (delete_ticket 1 Sample.with_tickets)) =
    (Ok invalid_answer, snd (delete_ticket 1 Sample.with_tickets)).
Proof.
  split; [exact sample_with_tickets_ok|]. split; [exact sample_ticket_found|].
  exact (deleted_ticket_scans_invalid Sample.TICKETS_DIR Sample.clock 1 Sample.with_tickets
           Sample.first_ticket sample_with_tickets_ok sample_ticket_found).
Defined.

Lemma toggle_twice_restores_is_active_witness :
  ∃ (e : Event.t) (t1 t2 : string) (w1 w2 : World),
    event_found 1 Sample.with_event = Some e ∧
    toggle_event_active Sample.clock 1 Sample.with_event = (Ok (t1, false), w1) ∧
    toggle_event_active Sample.clock 1 w1 = (Ok (t2, true), w2) ∧
    event_found 1 w2 = Some (Event.set_updated_at (Sample.clock 3) e).
Proof.
  destruct (event_found 1 Sample.with_event) as [e|] eqn:Hf;
    [|vm_compute in Hf; discriminate].
  assert (Ha : Event.is_active e = true)
    by (vm_compute in Hf; injection Hf as <-; reflexivity).
  destruct (toggle_twice_restores_is_active Sample.clock 1 Sample.with_event e Hf)
    as (t1 & t2 & w1 & w2 & H1 & H2 & Hfound & _).
  exists e, t1, t2, w1, w2. rewrite Ha in H1, H2.
  split; [reflexivity|]. split; [exact H1|]. split; [exact H2 | exact Hfound].
Defined.

Lemma unlocked_event_takes_the_update_witness :
  ∃ (e r : Event.t) (w' : World),
    event_found 1 Sample.with_event = Some e ∧
    Event.is_locked e = false ∧
    update_event Sample.clock 1 SampleMore.party_moved Sample.with_event = (Ok r, w') ∧
    event_found 1 w' = Some r ∧
    Event.venue r = "Muri Okunola Park".
Proof.
  destruct sample_event_found as (e & Hf & Hl).
  destruct (unlocked_event_takes_the_update Sample.clock 1 SampleMore.party_moved
              Sample.with_event e Hf Hl)
    as (r & w' & Hrun & Hfound & _ & _ & _ & Hvenue & _).
  exists e, r, w'. split; [exact Hf|]. split; [exact Hl|]. split; [exact Hrun|].
  split; [exact Hfound | exact Hvenue].
Defined.

Lemma any_batch_locks_the_event_witness :
  ∃ e e' : Event.t,
    event_found 1 Sample.with_event = Some e ∧
    Event.is_locked e = false ∧
    event_found 1 (snd (create_tickets Sample.TICKETS_DIR Sample.busy_clock Sample.close_uuid4
                          Sample.smtp_ok Sample.decodable 1 (Sample.ada 2) Sample.with_event)) = Some e' ∧
    Event.is_locked e' = true ∧
    update_event Sample.busy_clock 1 SampleMore.party_moved
      (snd (create_tickets Sample.TICKETS_DIR Sample.busy_clock Sample.close_uuid4
              Sample.smtp_ok Sample.decodable 1 (Sample.ada 2) Sample.with_event)) =
      (Raise event_locked_error,
       snd (create_tickets Sample.TICKETS_DIR Sample.busy_clock Sample.close_uuid4
              Sample.smtp_ok Sample.decodable 1 (Sample.ada 2) Sample.with_event)).
Proof.
  destruct sample_event_found as (e & Hf & Hl).
  destruct (any_batch_locks_the_event Sample.TICKETS_DIR Sample.busy_clock Sample.close_uuid4
              Sample.smtp_ok Sample.decodable 1 (Sample.ada 2) Sample.with_event e Hf)
    as (e' & Hfound & Hlocked & _ & Hupd).
  exists e, e'. split; [exact Hf|]. split; [exact Hl|]. split; [exact Hfound|].
  split; [exact Hlocked | exact (Hupd SampleMore.party_moved)].
Defined.

Lemma dashboard_adds_up_witness :
  store_ok Sample.TICKETS_DIR Sample.after_scan ∧
  ∃ g : DashboardStats.t,
    get_dashboard_stats Sample.after_scan = (Ok g, Sample.after_scan) ∧
    DashboardStats.total_tickets g = 3 ∧
    zsum (map EventStats.total_tickets (all_event_stats Sample.after_scan)) = 3 ∧
    zsum (map EventStats.used_tickets (all_event_stats Sample.after_scan)) =
      DashboardStats.used_tickets g.
Proof.
  split; [exact sample_after_scan_ok|].
  destruct (dashboard_adds_up Sample.after_scan Sample.TICKETS_DIR sample_after_scan_ok)
    as (g & Hrun & Htotal & Hused & _ & Hlen & _).
  exists g. split; [exact Hrun|]. rewrite <- Htotal, <- Hused, Hlen.
  split; [reflexivity|]. split; reflexivity.
Defined.

Lemma a_valid_scan_uses_one_ticket_witness :
  ∃ (g g' : DashboardStats.t) (answer : ScanResult) (w' : World),
    store_ok Sample.TICKETS_DIR Sample.with_tickets ∧
    fst (get_dashboard_stats Sample.with_tickets) = Ok g ∧
    validate_ticket Sample.clock Sample.first_code Sample.with_tickets = (Ok answer, w') ∧
    valid answer = true ∧
    fst (get_dashboard_stats w') = Ok g' ∧
    DashboardStats.used_tickets g = 0 ∧
    DashboardStats.used_tickets g' = 1 ∧
    DashboardStats.remaining_tickets g' = 2.
Proof.
  assert (Hg : fst (get_dashboard_stats Sample.with_tickets) =
               Ok (DashboardStats.mk 3 0 3 1 1)) by (vm_compute; reflexivity).
  destruct (a_valid_scan_uses_one_ticket Sample.clock Sample.TICKETS_DIR Sample.first_code
              Sample.with_tickets _ sample_with_tickets_ok Hg)
    as (answer & w' & g' & Hrun & Hg' & _ & _ & _ & Hused & Hrem).
  assert (Hvalid : valid answer = true).
  { apply (f_equal fst) in Hrun. vm_compute in Hrun. injection Hrun as <-. reflexivity. }
  rewrite Hvalid in Hused, Hrem.
  exists (DashboardStats.mk 3 0 3 1 1), g', answer, w'.
  split; [exact sample_with_tickets_ok|]. split; [exact Hg|]. split; [exact Hrun|].
  split; [exact Hvalid|]. split; [exact Hg'|]. split; [reflexivity|].
  split; [exact Hused | exact Hrem].
Defined.

Lemma batch_stops_at_first_collision_witness :
  ∃ (e : Event.t) (created : list Ticket.t) (w' : World),
    event_found 1 Sample.with_event = Some e ∧
    (1 < Z.to_nat (TicketCreate.quantity (Sample.ada 2)))%nat ∧
    NoDup (batch_ids Sample.busy_clock Sample.close_uuid4 3 0 1) ∧
    In (ticket_id_at Sample.busy_clock Sample.close_uuid4 6 1)
       (batch_ids Sample.busy_clock Sample.close_uuid4 3 0 1) ∧
    readable Sample.decodable (design_of (files Sample.with_event) e) = true ∧
    create_tickets Sample.TICKETS_DIR Sample.busy_clock Sample.close_uuid4 Sample.smtp_ok
      Sample.decodable 1 (Sample.ada 2) Sample.with_event = (Raise IntegrityError, w') ∧
    tickets w' = created ∧ List.length created = 1%nat.
Proof.
  destruct (event_found 1 Sample.with_event) as [e|] eqn:Hf;
    [|vm_compute in Hf; discriminate].
  assert (Hl : Event.is_locked e = false)
    by (vm_compute in Hf; injection Hf as <-; reflexivity).
  assert (Hread : readable Sample.decodable (design_of (files Sample.with_event) e) = true)
    by (vm_compute in Hf; injection Hf as <-; reflexivity).
  assert (Hj : (1 < Z.to_nat (TicketCreate.quantity (Sample.ada 2)))%nat) by (cbn; lia).
  assert (Hnd : NoDup (batch_ids Sample.busy_clock Sample.close_uuid4 3 0 1))
    by (apply (bool_decide_unpack _); vm_compute; exact I).
  assert (Hhit : In (ticket_id_at Sample.busy_clock Sample.close_uuid4 6 1)
                    (batch_ids Sample.busy_clock Sample.close_uuid4 3 0 1))
    by (left; vm_compute; reflexivity).
  pose proof (batch_stops_at_first_collision Sample.TICKETS_DIR Sample.busy_clock
                Sample.close_uuid4 Sample.decodable Sample.smtp_ok 1 (Sample.ada 2)
                Sample.with_event e 1 Hf Hj) as H.
  cbn zeta in H. unfold after_lock in H. rewrite Hl in H.
  destruct (H Hnd (λ i _ (F : In i []), F) Hhit Hread)
    as (created & w' & e' & Hrun & Hts & _ & Hlen & _).
  exists e, created, w'. split; [reflexivity|]. split; [exact Hj|]. split; [exact Hnd|].
  split; [exact Hhit|]. split; [exact Hread|]. split; [exact Hrun|].
  split; [exact Hts | exact Hlen].
Defined.

Lemma identifiers_collide_iff_witness :
  valid_datetime (Sample.busy_clock 3) ∧ valid_datetime (Sample.busy_clock 6) ∧
  Sample.busy_clock 3 ≠ Sample.busy_clock 6 ∧
  Sample.close_uuid4 0 ≠ Sample.close_uuid4 1 ∧
  ticket_id_at Sample.busy_clock Sample.close_uuid4 3 0 =
  ticket_id_at Sample.busy_clock Sample.close_uuid4 6 1.
Proof.
  assert (Hv : ∀ n, (n ≤ 6)%nat → valid_datetime (Sample.busy_clock n)).
  { intros n Hn. unfold valid_datetime, Sample.busy_clock.
    cbn [year month day hour minute second microsecond]. repeat split; datetime_bounds. }
  split; [apply Hv; lia|]. split; [apply Hv; lia|].
  split; [discriminate|]. split; [vm_compute; discriminate|].
  apply (identifiers_collide_iff Sample.busy_clock Sample.close_uuid4 3 0 6 1);
    [apply Hv; lia | apply Hv; lia |].
  split; [repeat split | vm_compute; reflexivity].
Defined.

Lemma issued_ticket_is_let_in_once_witness :
  ∃ (e : Event.t) (created : list Ticket.t) (w' : World),
    event_found 1 Sample.with_event = Some e ∧
    NoDup (batch_ids Sample.clock Sample.uuid4 3 0 3) ∧
    (∀ i, In i (batch_ids Sample.clock Sample.uuid4 3 0 3) →
          ¬ In i (map Ticket.ticket_id (tickets Sample.with_event))) ∧
    readable Sample.decodable (design_of (files Sample.with_event) e) = true ∧
    create_tickets Sample.TICKETS_DIR Sample.clock Sample.uuid4 Sample.smtp_ok
      Sample.decodable 1 (Sample.ada 3) Sample.with_event = (Ok created, w') ∧
    List.length created = 3%nat ∧
    ∀ k, In k created →
      ∃ (e' : Event.t) (w'' : World),
        scans Sample.clock 2 (ScanRequest.mk (Ticket.ticket_id k)) w' =
          (Ok [valid_answer k e'; already_used_answer k (Sample.clock (ticks w'))], w'').
Proof.
  destruct (event_found 1 Sample.with_event) as [e|] eqn:Hf;
    [|vm_compute in Hf; discriminate].
  assert (Hl : Event.is_locked e = false)
    by (vm_compute in Hf; injection Hf as <-; reflexivity).
  assert (Hread : readable Sample.decodable (design_of (files Sample.with_event) e) = true)
    by (vm_compute in Hf; injection Hf as <-; reflexivity).
  assert (Hnd : NoDup (batch_ids Sample.clock Sample.uuid4 3 0 3))
    by (apply (bool_decide_unpack _); vm_compute; exact I).
  assert (Hnew : ∀ i, In i (batch_ids Sample.clock Sample.uuid4 3 0 3) →
                      ¬ In i (map Ticket.ticket_id (tickets Sample.with_event)))
    by (intros i _ []).
  pose proof (issued_ticket_is_let_in_once Sample.TICKETS_DIR Sample.clock Sample.uuid4
                Sample.smtp_ok Sample.decodable 1 (Sample.ada 3) Sample.with_event e Hf) as H.
  cbn zeta in H. unfold after_lock in H. rewrite Hl in H.
  destruct (H Hnd Hnew Hread) as (created & w' & Hrun & Hlen & Hscans).
  exists e, created, w'. split; [reflexivity|]. split; [exact Hnd|]. split; [exact Hnew|].
  split; [exact Hread|]. split; [exact Hrun|]. split; [exact Hlen|].
  intros k Hk. destruct (Hscans k Hk) as (e' & w'' & Hs & _). now exists e', w''.
Defined.

Lemma resend_makes_one_attempt_witness :
  store_ok Sample.TICKETS_DIR Sample.with_tickets ∧
  ticket_found 1 Sample.with_tickets = Some Sample.first_ticket ∧
  fst (resend_ticket Sample.smtp_ok 1 Sample.with_tickets) =
    Ok "Ticket email resent successfully" ∧
  List.length (outbox (snd (resend_ticket Sample.smtp_ok 1 Sample.with_tickets))) =
    S (List.length (outbox Sample.with_tickets)).
Proof.
  split; [exact sample_with_tickets_ok|]. split; [exact sample_ticket_found|].
  destruct (resend_makes_one_attempt Sample.TICKETS_DIR Sample.smtp_ok 1 Sample.with_tickets
              Sample.first_ticket sample_with_tickets_ok sample_ticket_found)
    as (e & answer & _ & Hrun & Hanswer).
  rewrite Hrun, Hanswer. cbn [fst snd outbox set_outbox]. split; [reflexivity|].
  rewrite length_app. cbn [List.length]. lia.
Defined.

Lemma upload_stores_the_design_witness :
  ∃ (e e' : Event.t) (w' : World),
    event_found 1 Sample.with_tickets = Some e ∧
    upload_ticket_design Sample.UPLOAD_DIR Sample.clock Sample.splitext_ext 1
      SampleMore.poster Sample.with_tickets =
      (Ok ("Ticket design uploaded successfully",
           design_path Sample.UPLOAD_DIR Sample.splitext_ext 1 SampleMore.poster), w') ∧
    files w' !! design_path Sample.UPLOAD_DIR Sample.splitext_ext 1 SampleMore.poster =
      Some (Uploaded "P6 1 1 255 abc") ∧
    event_found 1 w' = Some e' ∧
    Event.is_locked e' = Event.is_locked e.
Proof.
  destruct (event_found 1 Sample.with_tickets) as [e|] eqn:Hf;
    [|vm_compute in Hf; discriminate].
  pose proof (upload_stores_the_design Sample.UPLOAD_DIR Sample.clock Sample.splitext_ext 1
                SampleMore.poster Sample.with_tickets e Hf) as H.
  cbv zeta in H.
  change (content_type SampleMore.poster) with (Some "image/x-portable-pixmap") in H.
  cbv beta iota in H.
  assert (Hp : prefix "image/" "image/x-portable-pixmap" = true)
    by (vm_compute; reflexivity).
  rewrite Hp in H. destruct H as (e' & w' & Hrun & Hfiles & Hfound & _ & Hlock & _).
  exists e, e', w'. split; [reflexivity|]. split; [exact Hrun|].
  split; [rewrite Hfiles; apply lookup_insert_eq|]. split; [exact Hfound | exact Hlock].
Defined.

Lemma edit_after_upload_renders_over_the_design_witness :
  store_ok Sample.TICKETS_DIR Sample.with_tickets ∧
  ticket_found 1 Sample.with_tickets = Some Sample.first_ticket ∧
  Ticket.event_id Sample.first_ticket = 1 ∧
  content_type SampleMore.poster = Some "image/x-portable-pixmap" ∧
  prefix "image/" "image/x-portable-pixmap" = true ∧
  Sample.decodable (file SampleMore.poster) = true ∧
  readable Sample.decodable
    (files Sample.with_tickets !!
       qr_path Sample.TICKETS_DIR (Ticket.ticket_id Sample.first_ticket)) = true ∧
  ∃ (r : Ticket.t) (w2 : World) (qr : option image) (texts : list (Z * Z * string * font)),
    update_ticket Sample.TICKETS_DIR Sample.clock Sample.decodable 1 Sample.rename
      (snd (upload_ticket_design Sample.UPLOAD_DIR Sample.clock Sample.splitext_ext 1
              SampleMore.poster Sample.with_tickets)) = (Ok r, w2) ∧
    files w2 !! ticket_path Sample.TICKETS_DIR (Ticket.ticket_id Sample.first_ticket) =
      Some (TicketImage (Some (Uploaded (file SampleMore.poster))) qr texts).
Proof.
  assert (Hp : prefix "image/" "image/x-portable-pixmap" = true)
    by (vm_compute; reflexivity).
  assert (Hd : Sample.decodable (file SampleMore.poster) = true)
    by (vm_compute; reflexivity).
  assert (Hqr : readable Sample.decodable
                  (files Sample.with_tickets !!
                     qr_path Sample.TICKETS_DIR (Ticket.ticket_id Sample.first_ticket)) = true)
    by (vm_compute; reflexivity).
  split; [exact sample_with_tickets_ok|]. split; [exact sample_ticket_found|].
  split; [reflexivity|]. split; [reflexivity|]. split; [exact Hp|]. split; [exact Hd|].
  split; [exact Hqr|].
  exact (edit_after_upload_renders_over_the_design Sample.UPLOAD_DIR Sample.TICKETS_DIR
           Sample.clock Sample.splitext_ext Sample.decodable 1 1 SampleMore.poster
           "image/x-portable-pixmap" Sample.rename
           Sample.with_tickets Sample.first_ticket sample_with_tickets_ok
           sample_ticket_found eq_refl eq_refl Hp Hd Hqr).
Defined.

Lemma issued_ticket_has_its_files_witness :
  ∃ (e : Event.t) (created : list Ticket.t) (w' : World),
    event_found 1 Sample.with_event = Some e ∧
    NoDup (batch_ids Sample.clock Sample.uuid4 3 0 3) ∧
    (∀ i, In i (batch_ids Sample.clock Sample.uuid4 3 0 3) →
          ¬ In i (map Ticket.ticket_id (tickets Sample.with_event))) ∧
    readable Sample.decodable (design_of (files Sample.with_event) e) = true ∧
    create_tickets Sample.TICKETS_DIR Sample.clock Sample.uuid4 Sample.smtp_ok
      Sample.decodable 1 (Sample.ada 3) Sample.with_event = (Ok created, w') ∧
    ∀ k, In k created → has_its_files Sample.TICKETS_DIR (files w') k.
Proof.
  destruct (event_found 1 Sample.with_event) as [e|] eqn:Hf;
    [|vm_compute in Hf; discriminate].
  assert (Hl : Event.is_locked e = false)
    by (vm_compute in Hf; injection Hf as <-; reflexivity).
  assert (Hread : readable Sample.decodable (design_of (files Sample.with_event) e) = true)
    by (vm_compute in Hf; injection Hf as <-; reflexivity).
  assert (Hnd : NoDup (batch_ids Sample.clock Sample.uuid4 3 0 3))
    by (apply (bool_decide_unpack _); vm_compute; exact I).
  assert (Hnew : ∀ i, In i (batch_ids Sample.clock Sample.uuid4 3 0 3) →
                      ¬ In i (map Ticket.ticket_id (tickets Sample.with_event)))
    by (intros i _ []).
  pose proof (issued_ticket_has_its_files Sample.TICKETS_DIR Sample.clock Sample.uuid4
                Sample.smtp_ok Sample.decodable 1 (Sample.ada 3) Sample.with_event e Hf) as H.
  cbn zeta in H. unfold after_lock in H. rewrite Hl in H.
  destruct (H Hnd Hnew Hread) as (created & w' & Hrun & Hfiles & _).
  exists e, created, w'. split; [reflexivity|]. split; [exact Hnd|]. split; [exact Hnew|].
  split; [exact Hread|]. split; [exact Hrun|]. intros k Hk. exact (proj1 (Hfiles k Hk)).
Defined.

Lemma delete_event_removes_event_and_its_tickets_witness :
  ∃ (e : Event.t) (w' : World),
    event_found 1 Sample.with_tickets = Some e ∧
    fst (delete_event 1 Sample.with_tickets) =
      Ok "Event 'Lagos Jazz Night' and all associated tickets deleted successfully" ∧
    snd (delete_event 1 Sample.with_tickets) = w' ∧
    event_found 1 w' = None ∧
    tickets w' = [].
Proof.
  destruct (event_found 1 Sample.with_tickets) as [e|] eqn:Hf;
    [|vm_compute in Hf; discriminate].
  destruct (delete_event_removes_event_and_its_tickets 1 Sample.with_tickets e Hf)
    as (w' & Hrun & Hgone & _ & Hts & _).
  exists e, w'. split; [reflexivity|]. rewrite Hrun. cbn [fst snd].
  split; [vm_compute in Hf; injection Hf as <-; reflexivity|]. split; [reflexivity|].
  split; [exact Hgone|]. rewrite Hts. vm_compute. reflexivity.
Defined.

Lemma identifier_shape_witness :
  valid_datetime (Sample.clock 3) ∧
  (8 ≤ String.length (Sample.uuid4 0))%nat ∧
  String.prefix "TKT-" (ticket_id_at Sample.clock Sample.uuid4 3 0) = true ∧
  String.length (ticket_id_at Sample.clock Sample.uuid4 3 0) = 27%nat.
Proof.
  assert (Hv : valid_datetime (Sample.clock 3)).
  { unfold valid_datetime, Sample.clock.
    cbn [year month day hour minute second microsecond]. repeat split; datetime_bounds. }
  assert (Hu : (8 ≤ String.length (Sample.uuid4 0))%nat)
    by (apply Nat.leb_le; vm_compute; reflexivity).
  split; [exact Hv|]. split; [exact Hu|].
  exact (identifier_shape Sample.clock Sample.uuid4 3 0 Hv Hu).
Defined.



